(** * Auth-profile failover core: usage statistics, cooldowns and the
      infinite-retry driver

    A shallow embedding of
      - [agents/auth-profiles/types.ts] (the store schema),
      - the usage module of [agents/auth-profiles] (eligibility oracle,
        cooldown calculators, usage-stats updater, mark and clear entry
        points),
      - [agents/pi-embedded-runner/infinite-retry.ts] (the retry loop), and
      - [extractRetryAfterMs] (the Retry-After extractor),
    followed by the properties established about them. *)

From Stdlib Require Import ZArith QArith Qround String Ascii List Bool Lia.
From stdpp Require Import base option list gmap strings pretty.

Set Warnings "-register-all".

Open Scope string_scope.
Open Scope Z_scope.

(** ** JavaScript numbers

    Every number this code handles is a counter or a whole number of
    milliseconds, so a [number] is modelled as an integer extended with the
    three non-finite doubles.  Rounding of doubles and fractional values are
    outside the model (the one place where the source goes through a
    fraction, [Math.ceil(parseFloat(s) * 1000)], is computed over [Q]). *)

Inductive num : Type :=
| Fin (z : Z)
| PosInf
| NegInf
| NaN.

#[global] Instance num_eq_dec : EqDecision num.
Proof. solve_decision. Defined.

Module JsNum.

(** [Number.isFinite(x)] *)
Definition isFinite (x : num) : bool :=
  match x with Fin _ => true | _ => false end.

(** Truthiness of a number: everything except [0] and [NaN]. *)
Definition truthy (x : num) : bool :=
  match x with
  | Fin z => negb (z =? 0)
  | NaN => false
  | _ => true
  end.

(** [-x] *)
Definition neg (x : num) : num :=
  match x with
  | Fin z => Fin (- z)
  | PosInf => NegInf
  | NegInf => PosInf
  | NaN => NaN
  end.

(** [x + y] *)
Definition add (x y : num) : num :=
  match x, y with
  | NaN, _ | _, NaN => NaN
  | Fin a, Fin b => Fin (a + b)
  | PosInf, NegInf | NegInf, PosInf => NaN
  | PosInf, _ | _, PosInf => PosInf
  | NegInf, _ | _, NegInf => NegInf
  end.

(** [x - y] *)
Definition sub (x y : num) : num := add x (neg y).

(** An infinity of the sign of [z] times the sign [pos]; [NaN] for [0]. *)
Definition signed_inf (pos : bool) (z : Z) : num :=
  if z =? 0 then NaN
  else if Bool.eqb pos (0 <? z) then PosInf else NegInf.

(** [x * y] *)
Definition mul (x y : num) : num :=
  match x, y with
  | NaN, _ | _, NaN => NaN
  | Fin a, Fin b => Fin (a * b)
  | PosInf, Fin b | Fin b, PosInf => signed_inf true b
  | NegInf, Fin b | Fin b, NegInf => signed_inf false b
  | PosInf, PosInf | NegInf, NegInf => PosInf
  | PosInf, NegInf | NegInf, PosInf => NegInf
  end.

(** [x < y]; every comparison with [NaN] is false. *)
Definition lt (x y : num) : bool :=
  match x, y with
  | NaN, _ | _, NaN => false
  | Fin a, Fin b => a <? b
  | NegInf, NegInf => false
  | NegInf, _ => true
  | _, NegInf => false
  | PosInf, _ => false
  | Fin _, PosInf => true
  end.

(** [x > y] *)
Definition gt (x y : num) : bool := lt y x.

(** [x <= y] *)
Definition le (x y : num) : bool :=
  match x, y with
  | NaN, _ | _, NaN => false
  | Fin a, Fin b => a <=? b
  | NegInf, _ => true
  | _, PosInf => true
  | _, _ => false
  end.

(** [x >= y] *)
Definition ge (x y : num) : bool := le y x.

(** [Math.max(x, y)] *)
Definition max (x y : num) : num :=
  match x, y with
  | NaN, _ | _, NaN => NaN
  | _, _ => if lt x y then y else x
  end.

(** [Math.min(x, y)] *)
Definition min (x y : num) : num :=
  match x, y with
  | NaN, _ | _, NaN => NaN
  | _, _ => if lt y x then y else x
  end.

(** [Math.ceil(x / d)] for a positive integer literal [d]. *)
Definition ceilDiv (x : num) (d : Z) : num :=
  match x with
  | Fin z => Fin ((z + d - 1) / d)
  | _ => x
  end.

(** [Math.max(...xs)]: the maximum of no arguments is [-Infinity]. *)
Definition max_list (xs : list num) : num := foldr max NegInf xs.

(** [b ** e] (Number::exponentiate).  A finite negative exponent on a base
    of magnitude at least two yields a proper fraction, which the integer
    model cannot hold; that case is given [NaN].  It is never reached from
    the two calculators below: their exponent is [NaN] or at least [0]
    (lemma [backoff_exponent_nonneg]). *)
Definition pow (b e : num) : num :=
  match e with
  | NaN => NaN
  | Fin 0 => Fin 1
  | Fin k =>
      match b with
      | NaN => NaN
      | Fin a =>
          if 0 <? k then Fin (a ^ k)
          else if a =? 0 then PosInf
          else if a =? 1 then Fin 1
          else if a =? -1 then Fin (if Z.even k then 1 else -1)
          else NaN
      | PosInf => if 0 <? k then PosInf else Fin 0
      | NegInf =>
          if 0 <? k then (if Z.odd k then NegInf else PosInf) else Fin 0
      end
  | PosInf =>
      match b with
      | NaN => NaN
      | Fin a => if 1 <? Z.abs a then PosInf
                 else if Z.abs a =? 1 then NaN else Fin 0
      | _ => PosInf
      end
  | NegInf =>
      match b with
      | NaN => NaN
      | Fin a => if 1 <? Z.abs a then Fin 0
                 else if Z.abs a =? 1 then NaN else PosInf
      | _ => Fin 0
      end
  end.

End JsNum.

(** [x ?? d] on an optional value. *)
Definition nullish {A : Type} (x : option A) (d : A) : A :=
  match x with Some v => v | None => d end.

(** Truthiness of a string: everything except the empty string. *)
Definition str_truthy (s : string) : bool :=
  match s with EmptyString => false | _ => true end.

(** Truthiness of an optional string parameter such as [modelId?]. *)
Definition opt_str_truthy (s : option string) : bool :=
  match s with Some v => str_truthy v | None => false end.

(** An optional string parameter narrowed by a truthiness test: the string
    inside [if (modelId) { ... }], nothing otherwise. *)
Definition truthy_string (s : option string) : option string :=
  match s with
  | Some v => if str_truthy v then Some v else None
  | None => None
  end.

(** ** Cooldown calculators *)

(** [calculateAuthProfileCooldownMs(errorCount)] *)
Definition calculateAuthProfileCooldownMs (errorCount : num) : num :=
  let normalized := JsNum.max (Fin 1) errorCount in
  JsNum.min
    (Fin (60 * 60 * 1000))
    (JsNum.mul (Fin (60 * 1000))
       (JsNum.pow (Fin 5) (JsNum.min (JsNum.sub normalized (Fin 1)) (Fin 3)))).

(** [calculateAuthProfileBillingDisableMsWithConfig({errorCount, baseMs, maxMs})] *)
Definition calculateAuthProfileBillingDisableMsWithConfig
    (errorCount baseMs_param maxMs_param : num) : num :=
  let normalized := JsNum.max (Fin 1) errorCount in
  let baseMs := JsNum.max (Fin 60000) baseMs_param in
  let maxMs := JsNum.max baseMs maxMs_param in
  let exponent := JsNum.min (JsNum.sub normalized (Fin 1)) (Fin 10) in
  let raw := JsNum.mul baseMs (JsNum.pow (Fin 2) exponent) in
  JsNum.min maxMs raw.

(** The billing backoff as the specification writes it, over the integers:
    [min(maxMs, max(60_000, baseMs) * 2^min(n-1, 10))] with [maxMs] clamped
    up to at least [baseMs]. *)
Definition billingBackoff_spec (n baseMs maxMs : Z) : Z :=
  Z.min (Z.max baseMs maxMs) (Z.max 60000 baseMs * 2 ^ Z.min (n - 1) 10).

(** ** Store schema (types.ts) *)

(** [AuthProfileFailureReason]: the closed set of string literals
    ["auth" | "format" | "rate_limit" | "billing" | "timeout" | "unknown"]. *)
Inductive AuthProfileFailureReason : Type :=
| reason_auth
| reason_format
| reason_rate_limit
| reason_billing
| reason_timeout
| reason_unknown.

#[global] Instance reason_eq_dec : EqDecision AuthProfileFailureReason.
Proof. solve_decision. Defined.

#[global] Instance reason_countable : Countable AuthProfileFailureReason.
Proof.
  refine (inj_countable'
    (fun r => match r with
              | reason_auth => 0 | reason_format => 1 | reason_rate_limit => 2
              | reason_billing => 3 | reason_timeout => 4 | reason_unknown => 5
              end%nat)
    (fun n => match n with
              | 0 => reason_auth | 1 => reason_format | 2 => reason_rate_limit
              | 3 => reason_billing | 4 => reason_timeout | _ => reason_unknown
              end%nat) _).
  by intros [].
Defined.

(** JavaScript values, as far as this code looks into them: the opaque error
    handed to [extractRetryAfterMs], and the fields of a persisted object that
    the schema does not name. *)
Inductive JsVal : Type :=
| JUndefined
| JNull
| JBool (b : bool)
| JNum (n : num)
| JStr (s : string)
| JArr (items : list JsVal)
| JObj (props : list (string * JsVal)).

(** [ModelUsageStats].  An optional field is [None] when it is missing or
    holds [undefined]; the two are indistinguishable to [typeof], [??],
    truthiness and JSON serialisation, the only observers in this code.
    [unknownFields] are the own properties the schema does not name: an
    object spread copies them along with the named ones. *)
Module ModelUsageStats.
Record t : Type := mk {
  lastUsed : option num;
  cooldownUntil : option num;
  errorCount : option num;
  lastFailureAt : option num;
  unknownFields : gmap string JsVal
}.

(** The object literal [{}]. *)
Definition empty : t := mk None None None None ∅.
End ModelUsageStats.

(** [ProfileUsageStats] *)
Module ProfileUsageStats.
Record t : Type := mk {
  lastUsed : option num;
  cooldownUntil : option num;
  disabledUntil : option num;
  disabledReason : option AuthProfileFailureReason;
  errorCount : option num;
  failureCounts : option (gmap AuthProfileFailureReason num);
  lastFailureAt : option num;
  modelStats : option (gmap string ModelUsageStats.t);
  unknownFields : gmap string JsVal
}.

(** The object literal [{}]. *)
Definition empty : t := mk None None None None None None None None ∅.
End ProfileUsageStats.

(** [AuthProfileCredential]: the tagged union of the three credential shapes.
    The OAuth payload comes from an external package and is kept as a bag of
    properties. *)
Inductive AuthProfileCredential : Type :=
| ApiKeyCredential (provider : string) (key email : option string)
    (metadata : option (gmap string string))
| TokenCredential (provider token : string) (expires : option num)
    (email : option string)
| OAuthCredential (provider : string) (clientId email : option string)
    (payload : gmap string JsVal).

(** [AuthProfileStore] *)
Record AuthProfileStore : Type := mkStore {
  version : num;
  profiles : gmap string AuthProfileCredential;
  order : option (gmap string (list string));
  lastGood : option (gmap string string);
  usageStats : option (gmap string ProfileUsageStats.t)
}.

(** [store.usageStats = v] *)
Definition set_usageStats (store : AuthProfileStore)
    (v : option (gmap string ProfileUsageStats.t)) : AuthProfileStore :=
  mkStore (version store) (profiles store) (order store) (lastGood store) v.

(** [store.usageStats?.[profileId]] *)
Definition usageStatsOf (store : AuthProfileStore) (profileId : string)
    : option ProfileUsageStats.t :=
  match usageStats store with
  | Some us => us !! profileId
  | None => None
  end.

(** [stats.modelStats?.[modelId]] *)
Definition modelStatsOf (stats : ProfileUsageStats.t) (modelId : string)
    : option ModelUsageStats.t :=
  match ProfileUsageStats.modelStats stats with
  | Some ms => ms !! modelId
  | None => None
  end.

(** ** Eligibility oracle *)

(** [resolveProfileUnusableUntil(stats, modelId?)].  [None] is [null]. *)
Definition resolveProfileUnusableUntil (stats : ProfileUsageStats.t)
    (modelId : option string) : option num :=
  let values :=
    List.filter (fun value => JsNum.isFinite value && JsNum.gt value (Fin 0))
      (omap id [ProfileUsageStats.cooldownUntil stats;
                ProfileUsageStats.disabledUntil stats]) in
  let values :=
    match truthy_string modelId with
    | Some m =>
        match modelStatsOf stats m with
        | Some ms =>
            match ModelUsageStats.cooldownUntil ms with
            | Some c => if JsNum.truthy c then (values ++ [c])%list else values
            | None => values
            end
        | None => values
        end
    | None => values
    end in
  match values with
  | [] => None
  | _ => Some (JsNum.max_list values)
  end.

(** [isProfileInCooldown(store, profileId, modelId?)]; [now] is the reading
    of [Date.now()]. *)
Definition isProfileInCooldown (store : AuthProfileStore) (profileId : string)
    (modelId : option string) (now : Z) : bool :=
  match usageStatsOf store profileId with
  | None => false
  | Some stats =>
      match resolveProfileUnusableUntil stats modelId with
      | Some unusableUntil =>
          if JsNum.truthy unusableUntil
          then JsNum.lt (Fin now) unusableUntil
          else false
      | None => false
      end
  end.

(** [resolveProfileUnusableUntilForDisplay(store, profileId, modelId?)] *)
Definition resolveProfileUnusableUntilForDisplay (store : AuthProfileStore)
    (profileId : string) (modelId : option string) : option num :=
  match usageStatsOf store profileId with
  | None => None
  | Some stats => resolveProfileUnusableUntil stats modelId
  end.

(** A timestamp as the specification reads it (data-model invariant 2):
    present, finite and strictly positive, otherwise absent. *)
Definition presentTimestamp (value : option num) : option num :=
  match value with
  | Some v => if JsNum.isFinite v && JsNum.gt v (Fin 0) then Some v else None
  | None => None
  end.

(** [resolveUnusableUntil] as the specification words it (section 4.5): the
    maximum over [cooldownUntil], [disabledUntil] and
    [modelStats[modelId].cooldownUntil], considering only present, finite,
    strictly positive values; null if there is none.  To be compared with
    [resolveProfileUnusableUntil], which is the source. *)
Definition resolveUnusableUntil_spec (stats : ProfileUsageStats.t)
    (modelId : option string) : option num :=
  let values :=
    omap presentTimestamp
      [ProfileUsageStats.cooldownUntil stats;
       ProfileUsageStats.disabledUntil stats;
       match modelId with
       | Some m =>
           match modelStatsOf stats m with
           | Some ms => ModelUsageStats.cooldownUntil ms
           | None => None
           end
       | None => None
       end] in
  match values with
  | [] => None
  | _ => Some (JsNum.max_list values)
  end.

(** ** Locked store *)

(** Modelled from the spec: the state behind store.ts, which is missing.
    Section 4.4 and section 5: one store file on disk, guarded by an
    exclusive lock that may be unavailable. *)
Record StoreFile : Type := mkFile {
  diskStore : AuthProfileStore;
  lockAvailable : bool
}.

(** Modelled from the spec: [updateAuthProfileStoreWithLock] lives in
    store.ts, which is missing.  Section 4.4: take the exclusive lock, re-read
    the store from disk, run [updater] on that fresh copy (it may mutate the
    copy and says whether a write is needed), on [true] replace the file and
    return the post-update store, otherwise return absent.  Section 7: a
    locking or I/O failure reaches the caller as an absent result and changes
    nothing on disk.  The updater is a function from the fresh store to its
    verdict and the mutated store. *)
Definition updateAuthProfileStoreWithLock (file : StoreFile)
    (updater : AuthProfileStore -> bool * AuthProfileStore)
    : StoreFile * option AuthProfileStore :=
  if lockAvailable file then
    let '(changed, freshStore) := updater (diskStore file) in
    if changed
    then (mkFile freshStore (lockAvailable file), Some freshStore)
    else (file, None)
  else (file, None).

(** Modelled from the spec: [saveAuthProfileStore] lives in store.ts, which
    is missing.  Section 4.4: the fallback write path, a plain atomic
    replacement of the file by the given store. *)
Definition saveAuthProfileStore (file : StoreFile) (store : AuthProfileStore)
    : StoreFile :=
  mkFile store (lockAvailable file).

(** ** Usage-stats updater *)

(** The statistics [markAuthProfileUsed] writes for a profile (the block
    [const newStats = { ...existing, ... }; if (modelId) { ... }], which the
    source spells out twice, once in the locked updater and once in the
    fallback path). *)
Definition markUsedStats (existing : ProfileUsageStats.t)
    (modelId : option string) (now : Z) : ProfileUsageStats.t :=
  let newStats :=
    ProfileUsageStats.mk
      (Some (Fin now))                           (* lastUsed: Date.now() *)
      None                                       (* cooldownUntil: undefined *)
      None                                       (* disabledUntil: undefined *)
      None                                       (* disabledReason: undefined *)
      (Some (Fin 0))                             (* errorCount: 0 *)
      None                                       (* failureCounts: undefined *)
      (ProfileUsageStats.lastFailureAt existing) (* ...existing *)
      (ProfileUsageStats.modelStats existing)
      (ProfileUsageStats.unknownFields existing) in
  match truthy_string modelId with
  | Some m =>
      let modelStats := nullish (ProfileUsageStats.modelStats newStats) ∅ in
      ProfileUsageStats.mk
        (ProfileUsageStats.lastUsed newStats)
        (ProfileUsageStats.cooldownUntil newStats)
        (ProfileUsageStats.disabledUntil newStats)
        (ProfileUsageStats.disabledReason newStats)
        (ProfileUsageStats.errorCount newStats)
        (ProfileUsageStats.failureCounts newStats)
        (ProfileUsageStats.lastFailureAt newStats)
        (Some (<[m := ModelUsageStats.mk
                        (Some (Fin now))         (* lastUsed: Date.now() *)
                        None                     (* cooldownUntil: undefined *)
                        (Some (Fin 0))           (* errorCount: 0 *)
                        None                     (* no spread: nothing else *)
                        ∅]> modelStats))
        (ProfileUsageStats.unknownFields newStats)
  | None => newStats
  end.

(** The updater closure of [markAuthProfileUsed]. *)
Definition markUsedUpdater (profileId : string) (modelId : option string)
    (now : Z) (freshStore : AuthProfileStore) : bool * AuthProfileStore :=
  match profiles freshStore !! profileId with
  | None => (false, freshStore)
  | Some _ =>
      let stats := nullish (usageStats freshStore) ∅ in
      let existing := nullish (stats !! profileId) ProfileUsageStats.empty in
      let newStats := markUsedStats existing modelId now in
      (true, set_usageStats freshStore (Some (<[profileId := newStats]> stats)))
  end.

(** [markAuthProfileUsed({store, profileId, modelId, agentDir})]: the state
    is the store file and the caller's in-memory [store]. *)
Definition markAuthProfileUsed (file : StoreFile) (store : AuthProfileStore)
    (profileId : string) (modelId : option string) (now : Z)
    : StoreFile * AuthProfileStore :=
  let '(file, updated) :=
    updateAuthProfileStoreWithLock file (markUsedUpdater profileId modelId now) in
  match updated with
  | Some updated => (file, set_usageStats store (usageStats updated))
  | None =>
      match profiles store !! profileId with
      | None => (file, store)
      | Some _ =>
          let stats := nullish (usageStats store) ∅ in
          let existing := nullish (stats !! profileId) ProfileUsageStats.empty in
          let newStats := markUsedStats existing modelId now in
          let store := set_usageStats store (Some (<[profileId := newStats]> stats)) in
          (saveAuthProfileStore file store, store)
      end
  end.

(** [ResolvedAuthCooldownConfig] *)
Record ResolvedAuthCooldownConfig : Type := mkCooldownConfig {
  billingBackoffMs : num;
  billingMaxMs : num;
  failureWindowMs : num
}.

(** [computeNextProfileUsageStats({existing, now, reason, cfgResolved,
    modelId, retryAfterMs})] *)
Definition computeNextProfileUsageStats (existing : ProfileUsageStats.t)
    (now : num) (reason : AuthProfileFailureReason)
    (cfgResolved : ResolvedAuthCooldownConfig)
    (modelId : option string) (retryAfterMs : option num)
    : ProfileUsageStats.t :=
  let windowMs := failureWindowMs cfgResolved in
  let windowExpired :=
    match ProfileUsageStats.lastFailureAt existing with
    | Some lastFailureAt =>
        JsNum.gt lastFailureAt (Fin 0)
        && JsNum.gt (JsNum.sub now lastFailureAt) windowMs
    | None => false
    end in
  let updatedStats := existing in
  if decide (reason = reason_billing) then
    let failureCounts : gmap AuthProfileFailureReason num :=
      if windowExpired then ∅
      else nullish (ProfileUsageStats.failureCounts existing) ∅ in
    let failureCounts :=
      <[reason := JsNum.add (nullish (failureCounts !! reason) (Fin 0)) (Fin 1)]>
        failureCounts in
    let billingCount := nullish (failureCounts !! reason_billing) (Fin 1) in
    let backoffMs :=
      calculateAuthProfileBillingDisableMsWithConfig
        billingCount (billingBackoffMs cfgResolved) (billingMaxMs cfgResolved) in
    ProfileUsageStats.mk
      (ProfileUsageStats.lastUsed updatedStats)
      (ProfileUsageStats.cooldownUntil updatedStats)
      (Some (JsNum.add now backoffMs))
      (Some reason_billing)
      (ProfileUsageStats.errorCount updatedStats)
      (Some failureCounts)
      (Some now)
      (ProfileUsageStats.modelStats updatedStats)
      (ProfileUsageStats.unknownFields updatedStats)
  else
    let isModelSpecific :=
      opt_str_truthy modelId
      && (bool_decide (reason = reason_rate_limit)
          || bool_decide (reason = reason_timeout)) in
    match (if isModelSpecific then truthy_string modelId else None) with
    | Some m =>
        let allModelStats :=
          nullish (ProfileUsageStats.modelStats updatedStats) ∅ in
        let modelStats := nullish (allModelStats !! m) ModelUsageStats.empty in
        let modelErrorCount :=
          JsNum.add (nullish (ModelUsageStats.errorCount modelStats) (Fin 0))
            (Fin 1) in
        let backoffMs :=
          nullish retryAfterMs (calculateAuthProfileCooldownMs modelErrorCount) in
        ProfileUsageStats.mk
          (ProfileUsageStats.lastUsed updatedStats)
          (ProfileUsageStats.cooldownUntil updatedStats)
          (ProfileUsageStats.disabledUntil updatedStats)
          (ProfileUsageStats.disabledReason updatedStats)
          (ProfileUsageStats.errorCount updatedStats)
          (ProfileUsageStats.failureCounts updatedStats)
          (ProfileUsageStats.lastFailureAt updatedStats)
          (Some (<[m := ModelUsageStats.mk
                          (ModelUsageStats.lastUsed modelStats)   (* ...modelStats *)
                          (Some (JsNum.add now backoffMs))
                          (Some modelErrorCount)
                          (Some now)
                          (ModelUsageStats.unknownFields modelStats)]>
                   allModelStats))
          (ProfileUsageStats.unknownFields updatedStats)
    | None =>
        let baseErrorCount :=
          if windowExpired then Fin 0
          else nullish (ProfileUsageStats.errorCount existing) (Fin 0) in
        let nextErrorCount := JsNum.add baseErrorCount (Fin 1) in
        let backoffMs :=
          nullish retryAfterMs (calculateAuthProfileCooldownMs nextErrorCount) in
        ProfileUsageStats.mk
          (ProfileUsageStats.lastUsed updatedStats)
          (Some (JsNum.add now backoffMs))
          (ProfileUsageStats.disabledUntil updatedStats)
          (ProfileUsageStats.disabledReason updatedStats)
          (Some nextErrorCount)
          (ProfileUsageStats.failureCounts updatedStats)
          (Some now)
          (ProfileUsageStats.modelStats updatedStats)
          (ProfileUsageStats.unknownFields updatedStats)
    end.

(** The block of [clearAuthProfileCooldown] that runs once [stats] has been
    found for [profileId] in [store] ([if (modelId) { ... } else { ... }],
    which the source spells out twice, once in the locked updater and once in
    the fallback path).  [usageStats] is the map [stats] was read from. *)
Definition clearCooldownIn (store : AuthProfileStore)
    (usageStats : gmap string ProfileUsageStats.t) (profileId : string)
    (stats : ProfileUsageStats.t) (modelId : option string)
    : AuthProfileStore :=
  match truthy_string modelId with
  | Some m =>
      match ProfileUsageStats.modelStats stats with
      | Some allModelStats =>
          match allModelStats !! m with
          | Some modelStats =>
              let cleared :=
                ModelUsageStats.mk
                  (ModelUsageStats.lastUsed modelStats)  (* ...modelStats[modelId] *)
                  None                                   (* cooldownUntil: undefined *)
                  (Some (Fin 0))                         (* errorCount: 0 *)
                  (ModelUsageStats.lastFailureAt modelStats)
                  (ModelUsageStats.unknownFields modelStats) in
              let stats :=
                ProfileUsageStats.mk
                  (ProfileUsageStats.lastUsed stats)
                  (ProfileUsageStats.cooldownUntil stats)
                  (ProfileUsageStats.disabledUntil stats)
                  (ProfileUsageStats.disabledReason stats)
                  (ProfileUsageStats.errorCount stats)
                  (ProfileUsageStats.failureCounts stats)
                  (ProfileUsageStats.lastFailureAt stats)
                  (Some (<[m := cleared]> allModelStats))
                  (ProfileUsageStats.unknownFields stats) in
              set_usageStats store (Some (<[profileId := stats]> usageStats))
          | None => store
          end
      | None => store
      end
  | None =>
      let cleared :=
        ProfileUsageStats.mk
          (ProfileUsageStats.lastUsed stats)             (* ...stats *)
          None                                           (* cooldownUntil: undefined *)
          (ProfileUsageStats.disabledUntil stats)
          (ProfileUsageStats.disabledReason stats)
          (Some (Fin 0))                                 (* errorCount: 0 *)
          (ProfileUsageStats.failureCounts stats)
          (ProfileUsageStats.lastFailureAt stats)
          (ProfileUsageStats.modelStats stats)
          (ProfileUsageStats.unknownFields stats) in
      set_usageStats store (Some (<[profileId := cleared]> usageStats))
  end.

(** The updater closure of [clearAuthProfileCooldown]. *)
Definition clearCooldownUpdater (profileId : string) (modelId : option string)
    (freshStore : AuthProfileStore) : bool * AuthProfileStore :=
  match usageStats freshStore with
  | Some us =>
      match us !! profileId with
      | Some stats => (true, clearCooldownIn freshStore us profileId stats modelId)
      | None => (false, freshStore)
      end
  | None => (false, freshStore)
  end.

(** [clearAuthProfileCooldown({store, profileId, agentDir, modelId})] *)
Definition clearAuthProfileCooldown (file : StoreFile) (store : AuthProfileStore)
    (profileId : string) (modelId : option string)
    : StoreFile * AuthProfileStore :=
  let '(file, updated) :=
    updateAuthProfileStoreWithLock file (clearCooldownUpdater profileId modelId) in
  match updated with
  | Some updated => (file, set_usageStats store (usageStats updated))
  | None =>
      match usageStats store with
      | Some us =>
          match us !! profileId with
          | Some stats =>
              let store := clearCooldownIn store us profileId stats modelId in
              (saveAuthProfileStore file store, store)
          | None => (file, store)
          end
      | None => (file, store)
      end
  end.

(** ** Retry-After extractor *)

Module Js.

(** Truthiness of a value. *)
Definition truthy (v : JsVal) : bool :=
  match v with
  | JUndefined | JNull => false
  | JBool b => b
  | JNum n => JsNum.truthy n
  | JStr s => str_truthy s
  | JArr _ | JObj _ => true
  end.

(** [typeof v === "object"] *)
Definition typeofObject (v : JsVal) : bool :=
  match v with
  | JNull | JArr _ | JObj _ => true
  | _ => false
  end.

(** The own enumerable properties of a value, in the order [Object.keys]
    lists them: an object's in insertion order, an array's by index.
    Inherited properties and an array's [length] are not modelled; the code
    reads none of them. *)
Definition ownProps (v : JsVal) : list (string * JsVal) :=
  match v with
  | JObj props => props
  | JArr items => zip (pretty <$> seq 0 (length items)) items
  | _ => []
  end.

(** [Object.keys(v)] *)
Definition keys (v : JsVal) : list string := fst <$> ownProps v.

(** [v[k]] *)
Definition get (v : JsVal) (k : string) : JsVal :=
  match List.find (fun p => String.eqb (fst p) k) (ownProps v) with
  | Some p => snd p
  | None => JUndefined
  end.

(** [c] lower-cased, for the letters of ASCII. *)
Definition lowerAscii (c : ascii) : ascii :=
  let n := nat_of_ascii c in
  if ((65 <=? n) && (n <=? 90))%nat then ascii_of_nat (n + 32) else c.

(** [s.toLowerCase()], on ASCII. *)
Fixpoint toLowerCase (s : string) : string :=
  match s with
  | EmptyString => EmptyString
  | String c rest => String (lowerAscii c) (toLowerCase rest)
  end.

(** The class [\d]. *)
Definition isDigit (c : ascii) : bool :=
  let n := nat_of_ascii c in ((48 <=? n) && (n <=? 57))%nat.

(** The longest prefix of digits of [s], and what follows it. *)
Fixpoint spanDigits (s : string) : string * string :=
  match s with
  | String c rest =>
      if isDigit c
      then let '(ds, tl) := spanDigits rest in (String c ds, tl)
      else (EmptyString, s)
  | EmptyString => (EmptyString, EmptyString)
  end.

(** [/^\d+(\.\d+)?$/.test(s)] *)
Definition isDecimalSeconds (s : string) : bool :=
  let '(whole, rest) := spanDigits s in
  match whole, rest with
  | EmptyString, _ => false
  | _, EmptyString => true
  | _, String c rest =>
      if Ascii.eqb c "."%char then
        match spanDigits rest with
        | (EmptyString, _) => false
        | (_, EmptyString) => true
        | _ => false
        end
      else false
  end.

(** The value of a string of digits, most significant first. *)
Definition digitsValue (s : string) : Z :=
  fold_left (fun acc c => 10 * acc + (Z.of_nat (nat_of_ascii c) - 48))
    (list_ascii_of_string s) 0.

(** [parseFloat(s)] for [s] of the shape [isDecimalSeconds] admits, the
    only strings the source hands to it: the exact decimal value. *)
Definition parseFloat (s : string) : Q :=
  let '(whole, rest) := spanDigits s in
  match rest with
  | String _ frac =>
      let '(frac, _) := spanDigits frac in
      let scale := 10 ^ Z.of_nat (String.length frac) in
      Qmake (digitsValue whole * scale + digitsValue frac) (Z.to_pos scale)
  | EmptyString => inject_Z (digitsValue whole)
  end.

End Js.

Section RetryAfter.

(** [Date.parse], supplied by the runtime: the time value of a date string,
    [NaN] when the string is not a date. *)
Variable Date_parse : string -> num.

(** The abstract operation ToString, which [RegExp.prototype.test] and
    [Date.parse] apply to an argument that is not already a string. *)
Variable ToString : JsVal -> string.

Definition toStr (v : JsVal) : string :=
  match v with JStr s => s | _ => ToString v end.

(** The [headers] branch of [extractRetryAfterMs]: [Some ms] when it
    returns, [None] when control falls through to the direct properties. *)
Definition retryAfterFromHeaders (record : JsVal) (now : Z) : option num :=
  let headers := Js.get record "headers" in
  if Js.truthy headers && Js.typeofObject headers then
    let keys := Js.keys headers in
    match List.find (fun k => String.eqb (Js.toLowerCase k) "retry-after") keys with
    | Some retryKey =>
        let val := Js.get headers retryKey in
        let valStr :=
          match val with
          | JArr items => List.hd JUndefined items
          | _ => val
          end in
        if Js.truthy valStr then
          let valStr := toStr valStr in
          if Js.isDecimalSeconds valStr then
            Some (Fin (Qceiling (Js.parseFloat valStr * inject_Z 1000)))
          else
            let date := Date_parse valStr in
            match date with
            | NaN => None
            | _ =>
                let delta := JsNum.sub date (Fin now) in
                Some (if JsNum.gt delta (Fin 0) then delta else Fin 0)
            end
        else None
    | None => None
    end
  else None.

(** [extractRetryAfterMs(error)]; [None] is [undefined], [now] the reading
    of [Date.now()]. *)
Definition extractRetryAfterMs (error : JsVal) (now : Z) : option num :=
  if negb (Js.truthy error) || negb (Js.typeofObject error) then None
  else
    let record := error in
    match retryAfterFromHeaders record now with
    | Some ms => Some ms
    | None =>
        match Js.get record "retryAfter" with
        | JNum retryAfter => Some (JsNum.mul retryAfter (Fin 1000))
        | _ =>
            match Js.get record "retry_after" with
            | JNum retry_after => Some (JsNum.mul retry_after (Fin 1000))
            | _ => None
            end
        end
    end.

End RetryAfter.

(** ** Infinite-retry driver (infinite-retry.ts) *)

(** [calculateMinimumWaitMs]: the [for] loop over the candidates, with the
    running [minUnusableUntil].  [inl ms] is the early [return 0]; [inr m] the
    value of [minUnusableUntil] once the loop has run out.  [now] stands for
    every reading of [Date.now()] during the scan. *)
Fixpoint scanCandidates (store : AuthProfileStore) (modelId : string) (now : Z)
    (profileCandidates : list (option string)) (minUnusableUntil : option num)
    : num + option num :=
  match profileCandidates with
  | [] => inr minUnusableUntil
  | candidate :: rest =>
      match truthy_string candidate with
      | None => scanCandidates store modelId now rest minUnusableUntil
      | Some profileId =>
          if negb (isProfileInCooldown store profileId (Some modelId) now)
          then inl (Fin 0)
          else
            let unusableUntil :=
              resolveProfileUnusableUntilForDisplay store profileId (Some modelId) in
            let minUnusableUntil :=
              match unusableUntil with
              | Some u =>
                  if JsNum.truthy u && JsNum.gt u (Fin now) then
                    match minUnusableUntil with
                    | None => Some u
                    | Some m => if JsNum.lt u m then Some u else Some m
                    end
                  else minUnusableUntil
              | None => minUnusableUntil
              end in
            scanCandidates store modelId now rest minUnusableUntil
      end
  end.

(** [calculateMinimumWaitMs({store, profileCandidates, modelId})] *)
Definition calculateMinimumWaitMs (store : AuthProfileStore)
    (profileCandidates : list (option string)) (modelId : string) (now : Z)
    : num :=
  match scanCandidates store modelId now profileCandidates None with
  | inl ms => ms
  | inr None => Fin 0
  | inr (Some minUnusableUntil) =>
      JsNum.max (Fin 0) (JsNum.sub minUnusableUntil (Fin now))
  end.

(** The [waitMs] expression of [withInfiniteRetry]:
    [authStore && profileCandidates && modelId
       ? calculateMinimumWaitMs({...}) : 60 * 1000].
    An object and an array, when given, are truthy whatever they hold. *)
Definition computeWaitMs (authStore : option AuthProfileStore)
    (profileCandidates : option (list (option string)))
    (modelId : option string) (now : Z) : num :=
  match authStore, profileCandidates, truthy_string modelId with
  | Some store, Some candidates, Some m =>
      calculateMinimumWaitMs store candidates m now
  | _, _, _ => Fin (60 * 1000)
  end.

(** Modelled from the spec: the class [FailoverError] lives in
    failover-error.ts, which is missing.  Section 4.8: an error variant
    carrying a [failoverReason] drawn from the failure-reason set.  The other
    two constructors are the remaining things [execute] and the driver can
    throw. *)
Inductive Thrown : Type :=
| FailoverError (failoverReason : AuthProfileFailureReason) (message : string)
| PlainError (message : string)          (* [new Error(message)] *)
| ThrownValue (value : JsVal).           (* anything else *)

(** How a promise settles. *)
Inductive Settled (T : Type) : Type :=
| Resolved (value : T)
| Rejected (error : Thrown).
Arguments Resolved {T} value.
Arguments Rejected {T} error.

(** The places where the driver reads [abortSignal.aborted], or where the
    [abort] event can reach it, within one attempt. *)
Inductive Checkpoint : Type :=
| LoopTop            (* [if (abortSignal?.aborted)] before [execute] *)
| AfterExecute       (* the same test inside [catch] *)
| SleepStart         (* [if (signal?.aborted)] in [sleepWithAbort] *)
| DuringSleep.       (* the [abort] listener firing before the timer *)

(** What the driver does to the outside world. *)
Inductive Event : Type :=
| EvExecute (attempt : nat)
| EvQuotaExhaustion (provider model : string) (waitMs : num) (attempt : nat)
| EvLogWarn (provider modelId : option string) (waitSec : num) (attempt : nat)
| EvSlept (ms : num).

(** The parameters of [withInfiniteRetry], each collaborator given by what
    it answers on the [attempt]-th pass through the loop:
    [execute] by how its promise settles; [authStore], a shared mutable
    object, by its contents when the wait is computed; [abortSignal] by its
    [aborted] flag at each checkpoint; [dateNow] is [Date.now()] when the
    wait is computed.  [onQuotaExhaustion] says whether the callback is
    supplied. *)
Record RetryParams (T : Type) : Type := mkRetryParams {
  execute : nat -> Settled T;
  onQuotaExhaustion : bool;
  authStore : option (nat -> AuthProfileStore);
  profileCandidates : option (list (option string));
  modelId : option string;
  provider : option string;
  abortSignal : option (nat -> Checkpoint -> bool);
  dateNow : nat -> Z
}.
Arguments execute {T} _ _.
Arguments onQuotaExhaustion {T} _.
Arguments authStore {T} _.
Arguments profileCandidates {T} _.
Arguments modelId {T} _.
Arguments provider {T} _.
Arguments abortSignal {T} _.
Arguments dateNow {T} _ _.

(** The outcome of one pass through the body of [while (true)]. *)
Inductive Step (T : Type) : Type :=
| Done (outcome : Settled T)     (* [return] or [throw] *)
| Continue.                      (* [continue] *)
Arguments Done {T} outcome.
Arguments Continue {T}.

Section InfiniteRetry.

Context {T : Type} (params : RetryParams T).

(** [abortSignal?.aborted] at a checkpoint of an attempt. *)
Definition aborted (attempt : nat) (at_ : Checkpoint) : bool :=
  match abortSignal params with
  | Some signal => signal attempt at_
  | None => false
  end.

(** [error instanceof FailoverError &&
     (error.failoverReason === "rate_limit" || error.failoverReason === "timeout")] *)
Definition isQuotaFailure (error : Thrown) : bool :=
  match error with
  | FailoverError failoverReason _ =>
      bool_decide (failoverReason = reason_rate_limit)
      || bool_decide (failoverReason = reason_timeout)
  | _ => false
  end.

(** The [waitMs] of an attempt. *)
Definition waitMsAt (attempt : nat) : num :=
  computeWaitMs
    (match authStore params with
     | Some contents => Some (contents attempt)
     | None => None
     end)
    (profileCandidates params) (modelId params) (dateNow params attempt).

(** [sleepWithAbort(ms, signal)] during an attempt: [None] when the timer
    runs out, [Some e] when the promise rejects with [e]. *)
Definition sleepWithAbort (attempt : nat) (ms : num) : option Thrown :=
  if aborted attempt SleepStart then Some (PlainError "Task aborted")
  else if aborted attempt DuringSleep
  then Some (PlainError "Task aborted during cooldown wait")
  else None.

(** One pass through the loop body, [attempt] already incremented. *)
Definition iteration (attempt : nat) : Step T * list Event :=
  if aborted attempt LoopTop
  then (Done (Rejected (PlainError "Task aborted by user")), [])
  else
    match execute params attempt with
    | Resolved value => (Done (Resolved value), [EvExecute attempt])
    | Rejected error =>
        if aborted attempt AfterExecute
        then (Done (Rejected error), [EvExecute attempt])
        else if isQuotaFailure error then
          let waitMs := waitMsAt attempt in
          let waitSec := JsNum.ceilDiv waitMs 1000 in
          let notice :=
            if onQuotaExhaustion params
            then EvQuotaExhaustion (nullish (provider params) "unknown")
                   (nullish (modelId params) "unknown") waitMs attempt
            else EvLogWarn (provider params) (modelId params) waitSec attempt in
          match sleepWithAbort attempt waitMs with
          | Some abortError =>
              (Done (Rejected abortError), [EvExecute attempt; notice])
          | None => (Continue, [EvExecute attempt; notice; EvSlept waitMs])
          end
        else (Done (Rejected error), [EvExecute attempt])
    end.

(** The loop, run for at most [fuel] passes from the counter [attempt]:
    the outcome, if it was reached within [fuel] passes, and what was done. *)
Fixpoint retryLoop (fuel : nat) (attempt : nat)
    : option (Settled T) * list Event :=
  match fuel with
  | O => (None, [])
  | S fuel =>
      let attempt := S attempt in
      match iteration attempt with
      | (Done outcome, events) => (Some outcome, events)
      | (Continue, events) =>
          let '(outcome, later) := retryLoop fuel attempt in
          (outcome, (events ++ later)%list)
      end
  end.

(** [withInfiniteRetry(params)]: [let attempt = 0; while (true) { ... }]. *)
Definition withInfiniteRetry (fuel : nat) : option (Settled T) * list Event :=
  retryLoop fuel 0.

End InfiniteRetry.

(** ** Cooldown configuration and the failure entry points *)

(** Modelled from the spec: the part of [OpenClawConfig] this module reads;
    its declaration lives in config.ts, which is missing.  Section 6:
    [auth.cooldowns.billingBackoffHours], [billingMaxHours],
    [failureWindowHours] and the table [billingBackoffHoursByProvider].  A
    setting that is not given holds [JUndefined]; the table lists its entries
    in the order [Object.entries] yields them.  Numbers of hours are whole,
    as every number of the model is. *)
Record AuthCooldownsConfig : Type := mkCooldowns {
  billingBackoffHours : JsVal;
  billingMaxHours : JsVal;
  failureWindowHours : JsVal;
  billingBackoffHoursByProvider : option (list (string * JsVal))
}.

Record AuthConfig : Type := mkAuthConfig {
  cooldowns : option AuthCooldownsConfig
}.

Record OpenClawConfig : Type := mkConfig {
  auth : option AuthConfig
}.

(** [a ?? b] on values. *)
Definition nullishVal (a b : JsVal) : JsVal :=
  match a with
  | JUndefined | JNull => b
  | _ => a
  end.

(** [resolveHours(value, fallback)]:
    [typeof value === "number" && Number.isFinite(value) && value > 0
       ? value : fallback]. *)
Definition resolveHours (value : JsVal) (fallback : num) : num :=
  match value with
  | JNum n => if JsNum.isFinite n && JsNum.gt n (Fin 0) then n else fallback
  | _ => fallback
  end.

(** [hours * 60 * 60 * 1000] *)
Definition hoursToMs (hours : num) : num :=
  JsNum.mul (JsNum.mul (JsNum.mul hours (Fin 60)) (Fin 60)) (Fin 1000).

(** [profile.provider] *)
Definition credentialProvider (credential : AuthProfileCredential) : string :=
  match credential with
  | ApiKeyCredential provider _ _ _ => provider
  | TokenCredential provider _ _ _ => provider
  | OAuthCredential provider _ _ _ => provider
  end.

Section FailureEntryPoints.

(** [normalizeProviderId], imported from model-selection.ts. *)
Variable normalizeProviderId : string -> string.

(** [params.cfg?.auth?.cooldowns] *)
Definition cooldownsOf (cfg : option OpenClawConfig) : option AuthCooldownsConfig :=
  match cfg with
  | Some c =>
      match auth c with
      | Some a => cooldowns a
      | None => None
      end
  | None => None
  end.

(** The immediately invoked function that computes [billingOverride]. *)
Definition billingOverrideOf (cooldowns : option AuthCooldownsConfig)
    (providerId : string) : JsVal :=
  match cooldowns with
  | Some c =>
      match billingBackoffHoursByProvider c with
      | Some map =>
          match List.find
                  (fun entry => String.eqb (normalizeProviderId (fst entry)) providerId)
                  map with
          | Some entry => snd entry
          | None => JUndefined
          end
      | None => JUndefined
      end
  | None => JUndefined
  end.

(** [resolveAuthCooldownConfig({cfg, providerId})] *)
Definition resolveAuthCooldownConfig (cfg : option OpenClawConfig)
    (providerId : string) : ResolvedAuthCooldownConfig :=
  let cooldowns := cooldownsOf cfg in
  let setting (field : AuthCooldownsConfig -> JsVal) : JsVal :=
    match cooldowns with Some c => field c | None => JUndefined end in
  let billingOverride := billingOverrideOf cooldowns providerId in
  let billingBackoffHours :=
    resolveHours (nullishVal billingOverride (setting billingBackoffHours)) (Fin 5) in
  let billingMaxHours := resolveHours (setting billingMaxHours) (Fin 24) in
  let failureWindowHours := resolveHours (setting failureWindowHours) (Fin 24) in
  mkCooldownConfig
    (hoursToMs billingBackoffHours)
    (hoursToMs billingMaxHours)
    (hoursToMs failureWindowHours).

(** The updater closure of [markAuthProfileFailure]. *)
Definition markFailureUpdater (cfg : option OpenClawConfig) (profileId : string)
    (reason : AuthProfileFailureReason) (modelId : option string)
    (retryAfterMs : option num) (now : Z) (freshStore : AuthProfileStore)
    : bool * AuthProfileStore :=
  match profiles freshStore !! profileId with
  | None => (false, freshStore)
  | Some profile =>
      let stats := nullish (usageStats freshStore) ∅ in
      let existing := nullish (stats !! profileId) ProfileUsageStats.empty in
      let providerKey := normalizeProviderId (credentialProvider profile) in
      let cfgResolved := resolveAuthCooldownConfig cfg providerKey in
      let next :=
        computeNextProfileUsageStats existing (Fin now) reason cfgResolved
          modelId retryAfterMs in
      (true, set_usageStats freshStore (Some (<[profileId := next]> stats)))
  end.

(** [markAuthProfileFailure({store, profileId, reason, cfg, agentDir, modelId,
    retryAfterMs})] *)
Definition markAuthProfileFailure (file : StoreFile) (store : AuthProfileStore)
    (profileId : string) (reason : AuthProfileFailureReason)
    (cfg : option OpenClawConfig) (modelId : option string)
    (retryAfterMs : option num) (now : Z) : StoreFile * AuthProfileStore :=
  let '(file, updated) :=
    updateAuthProfileStoreWithLock file
      (markFailureUpdater cfg profileId reason modelId retryAfterMs now) in
  match updated with
  | Some updated => (file, set_usageStats store (usageStats updated))
  | None =>
      match profiles store !! profileId with
      | None => (file, store)
      | Some profile =>
          let stats := nullish (usageStats store) ∅ in
          let existing := nullish (stats !! profileId) ProfileUsageStats.empty in
          let providerKey := normalizeProviderId (credentialProvider profile) in
          let cfgResolved := resolveAuthCooldownConfig cfg providerKey in
          let next :=
            computeNextProfileUsageStats existing (Fin now) reason cfgResolved
              modelId retryAfterMs in
          let store := set_usageStats store (Some (<[profileId := next]> stats)) in
          (saveAuthProfileStore file store, store)
      end
  end.


End FailureEntryPoints.

(** ** Verified write tool *)

(** What the promise of the wrapped tool can reject with: the wrapper's own
    [WriteVerificationError], or whatever the original tool threw. *)
Inductive WriteToolFailure : Type :=
| WriteVerificationError (filePath : string)
| OriginalToolFailure (error : Thrown).

Section VerifiedWriteTool.

(** [path.resolve(workspaceRoot, rawPath)], from the runtime. *)
Variable path_resolve : string -> string -> string.

(** [originalTool.execute(toolUseId, params, signal, onUpdate)], the tool
    made by [createWriteTool(workspaceRoot)] from the coding-agent package:
    given the set of paths that exist on disk, how its promise settles and
    the paths that exist afterwards.  [signal] and [onUpdate] are handed
    through untouched and left out. *)
Variable originalExecute :
  string -> JsVal -> gset string -> (Thrown + JsVal) * gset string.

(** [params?.path || params?.file_path] *)
Definition rawPathOf (params : JsVal) : JsVal :=
  let path := Js.get params "path" in
  if Js.truthy path then path else Js.get params "file_path".

(** The [execute] of the tool returned by
    [createVerifiedWriteTool(workspaceRoot)]; [disk] is the set of paths for
    which [fs.existsSync] answers true. *)
Definition verifiedExecute (workspaceRoot : string) (toolUseId : string)
    (params : JsVal) (disk : gset string)
    : (WriteToolFailure + JsVal) * gset string :=
  match originalExecute toolUseId params disk with
  | (inl error, disk) => (inl (OriginalToolFailure error), disk)
  | (inr result, disk) =>
      match rawPathOf params with
      | JStr rawPath =>
          let resolvedPath := path_resolve workspaceRoot rawPath in
          if negb (bool_decide (resolvedPath ∈ disk))
          then (inl (WriteVerificationError rawPath), disk)
          else (inr result, disk)
      | _ => (inr result, disk)
      end
  end.

End VerifiedWriteTool.

(** * Properties *)

(** ** Arithmetic of the number model *)

Module JsNumFacts.

Lemma max_Fin a b : JsNum.max (Fin a) (Fin b) = Fin (Z.max a b).
Proof.
  unfold JsNum.max, JsNum.lt. destruct (Z.ltb_spec a b); f_equal; lia.
Qed.

Lemma min_Fin a b : JsNum.min (Fin a) (Fin b) = Fin (Z.min a b).
Proof.
  unfold JsNum.min, JsNum.lt. destruct (Z.ltb_spec b a); f_equal; lia.
Qed.

Lemma sub_Fin a b : JsNum.sub (Fin a) (Fin b) = Fin (a - b).
Proof. reflexivity. Qed.

Lemma pow_Fin_nonneg a k : 0 <= k -> JsNum.pow (Fin a) (Fin k) = Fin (a ^ k).
Proof.
  intros Hk. unfold JsNum.pow. destruct k as [|p|p]; [reflexivity| |lia].
  destruct (Z.ltb_spec 0 (Z.pos p)); [reflexivity|lia].
Qed.

Lemma le_Fin a b : JsNum.le (Fin a) (Fin b) = true <-> a <= b.
Proof. unfold JsNum.le. apply Z.leb_le. Qed.

Lemma lt_Fin a b : JsNum.lt (Fin a) (Fin b) = true <-> a < b.
Proof. unfold JsNum.lt. apply Z.ltb_lt. Qed.

Lemma mul_PosInf_pos z : 0 < z -> JsNum.mul PosInf (Fin z) = PosInf.
Proof.
  intros Hz. unfold JsNum.mul, JsNum.signed_inf.
  destruct (Z.eqb_spec z 0); [lia|].
  destruct (Z.ltb_spec 0 z); [reflexivity|lia].
Qed.

(** The exponent both calculators compute, [Math.min(Math.max(1, n) - 1, cap)],
    is [NaN] or a whole number between [0] and [cap]: [JsNum.pow] is only
    ever asked for a power the integer model holds. *)
Lemma backoff_exponent_nonneg (n : num) (cap : Z) :
  0 <= cap ->
  let e := JsNum.min (JsNum.sub (JsNum.max (Fin 1) n) (Fin 1)) (Fin cap) in
  e = NaN \/ exists k, e = Fin k /\ 0 <= k <= cap.
Proof.
  intros Hcap e. subst e. destruct n as [z| | |].
  - right. rewrite max_Fin, sub_Fin, min_Fin. eexists; split; [reflexivity|lia].
  - right. change (JsNum.sub (JsNum.max (Fin 1) PosInf) (Fin 1)) with PosInf.
    exists cap. split; [|lia]. unfold JsNum.min, JsNum.lt. reflexivity.
  - right. change (JsNum.max (Fin 1) NegInf) with (Fin 1).
    rewrite sub_Fin, min_Fin. eexists; split; [reflexivity|lia].
  - left. reflexivity.
Qed.

End JsNumFacts.

(** ** Cooldown calculator *)

(** On finite arguments within the stated ranges the billing calculator is
    the integer formula. *)
Lemma billing_backoff_finite (zn zb zm : Z) :
  1 <= zn -> 60000 <= zb -> zb <= zm ->
  calculateAuthProfileBillingDisableMsWithConfig (Fin zn) (Fin zb) (Fin zm)
  = Fin (Z.min zm (zb * 2 ^ Z.min (zn - 1) 10)).
Proof.
  intros Hn Hb Hm. unfold calculateAuthProfileBillingDisableMsWithConfig.
  rewrite !JsNumFacts.max_Fin, JsNumFacts.sub_Fin, JsNumFacts.min_Fin.
  rewrite JsNumFacts.pow_Fin_nonneg by lia.
  cbn [JsNum.mul]. rewrite JsNumFacts.min_Fin.
  repeat f_equal; lia.
Qed.

Lemma billing_backoff_PosInf_count (zb zm : Z) :
  60000 <= zb -> zb <= zm ->
  calculateAuthProfileBillingDisableMsWithConfig PosInf (Fin zb) (Fin zm)
  = Fin (Z.min zm (zb * 2 ^ 10)).
Proof.
  intros Hb Hm. unfold calculateAuthProfileBillingDisableMsWithConfig.
  change (JsNum.min (JsNum.sub (JsNum.max (Fin 1) PosInf) (Fin 1)) (Fin 10))
    with (Fin 10).
  rewrite !JsNumFacts.max_Fin, JsNumFacts.pow_Fin_nonneg by lia.
  cbn [JsNum.mul]. rewrite JsNumFacts.min_Fin.
  repeat f_equal; lia.
Qed.

Lemma billing_backoff_PosInf_max (n : num) (zb : Z) :
  JsNum.le (Fin 1) n = true -> 60000 <= zb ->
  exists r, calculateAuthProfileBillingDisableMsWithConfig n (Fin zb) PosInf = Fin r
            /\ r = zb * 2 ^ (match n with Fin zn => Z.min (zn - 1) 10 | _ => 10 end).
Proof.
  intros Hn Hb. unfold calculateAuthProfileBillingDisableMsWithConfig.
  rewrite JsNumFacts.max_Fin.
  change (JsNum.max (Fin (Z.max 60000 zb)) PosInf) with PosInf.
  destruct n as [zn| | |]; try discriminate Hn.
  - apply JsNumFacts.le_Fin in Hn.
    rewrite JsNumFacts.max_Fin, JsNumFacts.sub_Fin, JsNumFacts.min_Fin.
    rewrite JsNumFacts.pow_Fin_nonneg by lia. cbn [JsNum.mul].
    eexists; split; [reflexivity|]. repeat f_equal; lia.
  - change (JsNum.min (JsNum.sub (JsNum.max (Fin 1) PosInf) (Fin 1)) (Fin 10))
      with (Fin 10).
    rewrite JsNumFacts.pow_Fin_nonneg by lia. cbn [JsNum.mul].
    eexists; split; [reflexivity|]. repeat f_equal; lia.
Qed.

Lemma billing_backoff_PosInf_base (n : num) :
  JsNum.le (Fin 1) n = true ->
  calculateAuthProfileBillingDisableMsWithConfig n PosInf PosInf = PosInf.
Proof.
  intros Hn. unfold calculateAuthProfileBillingDisableMsWithConfig.
  change (JsNum.max (Fin 60000) PosInf) with PosInf.
  change (JsNum.max PosInf PosInf) with PosInf.
  destruct (JsNumFacts.backoff_exponent_nonneg n 10 ltac:(lia)) as [He|[k [He Hk]]].
  - destruct n as [zn| | |]; try discriminate Hn; try discriminate He.
    rewrite JsNumFacts.max_Fin, JsNumFacts.sub_Fin, JsNumFacts.min_Fin in He.
    discriminate He.
  - cbv zeta in He. rewrite He, JsNumFacts.pow_Fin_nonneg by lia.
    rewrite JsNumFacts.mul_PosInf_pos; [reflexivity|].
    apply Z.pow_pos_nonneg; lia.
Qed.

Lemma JsNum_max_of_le (a b : num) : JsNum.le a b = true -> JsNum.max a b = b.
Proof.
  destruct a as [x| | |], b as [y| | |]; try discriminate; try reflexivity.
  intros H%JsNumFacts.le_Fin. rewrite JsNumFacts.max_Fin. f_equal; lia.
Qed.

Lemma pow2_capped_mono (a b : Z) :
  1 <= a -> a <= b -> 2 ^ Z.min (a - 1) 10 <= 2 ^ Z.min (b - 1) 10.
Proof. intros Ha Hab. apply Z.pow_le_mono_r; lia. Qed.

(** C8. For every count [n >= 1], base [>= 60_000] and cap [maxMs >= base]
    the billing backoff is at most [maxMs], is non-decreasing in [n], and is
    [min(maxMs, max(60_000, baseMs) * 2^min(n-1, 10))] with [maxMs] clamped
    up to at least [baseMs] (as a JavaScript expression and, on finite
    arguments, as the integer formula). *)
Theorem billing_backoff_capped_and_monotone (n base maxMs : num) :
  JsNum.le (Fin 1) n = true ->
  JsNum.le (Fin 60000) base = true ->
  JsNum.le base maxMs = true ->
  let backoff k := calculateAuthProfileBillingDisableMsWithConfig k base maxMs in
  JsNum.le (backoff n) maxMs = true
  /\ (forall n', JsNum.le n n' = true ->
                 JsNum.le (backoff n) (backoff n') = true)
  /\ backoff n
     = JsNum.min (JsNum.max base maxMs)
         (JsNum.mul (JsNum.max (Fin 60000) base)
            (JsNum.pow (Fin 2) (JsNum.min (JsNum.sub n (Fin 1)) (Fin 10))))
  /\ (forall zn zb zm, n = Fin zn -> base = Fin zb -> maxMs = Fin zm ->
        backoff n = Fin (billingBackoff_spec zn zb zm)).
Proof.
  intros Hn Hb Hm backoff. subst backoff. cbv beta.
  split; [|split; [|split]].
  - (* capped *)
    destruct base as [zb| | |]; try discriminate Hb;
      destruct maxMs as [zm| | |]; try discriminate Hm.
    + apply JsNumFacts.le_Fin in Hb, Hm.
      destruct n as [zn| | |]; try discriminate Hn.
      * apply JsNumFacts.le_Fin in Hn.
        rewrite billing_backoff_finite by lia. apply JsNumFacts.le_Fin. lia.
      * rewrite billing_backoff_PosInf_count by lia. apply JsNumFacts.le_Fin. lia.
    + apply JsNumFacts.le_Fin in Hb.
      destruct (billing_backoff_PosInf_max n zb Hn Hb) as [r [-> _]]. reflexivity.
    + rewrite billing_backoff_PosInf_base by exact Hn. reflexivity.
  - (* non-decreasing in the count *)
    intros n' Hnn'.
    assert (Hn' : JsNum.le (Fin 1) n' = true).
    { destruct n as [zn| | |], n' as [zn'| | |];
        try discriminate; try reflexivity.
      apply JsNumFacts.le_Fin in Hn, Hnn'. apply JsNumFacts.le_Fin. lia. }
    destruct base as [zb| | |]; try discriminate Hb;
      destruct maxMs as [zm| | |]; try discriminate Hm.
    + apply JsNumFacts.le_Fin in Hb, Hm.
      destruct n as [zn| | |], n' as [zn'| | |];
        try discriminate Hn; try discriminate Hn'; try discriminate Hnn'.
      * apply JsNumFacts.le_Fin in Hn, Hn', Hnn'.
        rewrite !billing_backoff_finite by lia. apply JsNumFacts.le_Fin.
        pose proof (pow2_capped_mono zn zn' Hn Hnn').
        apply Z.min_le_compat_l. apply Z.mul_le_mono_nonneg_l; lia.
      * apply JsNumFacts.le_Fin in Hn.
        rewrite billing_backoff_finite, billing_backoff_PosInf_count by lia.
        apply JsNumFacts.le_Fin.
        apply Z.min_le_compat_l. apply Z.mul_le_mono_nonneg_l; [lia|].
        apply Z.pow_le_mono_r; lia.
      * rewrite billing_backoff_PosInf_count by lia. apply JsNumFacts.le_Fin. lia.
    + apply JsNumFacts.le_Fin in Hb.
      destruct (billing_backoff_PosInf_max n zb Hn Hb) as [r [-> ->]].
      destruct (billing_backoff_PosInf_max n' zb Hn' Hb) as [r' [-> ->]].
      apply JsNumFacts.le_Fin. apply Z.mul_le_mono_nonneg_l; [lia|].
      destruct n as [zn| | |], n' as [zn'| | |];
        try discriminate Hn; try discriminate Hn'; try discriminate Hnn'.
      * apply JsNumFacts.le_Fin in Hn, Hnn'. apply pow2_capped_mono; lia.
      * apply Z.pow_le_mono_r; lia.
      * lia.
    + rewrite !billing_backoff_PosInf_base by assumption. reflexivity.
  - (* the formula, as the source evaluates it *)
    unfold calculateAuthProfileBillingDisableMsWithConfig.
    rewrite (JsNum_max_of_le _ _ Hn), (JsNum_max_of_le _ _ Hb). reflexivity.
  - (* the formula over the integers *)
    intros zn zb zm -> -> ->.
    apply JsNumFacts.le_Fin in Hn, Hb, Hm.
    rewrite billing_backoff_finite by lia. unfold billingBackoff_spec.
    rewrite (Z.max_r zb zm), (Z.max_r 60000 zb) by lia. reflexivity.
Qed.

(** The claim's ranges are inhabited: second billing failure, five-hour
    base, twenty-four-hour cap. *)
Lemma billing_backoff_capped_and_monotone_witness :
  JsNum.le
    (calculateAuthProfileBillingDisableMsWithConfig
       (Fin 2) (Fin 18000000) (Fin 86400000))
    (Fin 86400000) = true.
Proof.
  apply (billing_backoff_capped_and_monotone (Fin 2) (Fin 18000000) (Fin 86400000));
    reflexivity.
Defined.

(** The rate-limit ladder: one minute, five, twenty-five, then the hour. *)
Example cooldown_ladder :
  List.map calculateAuthProfileCooldownMs
    [Fin 0; Fin 1; Fin 2; Fin 3; Fin 4; Fin 5; PosInf; NaN]
  = [Fin 60000; Fin 60000; Fin 300000; Fin 1500000; Fin 3600000; Fin 3600000;
     Fin 3600000; NaN].
Proof. reflexivity. Qed.

(** Billing with the defaults: five hours, ten, twenty, then the day. *)
Example billing_ladder :
  List.map (fun n => calculateAuthProfileBillingDisableMsWithConfig
                       (Fin n) (Fin 18000000) (Fin 86400000))
    [0; 1; 2; 3; 4; 20]
  = [Fin 18000000; Fin 18000000; Fin 36000000; Fin 72000000; Fin 86400000;
     Fin 86400000].
Proof. reflexivity. Qed.

(** ** Eligibility oracle *)

Lemma omap_presentTimestamp (l : list (option num)) :
  omap presentTimestamp l
  = List.filter (fun value => JsNum.isFinite value && JsNum.gt value (Fin 0))
      (omap id l).
Proof.
  induction l as [|[x|] l IH]; [reflexivity| |exact IH].
  change (omap presentTimestamp (Some x :: l))
    with (match presentTimestamp (Some x) with
          | Some y => y :: omap presentTimestamp l
          | None => omap presentTimestamp l
          end).
  change (omap id (Some x :: l)) with (x :: omap id l).
  cbn [List.filter presentTimestamp].
  destruct (JsNum.isFinite x && JsNum.gt x (Fin 0)); rewrite IH; reflexivity.
Qed.

Lemma positive_finite_truthy (c : num) :
  JsNum.isFinite c && JsNum.gt c (Fin 0) = true -> JsNum.truthy c = true.
Proof.
  destruct c as [z| | |]; try discriminate. cbn.
  destruct (Z.ltb_spec 0 z); [|discriminate]. intros _.
  destruct (Z.eqb_spec z 0); [lia|reflexivity].
Qed.

(** Where the per-model timestamp is absent or a finite positive number and
    the model identifier is not the empty string, the source computes what
    the specification describes. *)
Lemma resolve_agrees_on_well_formed_model_cooldown
    (stats : ProfileUsageStats.t) (modelId : option string) :
  modelId <> Some "" ->
  (forall m ms c, modelId = Some m -> modelStatsOf stats m = Some ms ->
     ModelUsageStats.cooldownUntil ms = Some c ->
     JsNum.isFinite c && JsNum.gt c (Fin 0) = true) ->
  resolveProfileUnusableUntil stats modelId = resolveUnusableUntil_spec stats modelId.
Proof.
  intros Hne Hwf.
  unfold resolveProfileUnusableUntil, resolveUnusableUntil_spec.
  set (a := ProfileUsageStats.cooldownUntil stats).
  set (b := ProfileUsageStats.disabledUntil stats).
  change [a; b; ?c] with ([a; b] ++ [c])%list.
  rewrite omap_app, omap_presentTimestamp.
  set (values := List.filter _ (omap id [a; b])).
  destruct modelId as [m|]; cbn [truthy_string].
  - destruct m as [|ch m']; [congruence|]. cbn [str_truthy].
    destruct (modelStatsOf stats (String ch m')) as [ms|] eqn:Hms.
    + destruct (ModelUsageStats.cooldownUntil ms) as [c|] eqn:Hc.
      * specialize (Hwf _ _ _ eq_refl Hms Hc).
        rewrite (positive_finite_truthy c Hwf).
        change (omap presentTimestamp [Some c])
          with (match presentTimestamp (Some c) with
                | Some y => [y] | None => [] end).
        cbn [presentTimestamp]. rewrite Hwf. reflexivity.
      * change (omap presentTimestamp [None]) with (@nil num).
        rewrite app_nil_r. reflexivity.
    + change (omap presentTimestamp [None]) with (@nil num).
      rewrite app_nil_r. reflexivity.
  - change (omap presentTimestamp [None]) with (@nil num).
    rewrite app_nil_r. reflexivity.
Qed.

(** C1. The profile-level timestamps are filtered as the claim says, the
    per-model one only for truthiness: a negative per-model [cooldownUntil]
    is returned where the claim asks for null. *)
Theorem resolve_unusable_until_keeps_negative_model_cooldown :
  let opus := ModelUsageStats.mk None (Some (Fin (-5))) None None ∅ in
  let stats :=
    ProfileUsageStats.mk None None None None None None None
      (Some {[ "opus" := opus ]}) ∅ in
  resolveProfileUnusableUntil stats (Some "opus") = Some (Fin (-5))
  /\ resolveUnusableUntil_spec stats (Some "opus") = None.
Proof. split; vm_compute; reflexivity. Qed.

(** The same slip lets an infinite per-model timestamp through, which keeps
    the profile in cooldown for that model at every time. *)
Lemma resolve_unusable_until_keeps_infinite_model_cooldown (now : Z) :
  let opus := ModelUsageStats.mk None (Some PosInf) None None ∅ in
  let stats :=
    ProfileUsageStats.mk None None None None None None None
      (Some {[ "opus" := opus ]}) ∅ in
  let store := mkStore (Fin 1) ∅ None None (Some {[ "p1" := stats ]}) in
  resolveProfileUnusableUntil stats (Some "opus") = Some PosInf
  /\ isProfileInCooldown store "p1" (Some "opus") now = true.
Proof. split; vm_compute; reflexivity. Qed.

(** C9. A profile without recorded statistics, whether the store has no
    [usageStats] at all or none under [profileId] (and whether or not
    [profileId] is among the profiles), is never in cooldown. *)
Theorem isProfileInCooldown_without_stats
    (store : AuthProfileStore) (profileId : string)
    (modelId : option string) (now : Z) :
  (usageStats store = None
   \/ exists us, usageStats store = Some us /\ us !! profileId = None) ->
  isProfileInCooldown store profileId modelId now = false.
Proof.
  intros Habsent. unfold isProfileInCooldown, usageStatsOf.
  destruct Habsent as [-> | (us & -> & ->)]; reflexivity.
Qed.

(** A store whose statistics know another profile only, asked about an
    identifier that is not even a profile. *)
Lemma isProfileInCooldown_without_stats_witness :
  isProfileInCooldown
    (mkStore (Fin 1) ∅ None None
       (Some {[ "p1" := ProfileUsageStats.mk None (Some PosInf) None None None
                          None None None ∅ ]}))
    "ghost" (Some "opus") 0 = false.
Proof.
  apply isProfileInCooldown_without_stats.
  right. eexists. split; [reflexivity|]. vm_compute. reflexivity.
Defined.

(** ** Success path *)

Lemma markUsedStats_profile_fields
    (existing : ProfileUsageStats.t) (modelId : option string) (now : Z) :
  let stats := markUsedStats existing modelId now in
  ProfileUsageStats.errorCount stats = Some (Fin 0)
  /\ ProfileUsageStats.cooldownUntil stats = None
  /\ ProfileUsageStats.disabledUntil stats = None
  /\ ProfileUsageStats.disabledReason stats = None
  /\ ProfileUsageStats.failureCounts stats = None
  /\ ProfileUsageStats.lastUsed stats = Some (Fin now).
Proof.
  unfold markUsedStats. destruct (truthy_string modelId); cbn; auto 10.
Qed.

Lemma markUsedStats_model_entry
    (existing : ProfileUsageStats.t) (m : string) (now : Z) :
  m <> "" ->
  modelStatsOf (markUsedStats existing (Some m) now) m
  = Some (ModelUsageStats.mk (Some (Fin now)) None (Some (Fin 0)) None ∅).
Proof.
  intros Hm. unfold markUsedStats, truthy_string.
  destruct m as [|ch m']; [congruence|]. cbn [str_truthy].
  unfold modelStatsOf. cbn [ProfileUsageStats.modelStats].
  apply lookup_insert_eq.
Qed.

Lemma truthy_string_Some (modelId : option string) (m : string) :
  truthy_string modelId = Some m -> modelId = Some m /\ m <> "".
Proof.
  destruct modelId as [m0|]; [|discriminate]. cbn.
  destruct m0; [discriminate|]. cbn. intros [= <-]. split; [reflexivity|discriminate].
Qed.

(** After a success nothing holds the profile back: neither without a model
    nor for the model the success was recorded for. *)
Lemma markUsedStats_usable
    (existing : ProfileUsageStats.t) (modelId asked : option string) (now : Z) :
  asked = None \/ asked = modelId ->
  resolveProfileUnusableUntil (markUsedStats existing modelId now) asked = None.
Proof.
  intros Hasked. unfold resolveProfileUnusableUntil.
  destruct (markUsedStats_profile_fields existing modelId now)
    as (_ & -> & -> & _).
  cbn [omap list_omap List.filter].
  change (List.filter _ (omap id [None; None])) with (@nil num).
  destruct (truthy_string asked) as [m|] eqn:Hm; [|reflexivity].
  apply truthy_string_Some in Hm as [-> Hne].
  destruct Hasked as [?| <-]; [discriminate|].
  rewrite markUsedStats_model_entry by exact Hne. reflexivity.
Qed.

(** Whichever path [markAuthProfileUsed] takes (locked update of the file, or
    the in-memory fallback), the caller's store ends up holding
    [markUsedStats] of some earlier statistics under [profileId]. *)
Lemma markAuthProfileUsed_writes_markUsedStats
    (file : StoreFile) (store : AuthProfileStore) (profileId : string)
    (modelId : option string) (now : Z) :
  is_Some (profiles store !! profileId) ->
  exists existing,
    usageStatsOf (markAuthProfileUsed file store profileId modelId now).2 profileId
    = Some (markUsedStats existing modelId now).
Proof.
  intros [cred Hcred].
  unfold markAuthProfileUsed, updateAuthProfileStoreWithLock, markUsedUpdater.
  destruct (lockAvailable file);
    [destruct (profiles (diskStore file) !! profileId) as [c|]|];
    cbn [snd]; rewrite ?Hcred; cbn [snd];
    eexists; unfold usageStatsOf, set_usageStats; cbn [usageStats];
    apply lookup_insert_eq.
Qed.

(** C4. For a store that contains the profile, after
    [markAuthProfileUsed] at time [now] the caller's store records for it:
    [errorCount = 0]; [cooldownUntil], [disabledUntil], [disabledReason] and
    [failureCounts] cleared; [lastUsed = now]; and the profile is not in
    cooldown at any time from [now] on.  When a model identifier is given
    (a non-empty string, as [if (modelId)] reads it), that model's
    [errorCount] is [0], its [cooldownUntil] cleared, its [lastUsed] is
    [now], and the profile is not in cooldown for that model either. *)
Theorem markAuthProfileUsed_wipes_cooldown
    (file : StoreFile) (store : AuthProfileStore) (profileId : string)
    (modelId : option string) (now : Z) :
  is_Some (profiles store !! profileId) ->
  let store' := (markAuthProfileUsed file store profileId modelId now).2 in
  exists stats,
    usageStatsOf store' profileId = Some stats
    /\ ProfileUsageStats.errorCount stats = Some (Fin 0)
    /\ ProfileUsageStats.cooldownUntil stats = None
    /\ ProfileUsageStats.disabledUntil stats = None
    /\ ProfileUsageStats.disabledReason stats = None
    /\ ProfileUsageStats.failureCounts stats = None
    /\ ProfileUsageStats.lastUsed stats = Some (Fin now)
    /\ (forall t, now <= t -> isProfileInCooldown store' profileId None t = false)
    /\ (forall m, modelId = Some m -> m <> "" ->
          exists ms,
            modelStatsOf stats m = Some ms
            /\ ModelUsageStats.errorCount ms = Some (Fin 0)
            /\ ModelUsageStats.cooldownUntil ms = None
            /\ ModelUsageStats.lastUsed ms = Some (Fin now)
            /\ (forall t, now <= t ->
                  isProfileInCooldown store' profileId (Some m) t = false)).
Proof.
  intros Hprofile store'.
  destruct (markAuthProfileUsed_writes_markUsedStats
              file store profileId modelId now Hprofile) as [existing Hstats].
  fold store' in Hstats.
  exists (markUsedStats existing modelId now).
  destruct (markUsedStats_profile_fields existing modelId now)
    as (He & Hc & Hd & Hr & Hf & Hl).
  repeat (split; [assumption|]).
  split.
  - intros t _. unfold isProfileInCooldown. rewrite Hstats.
    rewrite markUsedStats_usable by (left; reflexivity). reflexivity.
  - intros m -> Hm. eexists. split; [apply markUsedStats_model_entry, Hm|].
    cbn. repeat (split; [reflexivity|]).
    intros t _. unfold isProfileInCooldown. rewrite Hstats.
    rewrite markUsedStats_usable by (right; reflexivity). reflexivity.
Qed.

(** A profile in cooldown and disabled for billing, with the model in
    cooldown as well; the file is in step with the caller's store. *)
Lemma markAuthProfileUsed_wipes_cooldown_witness :
  let opus := ModelUsageStats.mk None (Some (Fin 900000)) (Some (Fin 2))
                (Some (Fin 100)) ∅ in
  let stats :=
    ProfileUsageStats.mk None (Some (Fin 500000)) (Some (Fin 18000000))
      (Some reason_billing) (Some (Fin 3)) (Some {[ reason_billing := Fin 1 ]})
      (Some (Fin 100)) (Some {[ "opus" := opus ]}) ∅ in
  let store :=
    mkStore (Fin 1) {[ "p1" := ApiKeyCredential "anthropic" None None None ]}
      None None (Some {[ "p1" := stats ]}) in
  isProfileInCooldown store "p1" (Some "opus") 1000 = true
  /\ isProfileInCooldown
       (markAuthProfileUsed (mkFile store true) store "p1" (Some "opus") 1000).2
       "p1" (Some "opus") 1000 = false.
Proof.
  intros opus stats store. split; [vm_compute; reflexivity|].
  assert (Hprofile : is_Some (profiles store !! "p1")).
  { eexists. vm_compute. reflexivity. }
  destruct (markAuthProfileUsed_wipes_cooldown
              (mkFile store true) store "p1" (Some "opus") 1000 Hprofile)
    as (st & _ & _ & _ & _ & _ & _ & _ & _ & Hmodel).
  destruct (Hmodel "opus" eq_refl ltac:(discriminate)) as (ms & _ & _ & _ & _ & Hcool).
  apply Hcool. lia.
Defined.

(** C2. [markAuthProfileUsed] with a model identifier builds that model's
    entry from scratch instead of spreading the existing one: a field it
    does not set, here [lastFailureAt] (and an unknown field [note]), is
    gone afterwards.  The profile-level object is spread, and so its own
    [lastFailureAt] survives. *)
Theorem markAuthProfileUsed_drops_model_fields :
  let opus :=
    ModelUsageStats.mk None None (Some (Fin 2)) (Some (Fin 100))
      {[ "note" := JStr "keep" ]} in
  let stats :=
    ProfileUsageStats.mk None None None None None None (Some (Fin 100))
      (Some {[ "opus" := opus ]}) ∅ in
  let store :=
    mkStore (Fin 1) {[ "p1" := ApiKeyCredential "anthropic" None None None ]}
      None None (Some {[ "p1" := stats ]}) in
  let store' :=
    (markAuthProfileUsed (mkFile store true) store "p1" (Some "opus") 1000).2 in
  (ModelUsageStats.lastFailureAt <$>
     (usageStatsOf store "p1" ≫= fun st => modelStatsOf st "opus"))
  = Some (Some (Fin 100))
  /\ (ModelUsageStats.lastFailureAt <$>
        (usageStatsOf store' "p1" ≫= fun st => modelStatsOf st "opus"))
     = Some None
  /\ ((fun ms => ModelUsageStats.unknownFields ms !! "note") <$>
        (usageStatsOf store' "p1" ≫= fun st => modelStatsOf st "opus"))
     = Some None
  /\ (ProfileUsageStats.lastFailureAt <$> usageStatsOf store' "p1")
     = Some (Some (Fin 100)).
Proof. repeat split; vm_compute; reflexivity. Qed.

(** The same happens on the in-memory fallback path (lock unavailable). *)
Lemma markAuthProfileUsed_drops_model_fields_fallback :
  let opus :=
    ModelUsageStats.mk None None (Some (Fin 2)) (Some (Fin 100)) ∅ in
  let stats :=
    ProfileUsageStats.mk None None None None None None None
      (Some {[ "opus" := opus ]}) ∅ in
  let store :=
    mkStore (Fin 1) {[ "p1" := ApiKeyCredential "anthropic" None None None ]}
      None None (Some {[ "p1" := stats ]}) in
  let store' :=
    (markAuthProfileUsed (mkFile store false) store "p1" (Some "opus") 1000).2 in
  (ModelUsageStats.lastFailureAt <$>
     (usageStatsOf store' "p1" ≫= fun st => modelStatsOf st "opus"))
  = Some None.
Proof. vm_compute. reflexivity. Qed.

(** What [markUsedStats] does preserve: on the profile, [lastFailureAt], the
    unknown fields and every other model's entry. *)
Lemma markUsedStats_frame
    (existing : ProfileUsageStats.t) (modelId : option string) (now : Z) :
  let stats := markUsedStats existing modelId now in
  ProfileUsageStats.lastFailureAt stats = ProfileUsageStats.lastFailureAt existing
  /\ ProfileUsageStats.unknownFields stats = ProfileUsageStats.unknownFields existing
  /\ (forall m', modelId <> Some m' ->
        modelStatsOf stats m' = modelStatsOf existing m').
Proof.
  unfold markUsedStats.
  destruct (truthy_string modelId) as [m|] eqn:Hm; cbn; repeat split; try done.
  intros m' Hne. apply truthy_string_Some in Hm as [-> _].
  unfold modelStatsOf. cbn.
  rewrite lookup_insert_ne by congruence.
  destruct (ProfileUsageStats.modelStats existing); [reflexivity|apply lookup_empty].
Qed.

(** ** Failure path *)

(** C5. When the last failure is recorded, positive, and older than the
    failure window, a profile-wide failure (reason auth, format or unknown,
    or rate_limit/timeout without a model identifier) sets [errorCount] to
    exactly [1], whatever it was before. *)
Theorem failure_after_window_restarts_count
    (existing : ProfileUsageStats.t) (now lastFailureAt : num)
    (reason : AuthProfileFailureReason) (cfgResolved : ResolvedAuthCooldownConfig)
    (modelId : option string) (retryAfterMs : option num) :
  ProfileUsageStats.lastFailureAt existing = Some lastFailureAt ->
  JsNum.gt lastFailureAt (Fin 0) = true ->
  JsNum.gt (JsNum.sub now lastFailureAt) (failureWindowMs cfgResolved) = true ->
  (reason = reason_auth \/ reason = reason_format \/ reason = reason_unknown
   \/ ((reason = reason_rate_limit \/ reason = reason_timeout)
       /\ opt_str_truthy modelId = false)) ->
  ProfileUsageStats.errorCount
    (computeNextProfileUsageStats existing now reason cfgResolved modelId retryAfterMs)
  = Some (Fin 1).
Proof.
  intros Hlast Hpos Hold Hwide. unfold computeNextProfileUsageStats.
  rewrite Hlast, Hpos, Hold. cbn [andb].
  destruct (decide (reason = reason_billing)) as [->|_].
  { destruct Hwide as [?|[?|[?|[[?|?] _]]]]; discriminate. }
  assert (Hscope :
    (if opt_str_truthy modelId
        && (bool_decide (reason = reason_rate_limit)
            || bool_decide (reason = reason_timeout))
     then truthy_string modelId else None) = None).
  { destruct Hwide as [->|[->|[->|[_ ->]]]];
      try reflexivity; destruct (opt_str_truthy modelId); reflexivity. }
  rewrite Hscope. reflexivity.
Qed.

(** A rate-limit failure one millisecond after the twenty-four-hour window
    has run out, prior count two. *)
Lemma failure_after_window_restarts_count_witness :
  ProfileUsageStats.errorCount
    (computeNextProfileUsageStats
       (ProfileUsageStats.mk None (Some (Fin 330000)) None None (Some (Fin 2))
          None (Some (Fin 30000)) None ∅)
       (Fin 86430001) reason_rate_limit
       (mkCooldownConfig (Fin 18000000) (Fin 86400000) (Fin 86400000))
       None None)
  = Some (Fin 1).
Proof.
  apply (failure_after_window_restarts_count _ _ (Fin 30000));
    [reflexivity | reflexivity | reflexivity |].
  right; right; right. split; [left|]; reflexivity.
Defined.

(** Scenarios E1, E2, E4 and E5 of the specification. *)
Example failure_scenarios :
  let cfg := mkCooldownConfig (Fin 18000000) (Fin 86400000) (Fin 86400000) in
  let e1 := computeNextProfileUsageStats ProfileUsageStats.empty (Fin 0)
              reason_rate_limit cfg None None in
  let e2 := computeNextProfileUsageStats e1 (Fin 30000)
              reason_rate_limit cfg None None in
  let e4 := computeNextProfileUsageStats ProfileUsageStats.empty (Fin 0)
              reason_billing cfg None None in
  let e5 := computeNextProfileUsageStats e4 (Fin 3600000)
              reason_billing cfg None None in
  (ProfileUsageStats.errorCount e1, ProfileUsageStats.cooldownUntil e1,
   ProfileUsageStats.lastFailureAt e1)
  = (Some (Fin 1), Some (Fin 60000), Some (Fin 0))
  /\ (ProfileUsageStats.errorCount e2, ProfileUsageStats.cooldownUntil e2)
     = (Some (Fin 2), Some (Fin 330000))
  /\ (ProfileUsageStats.disabledUntil e4, ProfileUsageStats.disabledReason e4,
      ProfileUsageStats.failureCounts e4 ≫= (.!! reason_billing))
     = (Some (Fin 18000000), Some reason_billing, Some (Fin 1))
  /\ (ProfileUsageStats.disabledUntil e5,
      ProfileUsageStats.failureCounts e5 ≫= (.!! reason_billing))
     = (Some (Fin 39600000), Some (Fin 2)).
Proof. repeat split; vm_compute; reflexivity. Qed.

(** Scenario E6: a rate limit recorded for one model leaves the others
    eligible. *)
Example model_scoped_failure :
  let cfg := mkCooldownConfig (Fin 18000000) (Fin 86400000) (Fin 86400000) in
  let stats := computeNextProfileUsageStats ProfileUsageStats.empty (Fin 0)
                 reason_rate_limit cfg (Some "opus") None in
  let store := mkStore (Fin 1) ∅ None None (Some {[ "p1" := stats ]}) in
  isProfileInCooldown store "p1" (Some "haiku") 0 = false
  /\ isProfileInCooldown store "p1" (Some "opus") 0 = true
  /\ ProfileUsageStats.errorCount stats = None.
Proof. repeat split; vm_compute; reflexivity. Qed.

(** ** Manual clear *)

(** What the shared block of [clearAuthProfileCooldown] leaves under
    [profileId], and that it leaves every other profile alone. *)
Lemma clearCooldownIn_lookup
    (store : AuthProfileStore) (us : gmap string ProfileUsageStats.t)
    (profileId : string) (stats : ProfileUsageStats.t) (modelId : option string) :
  usageStats store = Some us ->
  us !! profileId = Some stats ->
  let store' := clearCooldownIn store us profileId stats modelId in
  (exists stats',
     usageStatsOf store' profileId = Some stats'
     /\ ProfileUsageStats.lastUsed stats' = ProfileUsageStats.lastUsed stats
     /\ ProfileUsageStats.disabledUntil stats' = ProfileUsageStats.disabledUntil stats
     /\ ProfileUsageStats.disabledReason stats' = ProfileUsageStats.disabledReason stats
     /\ ProfileUsageStats.failureCounts stats' = ProfileUsageStats.failureCounts stats
     /\ ProfileUsageStats.lastFailureAt stats' = ProfileUsageStats.lastFailureAt stats
     /\ ProfileUsageStats.unknownFields stats' = ProfileUsageStats.unknownFields stats
     /\ match truthy_string modelId with
        | None =>
            ProfileUsageStats.errorCount stats' = Some (Fin 0)
            /\ ProfileUsageStats.cooldownUntil stats' = None
            /\ ProfileUsageStats.modelStats stats' = ProfileUsageStats.modelStats stats
        | Some m =>
            ProfileUsageStats.errorCount stats' = ProfileUsageStats.errorCount stats
            /\ ProfileUsageStats.cooldownUntil stats'
               = ProfileUsageStats.cooldownUntil stats
            /\ (forall m', m' <> m -> modelStatsOf stats' m' = modelStatsOf stats m')
            /\ match modelStatsOf stats m with
               | None => modelStatsOf stats' m = None
               | Some ms =>
                   modelStatsOf stats' m
                   = Some (ModelUsageStats.mk
                             (ModelUsageStats.lastUsed ms) None (Some (Fin 0))
                             (ModelUsageStats.lastFailureAt ms)
                             (ModelUsageStats.unknownFields ms))
               end
        end)
  /\ (forall other, other <> profileId ->
        usageStatsOf store' other = usageStatsOf store other).
Proof.
  intros Hus Hstats store'. subst store'. unfold clearCooldownIn.
  destruct (truthy_string modelId) as [m|].
  - unfold modelStatsOf.
    destruct (ProfileUsageStats.modelStats stats) as [all|] eqn:Hall.
    + destruct (all !! m) as [ms|] eqn:Hms.
      * split.
        -- eexists. split.
           { unfold usageStatsOf, set_usageStats. cbn [usageStats].
             apply lookup_insert_eq. }
           cbn. repeat (split; [reflexivity|]). split.
           ++ intros m' Hne. apply lookup_insert_ne. congruence.
           ++ apply lookup_insert_eq.
        -- intros other Hne. unfold usageStatsOf, set_usageStats.
           cbn [usageStats]. rewrite Hus. apply lookup_insert_ne. congruence.
      * split; [|reflexivity].
        exists stats. unfold usageStatsOf. rewrite Hus, Hall, Hms. auto 12.
    + split; [|reflexivity].
      exists stats. unfold usageStatsOf. rewrite Hus, Hall. auto 12.
  - split.
    + eexists. split.
      { unfold usageStatsOf, set_usageStats. cbn [usageStats].
        apply lookup_insert_eq. }
      cbn. auto 12.
    + intros other Hne. unfold usageStatsOf, set_usageStats.
      cbn [usageStats]. rewrite Hus. apply lookup_insert_ne. congruence.
Qed.

(** C6. [clearAuthProfileCooldown] reads the profile's statistics from the
    file when the lock can be taken and the file has them, and from the
    caller's store otherwise.  Relative to the statistics [stats] it read,
    the caller's store afterwards holds statistics [stats'] such that:
    without a model identifier only [errorCount] (now [0]) and
    [cooldownUntil] (now cleared) differ, [disabledUntil], [disabledReason],
    [failureCounts] and all of [modelStats] being as before; with a model
    identifier only that model's [errorCount] and [cooldownUntil] differ,
    every other field of the profile, of that model and of the other models
    being as before.  Other profiles' statistics are untouched. *)
Theorem clearAuthProfileCooldown_clears_only_cooldown
    (file : StoreFile) (store : AuthProfileStore) (profileId : string)
    (modelId : option string) (stats : ProfileUsageStats.t) :
  let source :=
    if lockAvailable file then
      match usageStatsOf (diskStore file) profileId with
      | Some _ => diskStore file
      | None => store
      end
    else store in
  usageStatsOf source profileId = Some stats ->
  let store' := (clearAuthProfileCooldown file store profileId modelId).2 in
  (exists stats',
     usageStatsOf store' profileId = Some stats'
     /\ ProfileUsageStats.lastUsed stats' = ProfileUsageStats.lastUsed stats
     /\ ProfileUsageStats.disabledUntil stats' = ProfileUsageStats.disabledUntil stats
     /\ ProfileUsageStats.disabledReason stats' = ProfileUsageStats.disabledReason stats
     /\ ProfileUsageStats.failureCounts stats' = ProfileUsageStats.failureCounts stats
     /\ ProfileUsageStats.lastFailureAt stats' = ProfileUsageStats.lastFailureAt stats
     /\ ProfileUsageStats.unknownFields stats' = ProfileUsageStats.unknownFields stats
     /\ match truthy_string modelId with
        | None =>
            ProfileUsageStats.errorCount stats' = Some (Fin 0)
            /\ ProfileUsageStats.cooldownUntil stats' = None
            /\ ProfileUsageStats.modelStats stats' = ProfileUsageStats.modelStats stats
        | Some m =>
            ProfileUsageStats.errorCount stats' = ProfileUsageStats.errorCount stats
            /\ ProfileUsageStats.cooldownUntil stats'
               = ProfileUsageStats.cooldownUntil stats
            /\ (forall m', m' <> m -> modelStatsOf stats' m' = modelStatsOf stats m')
            /\ match modelStatsOf stats m with
               | None => modelStatsOf stats' m = None
               | Some ms =>
                   modelStatsOf stats' m
                   = Some (ModelUsageStats.mk
                             (ModelUsageStats.lastUsed ms) None (Some (Fin 0))
                             (ModelUsageStats.lastFailureAt ms)
                             (ModelUsageStats.unknownFields ms))
               end
        end)
  /\ (forall other, other <> profileId ->
        usageStatsOf store' other = usageStatsOf source other).
Proof.
  intros source Hstats store'.
  assert (Hread : exists src us,
    source = src /\ usageStats src = Some us /\ us !! profileId = Some stats
    /\ forall p, usageStatsOf store' p
                 = usageStatsOf (clearCooldownIn src us profileId stats modelId) p).
  { assert (Hfallback :
      usageStatsOf store profileId = Some stats ->
      exists us, usageStats store = Some us /\ us !! profileId = Some stats
        /\ forall p,
             usageStatsOf
               (match usageStats store with
                | Some us =>
                    match us !! profileId with
                    | Some stats =>
                        let store := clearCooldownIn store us profileId stats modelId in
                        (saveAuthProfileStore file store, store)
                    | None => (file, store)
                    end
                | None => (file, store)
                end).2 p
             = usageStatsOf (clearCooldownIn store us profileId stats modelId) p).
    { intros Hmem. unfold usageStatsOf in Hmem.
      destruct (usageStats store) as [us'|] eqn:Hus'; [|discriminate].
      exists us'. rewrite Hmem. cbn [snd]. auto. }
    subst source store'.
    unfold clearAuthProfileCooldown, updateAuthProfileStoreWithLock,
      clearCooldownUpdater.
    destruct (lockAvailable file).
    - destruct (usageStatsOf (diskStore file) profileId) as [st|] eqn:Hdisk.
      + rewrite Hdisk in Hstats. injection Hstats as ->.
        unfold usageStatsOf in Hdisk.
        destruct (usageStats (diskStore file)) as [us|] eqn:Hus; [|discriminate].
        rewrite Hdisk. cbn [snd].
        exists (diskStore file), us. auto.
      + unfold usageStatsOf in Hdisk.
        destruct (usageStats (diskStore file)) as [us|] eqn:Hus;
          [rewrite Hdisk|];
          destruct (Hfallback Hstats) as (us' & ? & ? & ?); exists store, us'; auto.
    - destruct (Hfallback Hstats) as (us' & ? & ? & ?). exists store, us'. auto. }
  destruct Hread as (src & us & Hsrc & Hus & Hst & Hout).
  clearbody store' source. subst source.
  destruct (clearCooldownIn_lookup src us profileId stats modelId Hus Hst)
    as [Hmain Hothers].
  split.
  - rewrite Hout. exact Hmain.
  - intros other Hne. rewrite Hout. exact (Hothers other Hne).
Qed.

(** A profile in cooldown and disabled for billing, cleared without a model
    identifier while the lock cannot be taken: the billing state stays. *)
Lemma clearAuthProfileCooldown_clears_only_cooldown_witness :
  let stats :=
    ProfileUsageStats.mk None (Some (Fin 500000)) (Some (Fin 18000000))
      (Some reason_billing) (Some (Fin 3)) (Some {[ reason_billing := Fin 1 ]})
      (Some (Fin 100)) None ∅ in
  let store := mkStore (Fin 1) ∅ None None (Some {[ "p1" := stats ]}) in
  exists stats',
    usageStatsOf
      (clearAuthProfileCooldown (mkFile store false) store "p1" None).2 "p1"
    = Some stats'
    /\ ProfileUsageStats.disabledUntil stats' = Some (Fin 18000000)
    /\ ProfileUsageStats.errorCount stats' = Some (Fin 0)
    /\ ProfileUsageStats.cooldownUntil stats' = None.
Proof.
  intros stats store.
  assert (Hstats : usageStatsOf store "p1" = Some stats)
    by (vm_compute; reflexivity).
  destruct (clearAuthProfileCooldown_clears_only_cooldown
              (mkFile store false) store "p1" None stats Hstats)
    as [(stats' & Hlook & _ & Hdis & _ & _ & _ & _ & Hcount & Hcool & _) _].
  exists stats'. repeat split; assumption.
Defined.

(** ** Retry-After extractor *)

(** C3. A direct numeric [retryAfter] is multiplied by 1000 and returned as
    it is, without the rounding and the clamping at zero that the [headers]
    branch applies: for [{ retryAfter: -1 }] the result is [-1000], a
    negative number of milliseconds. *)
Theorem extractRetryAfterMs_negative_direct_property
    (Date_parse : string -> num) (ToString : JsVal -> string) (now : Z) :
  extractRetryAfterMs Date_parse ToString
    (JObj [("retryAfter", JNum (Fin (-1)))]) now
  = Some (Fin (-1000))
  /\ JsNum.lt (Fin (-1000)) (Fin 0) = true.
Proof. split; reflexivity. Qed.

(** The same through [retry_after], and a non-finite result. *)
Lemma extractRetryAfterMs_direct_property_unchecked
    (Date_parse : string -> num) (ToString : JsVal -> string) (now : Z) :
  extractRetryAfterMs Date_parse ToString
    (JObj [("retry_after", JNum (Fin (-30)))]) now = Some (Fin (-30000))
  /\ extractRetryAfterMs Date_parse ToString
       (JObj [("retryAfter", JNum NaN)]) now = Some NaN.
Proof. split; reflexivity. Qed.

Lemma spanDigits_all_digits (s : string) :
  List.Forall (fun c => Js.isDigit c = true)
    (list_ascii_of_string (Js.spanDigits s).1).
Proof.
  induction s as [|c rest IH]; cbn [Js.spanDigits]; [constructor|].
  destruct (Js.isDigit c) eqn:Hc; [|constructor].
  destruct (Js.spanDigits rest) as [ds tl]. cbn in IH |- *.
  constructor; assumption.
Qed.

Lemma fold_digits_nonneg (l : list ascii) (acc : Z) :
  List.Forall (fun c => Js.isDigit c = true) l -> 0 <= acc ->
  0 <= fold_left (fun acc c => 10 * acc + (Z.of_nat (nat_of_ascii c) - 48)) l acc.
Proof.
  intros Hl. revert acc. induction Hl as [|c l Hc _ IH]; intros acc Hacc;
    [exact Hacc|].
  cbn [fold_left]. apply IH. unfold Js.isDigit in Hc.
  apply andb_prop in Hc as [Hlo _]. apply Nat.leb_le in Hlo. lia.
Qed.

Lemma parseFloat_nonneg (s : string) : (0 <= Js.parseFloat s)%Q.
Proof.
  unfold Js.parseFloat.
  pose proof (spanDigits_all_digits s) as Hwhole.
  destruct (Js.spanDigits s) as [whole rest]. cbn [fst] in Hwhole.
  assert (Hw : 0 <= Js.digitsValue whole)
    by (apply fold_digits_nonneg; [exact Hwhole|lia]).
  destruct rest as [|dot frac].
  - change 0%Q with (inject_Z 0). rewrite <- Zle_Qle. exact Hw.
  - pose proof (spanDigits_all_digits frac) as Hfrac.
    destruct (Js.spanDigits frac) as [fs tl]. cbn [fst] in Hfrac.
    assert (Hf : 0 <= Js.digitsValue fs)
      by (apply fold_digits_nonneg; [exact Hfrac|lia]).
    unfold Qle. cbn [Qnum Qden]. rewrite Z.mul_1_r, Z.mul_0_l.
    assert (0 <= 10 ^ Z.of_nat (String.length fs)) by (apply Z.pow_nonneg; lia).
    nia.
Qed.

(** The [headers] branch, by contrast, only ever returns a whole number of
    milliseconds that is not negative (or [+Infinity], should [Date.parse]
    produce it). *)
Lemma retryAfterFromHeaders_nonneg
    (Date_parse : string -> num) (ToString : JsVal -> string)
    (record : JsVal) (now : Z) (ms : num) :
  retryAfterFromHeaders Date_parse ToString record now = Some ms ->
  JsNum.le (Fin 0) ms = true.
Proof.
  unfold retryAfterFromHeaders.
  destruct (Js.truthy _ && Js.typeofObject _); [|discriminate].
  destruct (List.find _ _) as [retryKey|]; [|discriminate].
  destruct (Js.truthy _); [|discriminate].
  destruct (Js.isDecimalSeconds _).
  - intros [= <-]. apply JsNumFacts.le_Fin.
    match goal with |- 0 <= Qceiling ?q => assert (Hq : (0 <= q)%Q) end.
    { apply Qmult_le_0_compat; [apply parseFloat_nonneg|discriminate]. }
    rewrite Zle_Qle. eapply Qle_trans; [exact Hq|apply Qle_ceiling].
  - destruct (Date_parse _) as [d| | |]; try discriminate.
    + intros [= <-]. unfold JsNum.gt, JsNum.sub, JsNum.add, JsNum.neg, JsNum.lt.
      destruct (Z.ltb_spec 0 (d + - now)); apply JsNumFacts.le_Fin; lia.
    + intros [= <-]. reflexivity.
    + intros [= <-]. reflexivity.
Qed.

Example extractRetryAfterMs_header_seconds
    (Date_parse : string -> num) (ToString : JsVal -> string) :
  extractRetryAfterMs Date_parse ToString
    (JObj [("status", JNum (Fin 429));
           ("headers", JObj [("Retry-After", JArr [JStr "1.5"])]);
           ("retryAfter", JNum (Fin 7))]) 0
  = Some (Fin 1500).
Proof. vm_compute. reflexivity. Qed.

Example extractRetryAfterMs_header_date (ToString : JsVal -> string) :
  extractRetryAfterMs (fun _ => Fin 5000) ToString
    (JObj [("headers", JObj [("retry-after", JStr "Wed, 21 Oct 2015 07:28:00 GMT")])])
    2000
  = Some (Fin 3000).
Proof. vm_compute. reflexivity. Qed.

Example extractRetryAfterMs_not_an_object
    (Date_parse : string -> num) (ToString : JsVal -> string) :
  extractRetryAfterMs Date_parse ToString (JStr "rate limited") 0 = None
  /\ extractRetryAfterMs Date_parse ToString JNull 0 = None.
Proof. split; reflexivity. Qed.

(** ** Infinite-retry driver *)

Section InfiniteRetryFacts.

Context {T : Type} (params : RetryParams T).

Lemma isQuotaFailure_true (error : Thrown) :
  isQuotaFailure error = true
  <-> exists failoverReason message,
        error = FailoverError failoverReason message
        /\ (failoverReason = reason_rate_limit \/ failoverReason = reason_timeout).
Proof.
  split.
  - destruct error as [r msg| |]; try discriminate. cbn.
    intros H. exists r, msg. split; [reflexivity|].
    destruct r; cbn in H; try discriminate; auto.
  - intros (r & msg & -> & [-> | ->]); reflexivity.
Qed.

(** Without cancellation, a failed attempt either ends the loop with the
    error it caught or sleeps for [waitMsAt] and goes round again. *)
Lemma iteration_on_error (attempt : nat) (error : Thrown) :
  execute params attempt = Rejected error ->
  (forall at_, aborted params attempt at_ = false) ->
  iteration params attempt
  = if isQuotaFailure error then
      (Continue,
       [EvExecute attempt;
        if onQuotaExhaustion params
        then EvQuotaExhaustion (nullish (provider params) "unknown")
               (nullish (modelId params) "unknown")
               (waitMsAt params attempt) attempt
        else EvLogWarn (provider params) (modelId params)
               (JsNum.ceilDiv (waitMsAt params attempt) 1000) attempt;
        EvSlept (waitMsAt params attempt)])
    else (Done (Rejected error), [EvExecute attempt]).
Proof.
  intros Hexec Hquiet. unfold iteration, sleepWithAbort.
  rewrite !Hquiet, Hexec. destruct (isQuotaFailure error); reflexivity.
Qed.

End InfiniteRetryFacts.

(** C7. When [execute] throws and no cancellation is requested, the driver
    sleeps and retries if and only if the error is a [FailoverError] whose
    [failoverReason] is rate_limit or timeout.  Any other error (not a
    [FailoverError], or one with reason billing, auth, format or unknown)
    ends the loop at once, rejected with that very error and without a
    sleep; after a qualifying error the loop goes on to the next attempt. *)
Theorem retry_iff_rate_limit_or_timeout
    {T : Type} (params : RetryParams T) (n : nat) (error : Thrown) :
  execute params (S n) = Rejected error ->
  (forall at_, aborted params (S n) at_ = false) ->
  let qualifies :=
    exists failoverReason message,
      error = FailoverError failoverReason message
      /\ (failoverReason = reason_rate_limit \/ failoverReason = reason_timeout) in
  ((iteration params (S n)).1 = Continue <-> qualifies)
  /\ (In (EvSlept (waitMsAt params (S n))) (iteration params (S n)).2 <-> qualifies)
  /\ (~ qualifies ->
      iteration params (S n) = (Done (Rejected error), [EvExecute (S n)])
      /\ forall fuel,
           retryLoop params (S fuel) n
           = (Some (Rejected error), [EvExecute (S n)]))
  /\ (qualifies ->
      forall fuel,
        retryLoop params (S fuel) n
        = ((retryLoop params fuel (S n)).1,
           ((iteration params (S n)).2 ++ (retryLoop params fuel (S n)).2)%list)).
Proof.
  intros Hexec Hquiet qualifies.
  pose proof (iteration_on_error params (S n) error Hexec Hquiet) as Hit.
  pose proof (isQuotaFailure_true error) as Hq. fold qualifies in Hq.
  destruct (isQuotaFailure error) eqn:Hquota.
  - assert (Hyes : qualifies) by (apply Hq; reflexivity).
    rewrite Hit. cbn [fst snd]. split; [|split; [|split]].
    + split; [intros _; exact Hyes|reflexivity].
    + split; [intros _; exact Hyes|].
      intros _. right. right. left. reflexivity.
    + intros Hno. contradiction.
    + intros _ fuel. cbn [retryLoop]. rewrite Hit.
      destruct (retryLoop params fuel (S n)) as [outcome later]. reflexivity.
  - assert (Hno : ~ qualifies).
    { intros Hyes. apply Hq in Hyes. discriminate. }
    rewrite Hit. cbn [fst snd]. split; [|split; [|split]].
    + split; [discriminate|intros Hyes; contradiction].
    + split; [|intros Hyes; contradiction].
      intros [Hin|[]]. discriminate Hin.
    + intros _. split; [reflexivity|].
      intros fuel. cbn [retryLoop]. rewrite Hit. reflexivity.
    + intros Hyes. contradiction.
Qed.

(** A first attempt that is rate limited, no abort signal, no store. *)
Lemma retry_iff_rate_limit_or_timeout_witness :
  let params :=
    mkRetryParams nat
      (fun attempt =>
         match attempt with
         | 1%nat => Rejected (FailoverError reason_rate_limit "429")
         | _ => Resolved 42%nat
         end)
      false None None (Some "opus") (Some "anthropic") None (fun _ => 0) in
  (iteration params 1).1 = Continue
  /\ withInfiniteRetry params 2
     = (Some (Resolved 42%nat),
        [EvExecute 1;
         EvLogWarn (Some "anthropic") (Some "opus") (Fin 60) 1;
         EvSlept (Fin 60000);
         EvExecute 2]).
Proof.
  intros params.
  destruct (retry_iff_rate_limit_or_timeout params 0
              (FailoverError reason_rate_limit "429") eq_refl
              (fun _ => eq_refl)) as (Hcont & _ & _ & Hloop).
  assert (Hq : exists failoverReason message,
             FailoverError reason_rate_limit "429"
             = FailoverError failoverReason message
             /\ (failoverReason = reason_rate_limit
                 \/ failoverReason = reason_timeout)).
  { exists reason_rate_limit, "429". split; [reflexivity|left; reflexivity]. }
  split.
  - apply Hcont. exact Hq.
  - unfold withInfiniteRetry. rewrite (Hloop Hq 1%nat). reflexivity.
Defined.

(** An error that does not qualify ends the loop on the spot, whatever the
    fuel. *)
Example billing_failure_propagates (fuel : nat) :
  withInfiniteRetry
    (mkRetryParams nat (fun _ => Rejected (FailoverError reason_billing "402"))
       true None None None None None (fun _ => 0))
    (S fuel)
  = (Some (Rejected (FailoverError reason_billing "402")), [EvExecute 1]).
Proof. reflexivity. Qed.

(** C10. With a store, a candidate list and a (non-empty) model identifier
    all supplied, a candidate list that is empty or holds only undefined
    entries makes the computed wait [0] ms, not the [60_000] ms used when one
    of the three is missing: after a qualifying error, and with no
    cancellation, the driver sleeps for [0] ms and retries. *)
Theorem wait_is_zero_without_usable_candidates
    {T : Type} (params : RetryParams T)
    (contents : nat -> AuthProfileStore) (candidates : list (option string))
    (m : string) (attempt : nat) :
  authStore params = Some contents ->
  profileCandidates params = Some candidates ->
  modelId params = Some m ->
  m <> "" ->
  Forall (fun candidate => candidate = None) candidates ->
  waitMsAt params attempt = Fin 0
  /\ waitMsAt params attempt <> Fin (60 * 1000)
  /\ (forall error,
        execute params attempt = Rejected error ->
        isQuotaFailure error = true ->
        (forall at_, aborted params attempt at_ = false) ->
        (iteration params attempt).1 = Continue
        /\ In (EvSlept (Fin 0)) (iteration params attempt).2).
Proof.
  intros Hstore Hcands Hmodel Hm Hnone.
  assert (Hwait : waitMsAt params attempt = Fin 0).
  { unfold waitMsAt, computeWaitMs. rewrite Hstore, Hcands, Hmodel.
    destruct m as [|ch m']; [congruence|]. cbn [truthy_string str_truthy].
    unfold calculateMinimumWaitMs.
    assert (Hscan :
      scanCandidates (contents attempt) (String ch m') (dateNow params attempt)
        candidates None = inr None).
    { clear -Hnone. induction Hnone as [|c cs -> _ IH]; [reflexivity|exact IH]. }
    rewrite Hscan. reflexivity. }
  split; [exact Hwait|]. split; [rewrite Hwait; discriminate|].
  intros error Hexec Hquota Hquiet.
  rewrite (iteration_on_error params attempt error Hexec Hquiet), Hquota, Hwait.
  cbn [fst snd]. split; [reflexivity|].
  right. right. left. reflexivity.
Qed.

(** An empty candidate list, and one of undefined entries only. *)
Lemma wait_is_zero_without_usable_candidates_witness :
  let store := mkStore (Fin 1) ∅ None None None in
  let params (candidates : list (option string)) :=
    mkRetryParams nat
      (fun _ => Rejected (FailoverError reason_rate_limit "429"))
      true (Some (fun _ => store)) (Some candidates) (Some "opus")
      (Some "anthropic") None (fun _ => 0) in
  waitMsAt (params []) 1 = Fin 0 /\ waitMsAt (params [None; None]) 1 = Fin 0.
Proof.
  intros store params. split.
  - apply (wait_is_zero_without_usable_candidates
             (params []) (fun _ => store) [] "opus" 1);
      [reflexivity | reflexivity | reflexivity | discriminate | constructor].
  - apply (wait_is_zero_without_usable_candidates
             (params [None; None]) (fun _ => store) [None; None] "opus" 1);
      [reflexivity | reflexivity | reflexivity | discriminate
      | repeat constructor].
Defined.

(** The default applies exactly when the store, the candidate list or the
    model identifier is missing (an empty identifier counts as missing). *)
Lemma wait_defaults_to_one_minute
    (store : option AuthProfileStore) (candidates : option (list (option string)))
    (modelId : option string) (now : Z) :
  store = None \/ candidates = None \/ truthy_string modelId = None ->
  computeWaitMs store candidates modelId now = Fin 60000.
Proof.
  intros [-> | [-> | Hm]]; unfold computeWaitMs.
  - reflexivity.
  - destruct store; reflexivity.
  - rewrite Hm. destruct store, candidates; reflexivity.
Qed.

(** With a usable candidate the wait is what the oracle reports: one
    candidate in cooldown for another two seconds (scenario E7). *)
Example wait_for_single_candidate_in_cooldown :
  let stats :=
    ProfileUsageStats.mk None (Some (Fin 12000)) None None (Some (Fin 1))
      None (Some (Fin 5000)) None ∅ in
  let store := mkStore (Fin 1) ∅ None None (Some {[ "p1" := stats ]}) in
  calculateMinimumWaitMs store [Some "p1"] "opus" 10000 = Fin 2000
  /\ calculateMinimumWaitMs store [Some "p1"; Some "p2"] "opus" 10000 = Fin 0.
Proof. split; vm_compute; reflexivity. Qed.

(** * Further properties of the code *)

(** ** Rate-limit backoff *)

(** The rate-limit backoff in closed form, for every count that is a number. *)
Lemma cooldown_backoff_closed (n : num) :
  n <> NaN ->
  calculateAuthProfileCooldownMs n
  = Fin (Z.min 3600000
           (60000 * 5 ^ match n with
                        | Fin z => Z.min (Z.max 1 z - 1) 3
                        | PosInf => 3
                        | _ => 0
                        end)).
Proof.
  intros Hn. unfold calculateAuthProfileCooldownMs.
  destruct n as [z| | |]; [| reflexivity | reflexivity | congruence].
  rewrite JsNumFacts.max_Fin, JsNumFacts.sub_Fin, JsNumFacts.min_Fin.
  rewrite JsNumFacts.pow_Fin_nonneg by lia.
  cbn [JsNum.mul]. rewrite JsNumFacts.min_Fin. reflexivity.
Qed.

(** X1. The rate-limit backoff never leaves the range from one minute to
    one hour and never shrinks when the error count grows. *)
Theorem cooldown_backoff_bounded_monotone (n n' : num) :
  JsNum.le n n' = true ->
  JsNum.le (calculateAuthProfileCooldownMs n) (calculateAuthProfileCooldownMs n') = true
  /\ JsNum.le (Fin 60000) (calculateAuthProfileCooldownMs n) = true
  /\ JsNum.le (calculateAuthProfileCooldownMs n) (Fin 3600000) = true.
Proof.
  intros Hle.
  assert (Hn : n <> NaN) by (destruct n; [congruence..|discriminate Hle]).
  assert (Hn' : n' <> NaN)
    by (destruct n, n'; try congruence; discriminate Hle).
  rewrite (cooldown_backoff_closed n Hn), (cooldown_backoff_closed n' Hn').
  rewrite !JsNumFacts.le_Fin.
  assert (Hexp : forall e, 0 <= e <= 3 -> 60000 <= 60000 * 5 ^ e).
  { intros e He. assert (1 <= 5 ^ e) by (apply Z.pow_le_mono_r with (b := 0) (c := e) (a := 5); lia).
    lia. }
  assert (Hmono : forall a b, 0 <= a <= b -> 60000 * 5 ^ a <= 60000 * 5 ^ b).
  { intros a b Hab. apply Z.mul_le_mono_nonneg_l; [lia|].
    apply Z.pow_le_mono_r; lia. }
  repeat split.
  - apply Z.min_le_compat_l. apply Hmono.
    destruct n as [z| | |], n' as [z'| | |];
      try congruence; try discriminate Hle; try lia.
    apply JsNumFacts.le_Fin in Hle. lia.
  - apply Z.min_glb; [lia|]. apply Hexp.
    destruct n as [z| | |]; try congruence; lia.
  - apply Z.le_min_l.
Qed.

Lemma cooldown_backoff_bounded_monotone_witness :
  JsNum.le (calculateAuthProfileCooldownMs (Fin 2))
    (calculateAuthProfileCooldownMs (Fin 7)) = true.
Proof.
  apply (cooldown_backoff_bounded_monotone (Fin 2) (Fin 7)). reflexivity.
Defined.

(** X2. Both calculators treat a count below one (zero, negative, minus
    infinity) as a first failure. *)
Theorem backoff_count_below_one_is_first_failure (n baseMs maxMs : num) :
  JsNum.le n (Fin 1) = true ->
  calculateAuthProfileCooldownMs n = Fin 60000
  /\ calculateAuthProfileBillingDisableMsWithConfig n baseMs maxMs
     = calculateAuthProfileBillingDisableMsWithConfig (Fin 1) baseMs maxMs.
Proof.
  intros Hle.
  assert (Hmax : JsNum.max (Fin 1) n = Fin 1).
  { destruct n as [z| | |]; try discriminate Hle; [|reflexivity].
    apply JsNumFacts.le_Fin in Hle. rewrite JsNumFacts.max_Fin. f_equal. lia. }
  unfold calculateAuthProfileCooldownMs,
    calculateAuthProfileBillingDisableMsWithConfig.
  rewrite Hmax. split; reflexivity.
Qed.

Lemma backoff_count_below_one_is_first_failure_witness :
  calculateAuthProfileCooldownMs (Fin (-4)) = Fin 60000.
Proof.
  apply (backoff_count_below_one_is_first_failure
           (Fin (-4)) (Fin 18000000) (Fin 86400000)).
  reflexivity.
Defined.

(** ** Cooldown configuration *)


Lemma hoursToMs_Fin (h : Z) : hoursToMs (Fin h) = Fin (h * 3600000).
Proof. unfold hoursToMs. cbn. f_equal. lia. Qed.


(** X4. A per-provider entry that is a positive finite number of hours
    decides the billing backoff, whatever the global setting says. *)
Theorem provider_override_decides_billing_backoff
    (normalizeProviderId : string -> string)
    (cfg : option OpenClawConfig) (providerId : string)
    (c : AuthCooldownsConfig) (table : list (string * JsVal))
    (key : string) (h : Z) :
  cooldownsOf cfg = Some c ->
  billingBackoffHoursByProvider c = Some table ->
  List.find (fun entry => String.eqb (normalizeProviderId (fst entry)) providerId)
    table = Some (key, JNum (Fin h)) ->
  0 < h ->
  billingBackoffMs (resolveAuthCooldownConfig normalizeProviderId cfg providerId)
  = Fin (h * 3600000).
Proof.
  intros Hc Htable Hfind Hh.
  unfold resolveAuthCooldownConfig, billingOverrideOf.
  rewrite Hc, Htable, Hfind. cbn [snd nullishVal billingBackoffMs resolveHours].
  cbn [JsNum.isFinite JsNum.gt JsNum.lt andb].
  destruct (Z.ltb_spec 0 h); [|lia]. apply hoursToMs_Fin.
Qed.

Lemma provider_override_decides_billing_backoff_witness :
  billingBackoffMs
    (resolveAuthCooldownConfig (fun s => Js.toLowerCase s)
       (Some (mkConfig (Some (mkAuthConfig (Some
          (mkCooldowns (JNum (Fin 8)) JUndefined JUndefined
             (Some [("OpenAI", JNum (Fin 1)); ("Anthropic", JNum (Fin 2))])))))))
       "anthropic")
  = Fin (2 * 3600000).
Proof.
  eapply (provider_override_decides_billing_backoff _ _ _ _ _ "Anthropic" 2);
    [reflexivity | reflexivity | reflexivity | lia].
Defined.

(** X5. A per-provider entry that is present but not a positive finite
    number (zero, negative, non-finite, or not a number at all, other than
    null) does not fall back to the global [billingBackoffHours]: [??] keeps
    the entry, [resolveHours] rejects it, and the backoff is the built-in
    five hours. *)
Theorem invalid_provider_override_masks_global_setting
    (normalizeProviderId : string -> string)
    (cfg : option OpenClawConfig) (providerId : string)
    (c : AuthCooldownsConfig) (table : list (string * JsVal))
    (key : string) (v : JsVal) :
  cooldownsOf cfg = Some c ->
  billingBackoffHoursByProvider c = Some table ->
  List.find (fun entry => String.eqb (normalizeProviderId (fst entry)) providerId)
    table = Some (key, v) ->
  match v with
  | JUndefined | JNull => False
  | JNum n => JsNum.isFinite n && JsNum.gt n (Fin 0) = false
  | _ => True
  end ->
  billingBackoffMs (resolveAuthCooldownConfig normalizeProviderId cfg providerId)
  = Fin 18000000.
Proof.
  intros Hc Htable Hfind Hv.
  unfold resolveAuthCooldownConfig, billingOverrideOf.
  rewrite Hc, Htable, Hfind. cbn [snd billingBackoffMs].
  destruct v as [ | |b|n|s|items|props]; try contradiction;
    cbn [nullishVal resolveHours]; rewrite ?Hv; reflexivity.
Qed.

Lemma invalid_provider_override_masks_global_setting_witness :
  billingBackoffMs
    (resolveAuthCooldownConfig (fun s => Js.toLowerCase s)
       (Some (mkConfig (Some (mkAuthConfig (Some
          (mkCooldowns (JNum (Fin 8)) JUndefined JUndefined
             (Some [("anthropic", JNum (Fin 0))])))))))
       "anthropic")
  = Fin 18000000.
Proof.
  eapply (invalid_provider_override_masks_global_setting
            _ _ _ _ _ "anthropic" (JNum (Fin 0)));
    [reflexivity | reflexivity | reflexivity | reflexivity].
Defined.

(** ** Eligibility oracle, continued *)

Lemma JsNum_max_NegInf (x : num) : JsNum.max x NegInf = x.
Proof. destruct x; reflexivity. Qed.

Lemma JsNum_max_cases (x y : num) :
  x <> NaN -> y <> NaN ->
  (JsNum.max x y = x /\ JsNum.le y x = true)
  \/ (JsNum.max x y = y /\ JsNum.le x y = true).
Proof.
  intros Hx Hy.
  destruct x as [a| | |], y as [b| | |]; try congruence; cbn; auto.
  destruct (Z.ltb_spec a b); [right|left]; split; auto; apply Z.leb_le; lia.
Qed.

Lemma JsNum_le_refl (x : num) : x <> NaN -> JsNum.le x x = true.
Proof. destruct x; try congruence; try reflexivity. intros _. apply Z.leb_refl. Qed.

Lemma JsNum_le_trans (x y z : num) :
  JsNum.le x y = true -> JsNum.le y z = true -> JsNum.le x z = true.
Proof.
  destruct x as [a| | |], y as [b| | |], z as [c| | |];
    try discriminate; try reflexivity.
  rewrite !JsNumFacts.le_Fin. lia.
Qed.

(** [Math.max] over numbers none of which is [NaN]: the result is one of
    them and bounds them all. *)
Lemma max_list_spec (xs : list num) :
  xs <> [] -> List.Forall (fun x => x <> NaN) xs ->
  In (JsNum.max_list xs) xs
  /\ List.Forall (fun x => JsNum.le x (JsNum.max_list xs) = true) xs.
Proof.
  induction xs as [|x xs IH]; [congruence|].
  intros _ Hall. inversion Hall as [|? ? Hx Hxs]; subst.
  destruct xs as [|y ys].
  - cbn. rewrite JsNum_max_NegInf. split; [left; reflexivity|].
    constructor; [apply JsNum_le_refl, Hx|constructor].
  - destruct (IH ltac:(discriminate) Hxs) as [Hin Hle].
    change (JsNum.max_list (x :: y :: ys))
      with (JsNum.max x (JsNum.max_list (y :: ys))).
    set (r := JsNum.max_list (y :: ys)) in *.
    assert (Hr : r <> NaN).
    { rewrite Forall_forall in Hxs. apply Hxs.
      apply list_elem_of_In. exact Hin. }
    destruct (JsNum_max_cases x r Hx Hr) as [[-> Hrx]|[-> Hxr]].
    + split; [left; reflexivity|]. constructor; [apply JsNum_le_refl, Hx|].
      eapply Forall_impl; [exact Hle|].
      intros e He. cbn in He. eapply JsNum_le_trans; eassumption.
    + split; [right; exact Hin|]. constructor; assumption.
Qed.

Lemma truthy_not_NaN (x : num) : JsNum.truthy x = true -> x <> NaN.
Proof. destruct x; try discriminate; congruence. Qed.

(** The list [values] that [resolveProfileUnusableUntil] takes the maximum
    of: every entry is truthy, every profile-level timer that is finite and
    positive is in it, and so is the model's timer when it is truthy. *)
Lemma resolve_values (stats : ProfileUsageStats.t) (modelId : option string) :
  exists values,
    resolveProfileUnusableUntil stats modelId
    = match values with [] => None | _ => Some (JsNum.max_list values) end
    /\ List.Forall (fun x => JsNum.truthy x = true) values
    /\ (forall c,
          ProfileUsageStats.cooldownUntil stats = Some c
          \/ ProfileUsageStats.disabledUntil stats = Some c ->
          JsNum.isFinite c && JsNum.gt c (Fin 0) = true -> In c values)
    /\ (forall m ms c,
          truthy_string modelId = Some m -> modelStatsOf stats m = Some ms ->
          ModelUsageStats.cooldownUntil ms = Some c -> JsNum.truthy c = true ->
          In c values).
Proof.
  unfold resolveProfileUnusableUntil.
  set (keep := fun value => JsNum.isFinite value && JsNum.gt value (Fin 0)).
  set (base := List.filter keep _).
  assert (Hbase : List.Forall (fun x => JsNum.truthy x = true) base).
  { apply List.Forall_forall. intros x Hx. apply List.filter_In in Hx as [_ Hx].
    apply positive_finite_truthy. exact Hx. }
  assert (Hin : forall c,
    ProfileUsageStats.cooldownUntil stats = Some c
    \/ ProfileUsageStats.disabledUntil stats = Some c ->
    keep c = true -> In c base).
  { intros c Hc Hk. apply List.filter_In. split; [|exact Hk].
    destruct Hc as [-> | ->];
      destruct (ProfileUsageStats.cooldownUntil stats);
      destruct (ProfileUsageStats.disabledUntil stats); cbn; auto. }
  clearbody base.
  destruct (truthy_string modelId) as [m|] eqn:Hm.
  - destruct (modelStatsOf stats m) as [ms|] eqn:Hms.
    + destruct (ModelUsageStats.cooldownUntil ms) as [c|] eqn:Hcool.
      * destruct (JsNum.truthy c) eqn:Hc.
        -- exists (base ++ [c])%list. split; [reflexivity|]. split; [|split].
           ++ apply List.Forall_app. split; [exact Hbase|].
              constructor; [exact Hc|constructor].
           ++ intros c' Hc' Hk. apply List.in_or_app. left. auto.
           ++ intros m' ms' c' [= <-] Hms' Hc' _.
              rewrite Hms in Hms'. injection Hms' as <-.
              rewrite Hcool in Hc'. injection Hc' as <-.
              apply List.in_or_app. right. left. reflexivity.
        -- exists base. split; [reflexivity|]. split; [exact Hbase|]. split; [exact Hin|].
           intros m' ms' c' [= <-] Hms' Hc' Ht.
           rewrite Hms in Hms'. injection Hms' as <-.
           rewrite Hcool in Hc'. injection Hc' as <-. congruence.
      * exists base. split; [reflexivity|]. split; [exact Hbase|]. split; [exact Hin|].
        intros m' ms' c' [= <-] Hms' Hc' _.
        rewrite Hms in Hms'. injection Hms' as <-. congruence.
    + exists base. split; [reflexivity|]. split; [exact Hbase|]. split; [exact Hin|].
      intros m' ms' c' [= <-] Hms' _ _. congruence.
  - exists base. split; [reflexivity|]. split; [exact Hbase|]. split; [exact Hin|].
    intros m' ms' c' [=].
Qed.

(** What [resolveProfileUnusableUntil] returns is never [0] or [NaN], and
    bounds every entry of [values]. *)
Lemma resolve_result (stats : ProfileUsageStats.t) (modelId : option string) :
  match resolveProfileUnusableUntil stats modelId with
  | Some u =>
      JsNum.truthy u = true
      /\ (forall c,
            ProfileUsageStats.cooldownUntil stats = Some c
            \/ ProfileUsageStats.disabledUntil stats = Some c ->
            JsNum.isFinite c && JsNum.gt c (Fin 0) = true -> JsNum.le c u = true)
      /\ (forall m ms c,
            truthy_string modelId = Some m -> modelStatsOf stats m = Some ms ->
            ModelUsageStats.cooldownUntil ms = Some c -> JsNum.truthy c = true ->
            JsNum.le c u = true)
  | None =>
      (forall c,
         ProfileUsageStats.cooldownUntil stats = Some c
         \/ ProfileUsageStats.disabledUntil stats = Some c ->
         JsNum.isFinite c && JsNum.gt c (Fin 0) = false)
      /\ (forall m ms c,
            truthy_string modelId = Some m -> modelStatsOf stats m = Some ms ->
            ModelUsageStats.cooldownUntil ms = Some c -> JsNum.truthy c = false)
  end.
Proof.
  destruct (resolve_values stats modelId) as (values & -> & Htruthy & Hprofile & Hmodel).
  destruct values as [|v vs].
  - split.
    + intros c Hc. destruct (JsNum.isFinite c && JsNum.gt c (Fin 0)) eqn:Hk;
        [|reflexivity]. destruct (Hprofile c Hc Hk).
    + intros m ms c Hm Hms Hc. destruct (JsNum.truthy c) eqn:Ht; [|reflexivity].
      destruct (Hmodel m ms c Hm Hms Hc Ht).
  - assert (Hnan : List.Forall (fun x => x <> NaN) (v :: vs)).
    { eapply List.Forall_impl; [|exact Htruthy]. intros x. apply truthy_not_NaN. }
    destruct (max_list_spec (v :: vs) ltac:(discriminate) Hnan) as [Hin Hle].
    rewrite List.Forall_forall in Htruthy, Hle.
    split; [apply Htruthy, Hin|]. split.
    + intros c Hc Hk. apply Hle. auto.
    + intros m ms c Hm Hms Hc Ht. apply Hle. eauto.
Qed.

(** [isProfileInCooldown] without its truthiness test, which never fires. *)
Lemma isProfileInCooldown_by_unusable_until
    (store : AuthProfileStore) (profileId : string)
    (modelId : option string) (now : Z) :
  isProfileInCooldown store profileId modelId now
  = match resolveProfileUnusableUntilForDisplay store profileId modelId with
    | Some unusableUntil => JsNum.lt (Fin now) unusableUntil
    | None => false
    end.
Proof.
  unfold isProfileInCooldown, resolveProfileUnusableUntilForDisplay.
  destruct (usageStatsOf store profileId) as [stats|]; [|reflexivity].
  pose proof (resolve_result stats modelId) as Hres.
  destruct (resolveProfileUnusableUntil stats modelId) as [u|]; [|reflexivity].
  destruct Hres as [-> _]. reflexivity.
Qed.

Lemma JsNum_lt_later (t t' : Z) (u : num) :
  t <= t' -> JsNum.lt (Fin t') u = true -> JsNum.lt (Fin t) u = true.
Proof.
  intros Htt'. destruct u as [z| | |]; cbn; try discriminate; [|reflexivity].
  rewrite !Z.ltb_lt. lia.
Qed.

Lemma JsNum_lt_le_trans (t : Z) (c u : num) :
  JsNum.lt (Fin t) c = true -> JsNum.le c u = true -> JsNum.lt (Fin t) u = true.
Proof.
  destruct c as [x| | |], u as [y| | |]; try discriminate; try reflexivity.
  rewrite !JsNumFacts.lt_Fin, JsNumFacts.le_Fin. lia.
Qed.

(** A timer that is finite, positive and still ahead keeps the profile in
    cooldown, whether it is one of the two profile-level timers or the
    timer of the model asked about. *)
Lemma timer_ahead_means_cooldown
    (store : AuthProfileStore) (profileId : string)
    (stats : ProfileUsageStats.t) (modelId : option string) (now until : Z) :
  usageStatsOf store profileId = Some stats ->
  ProfileUsageStats.cooldownUntil stats = Some (Fin until)
  \/ ProfileUsageStats.disabledUntil stats = Some (Fin until)
  \/ (exists m ms, truthy_string modelId = Some m
                   /\ modelStatsOf stats m = Some ms
                   /\ ModelUsageStats.cooldownUntil ms = Some (Fin until)) ->
  0 <= now < until ->
  isProfileInCooldown store profileId modelId now = true.
Proof.
  intros Hstats Htimer Hnow.
  rewrite isProfileInCooldown_by_unusable_until.
  unfold resolveProfileUnusableUntilForDisplay. rewrite Hstats.
  pose proof (resolve_result stats modelId) as Hres.
  assert (Hkeep : JsNum.isFinite (Fin until) && JsNum.gt (Fin until) (Fin 0) = true).
  { cbn. apply Z.ltb_lt. lia. }
  assert (Hahead : JsNum.lt (Fin now) (Fin until) = true)
    by (apply JsNumFacts.lt_Fin; lia).
  destruct (resolveProfileUnusableUntil stats modelId) as [u|].
  - destruct Hres as (_ & Hprofile & Hmodel).
    apply (JsNum_lt_le_trans now (Fin until) u Hahead).
    destruct Htimer as [Hc|[Hd|(m & ms & Hm & Hms & Hc)]].
    + apply Hprofile; auto.
    + apply Hprofile; auto.
    + eapply Hmodel; eauto. apply positive_finite_truthy, Hkeep.
  - destruct Hres as [Hprofile Hmodel].
    destruct Htimer as [Hc|[Hd|(m & ms & Hm & Hms & Hc)]].
    + specialize (Hprofile _ (or_introl Hc)). congruence.
    + specialize (Hprofile _ (or_intror Hd)). congruence.
    + specialize (Hmodel _ _ _ Hm Hms Hc).
      rewrite (positive_finite_truthy _ Hkeep) in Hmodel. discriminate.
Qed.


(** X7. As long as the store is not touched, eligibility, once reached, is
    kept: a profile that is not in cooldown at some time is not in cooldown
    at any later time. *)
Theorem isProfileInCooldown_stays_false
    (store : AuthProfileStore) (profileId : string)
    (modelId : option string) (t t' : Z) :
  t <= t' ->
  isProfileInCooldown store profileId modelId t = false ->
  isProfileInCooldown store profileId modelId t' = false.
Proof.
  intros Htt'. rewrite !isProfileInCooldown_by_unusable_until.
  destruct (resolveProfileUnusableUntilForDisplay store profileId modelId)
    as [u|]; [|reflexivity].
  intros Hfree. destruct (JsNum.lt (Fin t') u) eqn:Hlater; [|reflexivity].
  rewrite (JsNum_lt_later t t' u Htt' Hlater) in Hfree. discriminate.
Qed.

Lemma isProfileInCooldown_stays_false_witness :
  isProfileInCooldown
    (mkStore (Fin 1) ∅ None None
       (Some {[ "p1" := ProfileUsageStats.mk None (Some (Fin 5000)) None None
                          None None None None ∅ ]}))
    "p1" None 9000 = false.
Proof.
  apply (isProfileInCooldown_stays_false _ _ _ 5000 9000); [lia|].
  vm_compute. reflexivity.
Defined.

(** X8. A profile-wide timer holds for every model: while [cooldownUntil] or
    [disabledUntil] lies ahead, the profile is in cooldown whichever model is
    asked about, and whatever that model's own statistics say. *)
Theorem profile_wide_timer_holds_for_every_model
    (store : AuthProfileStore) (profileId : string)
    (stats : ProfileUsageStats.t) (modelId : option string) (now until : Z) :
  usageStatsOf store profileId = Some stats ->
  ProfileUsageStats.cooldownUntil stats = Some (Fin until)
  \/ ProfileUsageStats.disabledUntil stats = Some (Fin until) ->
  0 <= now < until ->
  isProfileInCooldown store profileId modelId now = true.
Proof.
  intros Hstats Htimer Hnow.
  apply (timer_ahead_means_cooldown store profileId stats modelId now until);
    [exact Hstats | tauto | exact Hnow].
Qed.

Lemma profile_wide_timer_holds_for_every_model_witness :
  isProfileInCooldown
    (mkStore (Fin 1) ∅ None None
       (Some {[ "p1" := ProfileUsageStats.mk None None (Some (Fin 18000000))
                          (Some reason_billing) None None None
                          (Some {[ "haiku" := ModelUsageStats.mk None
                                                (Some (Fin (-5))) None None ∅ ]})
                          ∅ ]}))
    "p1" (Some "haiku") 1000 = true.
Proof.
  eapply (profile_wide_timer_holds_for_every_model _ _ _ _ _ 18000000);
    [vm_compute; reflexivity | right; reflexivity | lia].
Defined.

(** ** Usage-stats updater *)

(** The branch [computeNextProfileUsageStats] takes for a rate-limit or
    timeout failure that names a model. *)
Lemma computeNext_model_scoped
    (existing : ProfileUsageStats.t) (now : num)
    (reason : AuthProfileFailureReason) (cfgResolved : ResolvedAuthCooldownConfig)
    (m : string) (retryAfterMs : option num) :
  m <> "" ->
  reason = reason_rate_limit \/ reason = reason_timeout ->
  computeNextProfileUsageStats existing now reason cfgResolved (Some m) retryAfterMs
  = let allModelStats := nullish (ProfileUsageStats.modelStats existing) ∅ in
    let modelStats := nullish (allModelStats !! m) ModelUsageStats.empty in
    let modelErrorCount :=
      JsNum.add (nullish (ModelUsageStats.errorCount modelStats) (Fin 0)) (Fin 1) in
    ProfileUsageStats.mk
      (ProfileUsageStats.lastUsed existing)
      (ProfileUsageStats.cooldownUntil existing)
      (ProfileUsageStats.disabledUntil existing)
      (ProfileUsageStats.disabledReason existing)
      (ProfileUsageStats.errorCount existing)
      (ProfileUsageStats.failureCounts existing)
      (ProfileUsageStats.lastFailureAt existing)
      (Some (<[m := ModelUsageStats.mk
                      (ModelUsageStats.lastUsed modelStats)
                      (Some (JsNum.add now
                               (nullish retryAfterMs
                                  (calculateAuthProfileCooldownMs modelErrorCount))))
                      (Some modelErrorCount)
                      (Some now)
                      (ModelUsageStats.unknownFields modelStats)]> allModelStats))
      (ProfileUsageStats.unknownFields existing).
Proof.
  intros Hm Hreason. unfold computeNextProfileUsageStats.
  destruct (decide (reason = reason_billing)) as [->|_];
    [destruct Hreason; discriminate|].
  destruct m as [|ch m']; [congruence|].
  cbn [opt_str_truthy str_truthy truthy_string andb].
  destruct Hreason as [-> | ->]; reflexivity.
Qed.

(** The branch for every other failure that is not a billing failure. *)
Lemma computeNext_profile_wide
    (existing : ProfileUsageStats.t) (now : num)
    (reason : AuthProfileFailureReason) (cfgResolved : ResolvedAuthCooldownConfig)
    (modelId : option string) (retryAfterMs : option num) :
  reason = reason_auth \/ reason = reason_format \/ reason = reason_unknown
  \/ ((reason = reason_rate_limit \/ reason = reason_timeout)
      /\ opt_str_truthy modelId = false) ->
  computeNextProfileUsageStats existing now reason cfgResolved modelId retryAfterMs
  = let windowExpired :=
      match ProfileUsageStats.lastFailureAt existing with
      | Some lastFailureAt =>
          JsNum.gt lastFailureAt (Fin 0)
          && JsNum.gt (JsNum.sub now lastFailureAt) (failureWindowMs cfgResolved)
      | None => false
      end in
    let nextErrorCount :=
      JsNum.add
        (if windowExpired then Fin 0
         else nullish (ProfileUsageStats.errorCount existing) (Fin 0))
        (Fin 1) in
    ProfileUsageStats.mk
      (ProfileUsageStats.lastUsed existing)
      (Some (JsNum.add now
               (nullish retryAfterMs (calculateAuthProfileCooldownMs nextErrorCount))))
      (ProfileUsageStats.disabledUntil existing)
      (ProfileUsageStats.disabledReason existing)
      (Some nextErrorCount)
      (ProfileUsageStats.failureCounts existing)
      (Some now)
      (ProfileUsageStats.modelStats existing)
      (ProfileUsageStats.unknownFields existing).
Proof.
  intros Hwide. unfold computeNextProfileUsageStats.
  destruct (decide (reason = reason_billing)) as [->|_].
  { destruct Hwide as [?|[?|[?|[[?|?] _]]]]; discriminate. }
  assert (Hscope :
    (if opt_str_truthy modelId
        && (bool_decide (reason = reason_rate_limit)
            || bool_decide (reason = reason_timeout))
     then truthy_string modelId else None) = None).
  { destruct Hwide as [->|[->|[->|[_ ->]]]];
      try reflexivity; destruct (opt_str_truthy modelId); reflexivity. }
  rewrite Hscope. reflexivity.
Qed.

(** X9. Model-scoped penalty locality: a rate-limit or timeout failure that
    names a model changes that model's entry only.  Every profile-level field
    (the profile's own [errorCount], [cooldownUntil] and [lastFailureAt]
    included) and every other model's entry stay as they were, and so does
    the instant the oracle reports for any other model or for no model.  The
    model's [errorCount] goes up by one whatever the age of its last failure:
    the failure window does not apply to it. *)
Theorem model_scoped_failure_touches_one_model
    (existing : ProfileUsageStats.t) (now : num)
    (reason : AuthProfileFailureReason) (cfgResolved : ResolvedAuthCooldownConfig)
    (m : string) (retryAfterMs : option num) :
  m <> "" ->
  reason = reason_rate_limit \/ reason = reason_timeout ->
  let next :=
    computeNextProfileUsageStats existing now reason cfgResolved (Some m)
      retryAfterMs in
  ProfileUsageStats.lastUsed next = ProfileUsageStats.lastUsed existing
  /\ ProfileUsageStats.cooldownUntil next = ProfileUsageStats.cooldownUntil existing
  /\ ProfileUsageStats.disabledUntil next = ProfileUsageStats.disabledUntil existing
  /\ ProfileUsageStats.disabledReason next = ProfileUsageStats.disabledReason existing
  /\ ProfileUsageStats.errorCount next = ProfileUsageStats.errorCount existing
  /\ ProfileUsageStats.failureCounts next = ProfileUsageStats.failureCounts existing
  /\ ProfileUsageStats.lastFailureAt next = ProfileUsageStats.lastFailureAt existing
  /\ ProfileUsageStats.unknownFields next = ProfileUsageStats.unknownFields existing
  /\ (forall m', m' <> m -> modelStatsOf next m' = modelStatsOf existing m')
  /\ (forall asked, asked <> Some m ->
        resolveProfileUnusableUntil next asked
        = resolveProfileUnusableUntil existing asked)
  /\ (ModelUsageStats.errorCount <$> modelStatsOf next m)
     = Some (Some (JsNum.add
                     (nullish (modelStatsOf existing m ≫= ModelUsageStats.errorCount)
                        (Fin 0))
                     (Fin 1)))
  /\ (ModelUsageStats.lastFailureAt <$> modelStatsOf next m) = Some (Some now).
Proof.
  intros Hm Hreason next. subst next.
  rewrite (computeNext_model_scoped existing now reason cfgResolved m
             retryAfterMs Hm Hreason).
  cbv zeta. cbn [ProfileUsageStats.lastUsed ProfileUsageStats.cooldownUntil
    ProfileUsageStats.disabledUntil ProfileUsageStats.disabledReason
    ProfileUsageStats.errorCount ProfileUsageStats.failureCounts
    ProfileUsageStats.lastFailureAt ProfileUsageStats.unknownFields].
  repeat (split; [reflexivity|]).
  assert (Hother : forall m', m' <> m ->
    modelStatsOf
      (ProfileUsageStats.mk
         (ProfileUsageStats.lastUsed existing)
         (ProfileUsageStats.cooldownUntil existing)
         (ProfileUsageStats.disabledUntil existing)
         (ProfileUsageStats.disabledReason existing)
         (ProfileUsageStats.errorCount existing)
         (ProfileUsageStats.failureCounts existing)
         (ProfileUsageStats.lastFailureAt existing)
         (Some (<[m := ModelUsageStats.mk
            (ModelUsageStats.lastUsed
               (nullish (nullish (ProfileUsageStats.modelStats existing) ∅ !! m)
                  ModelUsageStats.empty))
            (Some (JsNum.add now (nullish retryAfterMs
               (calculateAuthProfileCooldownMs
                  (JsNum.add (nullish (ModelUsageStats.errorCount
                     (nullish (nullish (ProfileUsageStats.modelStats existing) ∅ !! m)
                        ModelUsageStats.empty)) (Fin 0)) (Fin 1))))))
            (Some (JsNum.add (nullish (ModelUsageStats.errorCount
               (nullish (nullish (ProfileUsageStats.modelStats existing) ∅ !! m)
                  ModelUsageStats.empty)) (Fin 0)) (Fin 1)))
            (Some now)
            (ModelUsageStats.unknownFields
               (nullish (nullish (ProfileUsageStats.modelStats existing) ∅ !! m)
                  ModelUsageStats.empty))]>
            (nullish (ProfileUsageStats.modelStats existing) ∅)))
         (ProfileUsageStats.unknownFields existing)) m'
    = modelStatsOf existing m').
  { intros m' Hne. unfold modelStatsOf. cbn [ProfileUsageStats.modelStats].
    rewrite lookup_insert_ne by congruence.
    destruct (ProfileUsageStats.modelStats existing); [reflexivity|apply lookup_empty]. }
  split; [exact Hother|]. split; [|split].
  - intros asked Hasked. unfold resolveProfileUnusableUntil.
    cbn [ProfileUsageStats.cooldownUntil ProfileUsageStats.disabledUntil].
    destruct (truthy_string asked) as [m'|] eqn:Hm'; [|reflexivity].
    apply truthy_string_Some in Hm' as [-> _].
    rewrite Hother by congruence. reflexivity.
  - unfold modelStatsOf at 1. cbn [ProfileUsageStats.modelStats].
    rewrite lookup_insert_eq. cbn [fmap option_fmap option_map ModelUsageStats.errorCount].
    unfold modelStatsOf.
    destruct (ProfileUsageStats.modelStats existing) as [all|]; cbn [nullish].
    + destruct (all !! m); reflexivity.
    + rewrite lookup_empty. reflexivity.
  - unfold modelStatsOf. cbn [ProfileUsageStats.modelStats].
    rewrite lookup_insert_eq. reflexivity.
Qed.

Lemma model_scoped_failure_touches_one_model_witness :
  let existing :=
    ProfileUsageStats.mk None (Some (Fin 700000)) None None (Some (Fin 2)) None
      (Some (Fin 100000))
      (Some {[ "haiku" := ModelUsageStats.mk None (Some (Fin 650000))
                            (Some (Fin 1)) (Some (Fin 590000)) ∅ ]}) ∅ in
  let next :=
    computeNextProfileUsageStats existing (Fin 600000) reason_timeout
      (mkCooldownConfig (Fin 18000000) (Fin 86400000) (Fin 86400000))
      (Some "opus") None in
  ProfileUsageStats.errorCount next = Some (Fin 2)
  /\ modelStatsOf next "haiku" = modelStatsOf existing "haiku".
Proof.
  intros existing next.
  destruct (model_scoped_failure_touches_one_model existing (Fin 600000)
              reason_timeout
              (mkCooldownConfig (Fin 18000000) (Fin 86400000) (Fin 86400000))
              "opus" None ltac:(discriminate) (or_intror eq_refl))
    as (_ & _ & _ & _ & Hcount & _ & _ & _ & Hother & _).
  split; [exact Hcount|]. apply Hother. discriminate.
Defined.

(** X10. Retry-After precedence: when [retryAfterMs] is supplied, every
    failure other than a billing failure sets its timer (the model's for a
    rate-limit or timeout failure that names a model, the profile's
    otherwise, also for auth, format and unknown) to exactly
    [now + retryAfterMs], setting the computed backoff aside; a billing
    failure ignores [retryAfterMs] altogether. *)
Theorem retry_after_overrides_computed_backoff
    (existing : ProfileUsageStats.t) (now retryAfterMs : num)
    (reason : AuthProfileFailureReason) (cfgResolved : ResolvedAuthCooldownConfig)
    (modelId : option string) :
  let next :=
    computeNextProfileUsageStats existing now reason cfgResolved modelId
      (Some retryAfterMs) in
  (reason = reason_billing ->
   next = computeNextProfileUsageStats existing now reason cfgResolved modelId None)
  /\ (forall m, modelId = Some m -> m <> "" ->
        reason = reason_rate_limit \/ reason = reason_timeout ->
        (modelStatsOf next m ≫= ModelUsageStats.cooldownUntil)
        = Some (JsNum.add now retryAfterMs)
        /\ ProfileUsageStats.cooldownUntil next
           = ProfileUsageStats.cooldownUntil existing)
  /\ (reason = reason_auth \/ reason = reason_format \/ reason = reason_unknown
      \/ ((reason = reason_rate_limit \/ reason = reason_timeout)
          /\ opt_str_truthy modelId = false) ->
      ProfileUsageStats.cooldownUntil next = Some (JsNum.add now retryAfterMs)).
Proof.
  intros next. subst next. split; [|split].
  - intros ->. reflexivity.
  - intros m -> Hm Hreason.
    rewrite (computeNext_model_scoped existing now reason cfgResolved m
               (Some retryAfterMs) Hm Hreason).
    cbv zeta. unfold modelStatsOf.
    cbn [ProfileUsageStats.modelStats ProfileUsageStats.cooldownUntil].
    rewrite lookup_insert_eq. split; reflexivity.
  - intros Hwide.
    rewrite (computeNext_profile_wide existing now reason cfgResolved modelId
               (Some retryAfterMs) Hwide).
    reflexivity.
Qed.

(** X11. A billing failure is profile-wide and leaves the rate-limit state
    alone: [errorCount], [cooldownUntil], [lastUsed] and all of [modelStats]
    stay as they were, with or without a model identifier.  It records
    [disabledReason = "billing"] and [lastFailureAt = now], raises the
    billing count by one, and disables the profile until [now] plus the
    billing backoff for that count.  When the last failure is older than the
    failure window, counting restarts: the billing count is [1] and the
    counts of the other reasons are dropped. *)
Theorem billing_failure_disables_profile
    (existing : ProfileUsageStats.t) (now : num)
    (cfgResolved : ResolvedAuthCooldownConfig)
    (modelId : option string) (retryAfterMs : option num) :
  let next :=
    computeNextProfileUsageStats existing now reason_billing cfgResolved modelId
      retryAfterMs in
  let windowExpired :=
    match ProfileUsageStats.lastFailureAt existing with
    | Some lastFailureAt =>
        JsNum.gt lastFailureAt (Fin 0)
        && JsNum.gt (JsNum.sub now lastFailureAt) (failureWindowMs cfgResolved)
    | None => false
    end in
  let before (reason : AuthProfileFailureReason) : option num :=
    if windowExpired then None
    else ProfileUsageStats.failureCounts existing ≫= (.!! reason) in
  let billingCount := JsNum.add (nullish (before reason_billing) (Fin 0)) (Fin 1) in
  ProfileUsageStats.errorCount next = ProfileUsageStats.errorCount existing
  /\ ProfileUsageStats.cooldownUntil next = ProfileUsageStats.cooldownUntil existing
  /\ ProfileUsageStats.lastUsed next = ProfileUsageStats.lastUsed existing
  /\ ProfileUsageStats.modelStats next = ProfileUsageStats.modelStats existing
  /\ ProfileUsageStats.unknownFields next = ProfileUsageStats.unknownFields existing
  /\ ProfileUsageStats.disabledReason next = Some reason_billing
  /\ ProfileUsageStats.lastFailureAt next = Some now
  /\ (ProfileUsageStats.failureCounts next ≫= (.!! reason_billing))
     = Some billingCount
  /\ (forall reason, reason <> reason_billing ->
        (ProfileUsageStats.failureCounts next ≫= (.!! reason)) = before reason)
  /\ ProfileUsageStats.disabledUntil next
     = Some (JsNum.add now
               (calculateAuthProfileBillingDisableMsWithConfig billingCount
                  (billingBackoffMs cfgResolved) (billingMaxMs cfgResolved))).
Proof.
  intros next windowExpired before billingCount.
  subst next. unfold computeNextProfileUsageStats.
  fold windowExpired.
  destruct (decide (reason_billing = reason_billing)) as [_|Hne]; [|congruence].
  cbn [ProfileUsageStats.errorCount ProfileUsageStats.cooldownUntil
    ProfileUsageStats.lastUsed ProfileUsageStats.modelStats
    ProfileUsageStats.unknownFields ProfileUsageStats.disabledReason
    ProfileUsageStats.lastFailureAt ProfileUsageStats.failureCounts
    ProfileUsageStats.disabledUntil].
  repeat (split; [reflexivity|]).
  set (counts := if windowExpired then ∅
                 else nullish (ProfileUsageStats.failureCounts existing) ∅).
  assert (Hbefore : forall reason, counts !! reason = before reason).
  { intros reason. subst counts before. cbv beta.
    destruct windowExpired; [apply lookup_empty|].
    destruct (ProfileUsageStats.failureCounts existing); [reflexivity|apply lookup_empty]. }
  assert (Hcount :
    JsNum.add (nullish (counts !! reason_billing) (Fin 0)) (Fin 1) = billingCount).
  { subst billingCount. rewrite Hbefore. reflexivity. }
  rewrite Hcount. cbn [mbind option_bind].
  rewrite lookup_insert_eq. cbn [nullish].
  split; [reflexivity|]. split; [|reflexivity].
  intros reason Hne. rewrite lookup_insert_ne by congruence. apply Hbefore.
Qed.

(** A computed rate-limit backoff is a whole number of milliseconds between
    one minute and one hour, provided the count is a number. *)
Lemma cooldown_backoff_range (n : num) :
  n <> NaN ->
  exists b, calculateAuthProfileCooldownMs n = Fin b /\ 60000 <= b <= 3600000.
Proof.
  intros Hn. rewrite (cooldown_backoff_closed n Hn). eexists. split; [reflexivity|].
  set (e := match n with Fin z => Z.min (Z.max 1 z - 1) 3 | PosInf => 3 | _ => 0 end).
  assert (He : 0 <= e <= 3) by (subst e; destruct n; lia).
  assert (1 <= 5 ^ e) by (apply Z.pow_le_mono_r with (b := 0) (c := e) (a := 5); lia).
  lia.
Qed.

Lemma JsNum_add_one_not_NaN (x : num) : x <> NaN -> JsNum.add x (Fin 1) <> NaN.
Proof. destruct x; cbn; congruence. Qed.

(** X12. A profile-wide failure recorded at time [now] without a Retry-After
    hint puts the profile in cooldown, for every model, during at least the
    next minute; and unless the profile is disabled, the cooldown it causes is
    over, for requests that name no model, one hour after [now] at the
    latest.  (The recorded [errorCount] must be a number, not [NaN].) *)
Theorem profile_wide_failure_cools_down_between_a_minute_and_an_hour
    (store : AuthProfileStore) (profileId : string)
    (existing : ProfileUsageStats.t) (now : Z)
    (reason : AuthProfileFailureReason) (cfgResolved : ResolvedAuthCooldownConfig)
    (modelId : option string) :
  reason = reason_auth \/ reason = reason_format \/ reason = reason_unknown
  \/ ((reason = reason_rate_limit \/ reason = reason_timeout)
      /\ opt_str_truthy modelId = false) ->
  ProfileUsageStats.errorCount existing <> Some NaN ->
  0 <= now ->
  usageStatsOf store profileId
  = Some (computeNextProfileUsageStats existing (Fin now) reason cfgResolved
            modelId None) ->
  (forall asked t, now <= t < now + 60000 ->
     isProfileInCooldown store profileId asked t = true)
  /\ (ProfileUsageStats.disabledUntil existing = None ->
      forall t, now + 3600000 <= t ->
        isProfileInCooldown store profileId None t = false).
Proof.
  intros Hwide Hcount Hnow Hstats.
  rewrite (computeNext_profile_wide existing (Fin now) reason cfgResolved modelId
             None Hwide) in Hstats.
  cbv zeta in Hstats. cbn [nullish] in Hstats.
  set (n := JsNum.add _ (Fin 1)) in Hstats.
  assert (Hn : n <> NaN).
  { subst n. apply JsNum_add_one_not_NaN.
    destruct (match ProfileUsageStats.lastFailureAt existing with
              | Some l => _ | None => false end); [discriminate|].
    destruct (ProfileUsageStats.errorCount existing) as [c|]; cbn; congruence. }
  destruct (cooldown_backoff_range n Hn) as (b & Hb & Hrange).
  rewrite Hb in Hstats. cbn [JsNum.add] in Hstats. clearbody n.
  split.
  - intros asked t Ht.
    eapply (timer_ahead_means_cooldown store profileId _ asked t (now + b));
      [exact Hstats | left; reflexivity | lia].
  - intros Hdisabled t Ht.
    rewrite isProfileInCooldown_by_unusable_until.
    unfold resolveProfileUnusableUntilForDisplay. rewrite Hstats.
    unfold resolveProfileUnusableUntil.
    cbn [ProfileUsageStats.cooldownUntil ProfileUsageStats.disabledUntil
      truthy_string].
    rewrite Hdisabled.
    change (omap id [Some (Fin (now + b)); None]) with [Fin (now + b)].
    cbn [List.filter JsNum.isFinite JsNum.gt JsNum.lt andb].
    destruct (Z.ltb_spec 0 (now + b)); [|lia].
    cbn [JsNum.max_list foldr]. rewrite JsNum_max_NegInf.
    cbn [JsNum.lt]. apply Z.ltb_ge. lia.
Qed.

Lemma profile_wide_failure_cools_down_between_a_minute_and_an_hour_witness :
  let cfg := mkCooldownConfig (Fin 18000000) (Fin 86400000) (Fin 86400000) in
  let next :=
    computeNextProfileUsageStats ProfileUsageStats.empty (Fin 1000)
      reason_auth cfg (Some "opus") None in
  let store := mkStore (Fin 1) ∅ None None (Some {[ "p1" := next ]}) in
  isProfileInCooldown store "p1" (Some "haiku") 50000 = true
  /\ isProfileInCooldown store "p1" None 3601000 = false.
Proof.
  intros cfg next store.
  destruct (profile_wide_failure_cools_down_between_a_minute_and_an_hour
              store "p1" ProfileUsageStats.empty 1000 reason_auth cfg (Some "opus")
              (or_introl eq_refl) ltac:(discriminate) ltac:(lia)
              ltac:(vm_compute; reflexivity)) as [Hin Hout].
  split; [apply Hin; lia | apply Hout; [reflexivity|lia]].
Defined.

(** ** Entry points and the store file *)





(** X15. Whenever [markAuthProfileUsed] or [markAuthProfileFailure] finds the
    profile (in the caller's store, or in the file under the lock), the
    caller's [usageStats] and the file's are the same afterwards. *)
Theorem caller_and_file_agree_after_update
    (normalizeProviderId : string -> string)
    (file : StoreFile) (store : AuthProfileStore) (profileId : string)
    (reason : AuthProfileFailureReason) (cfg : option OpenClawConfig)
    (modelId : option string) (retryAfterMs : option num) (now : Z) :
  is_Some (profiles store !! profileId)
  \/ (lockAvailable file = true
      /\ is_Some (profiles (diskStore file) !! profileId)) ->
  let used := markAuthProfileUsed file store profileId modelId now in
  let failed :=
    markAuthProfileFailure normalizeProviderId file store profileId reason cfg
      modelId retryAfterMs now in
  usageStats (diskStore used.1) = usageStats used.2
  /\ usageStats (diskStore failed.1) = usageStats failed.2.
Proof.
  intros Hknown used failed. subst used failed.
  unfold markAuthProfileUsed, markAuthProfileFailure,
    updateAuthProfileStoreWithLock, markUsedUpdater, markFailureUpdater.
  destruct (lockAvailable file) eqn:Hlock.
  - destruct (profiles (diskStore file) !! profileId) as [c|] eqn:Hdisk.
    + split; reflexivity.
    + destruct Hknown as [[c Hc]|[_ [c Hc]]]; [|discriminate].
      rewrite Hc. split; reflexivity.
  - destruct Hknown as [[c Hc]|[Hl _]]; [|discriminate].
    rewrite Hc. split; reflexivity.
Qed.

Lemma caller_and_file_agree_after_update_witness :
  let store :=
    mkStore (Fin 1) {[ "p1" := ApiKeyCredential "anthropic" None None None ]}
      None None None in
  let stale := mkStore (Fin 1) ∅ None None None in
  usageStats (diskStore (markAuthProfileUsed (mkFile stale true) store "p1" None 1000).1)
  = usageStats (markAuthProfileUsed (mkFile stale true) store "p1" None 1000).2.
Proof.
  intros store stale.
  apply (caller_and_file_agree_after_update (fun s => s) (mkFile stale true) store
           "p1" reason_auth None None None 1000).
  left. eexists. vm_compute. reflexivity.
Defined.

(** X16. The fallback writes the caller's copy over the file.  When the file
    no longer lists the profile (or the lock cannot be taken) but the
    caller's store still does, [markAuthProfileUsed] and
    [markAuthProfileFailure] replace the whole file by the caller's updated
    store: the profile is back in the file, and whatever else the file held
    is gone. *)
Theorem fallback_overwrites_file_with_caller_store
    (normalizeProviderId : string -> string)
    (file : StoreFile) (store : AuthProfileStore) (profileId : string)
    (reason : AuthProfileFailureReason) (cfg : option OpenClawConfig)
    (modelId : option string) (retryAfterMs : option num) (now : Z) :
  is_Some (profiles store !! profileId) ->
  lockAvailable file = false \/ profiles (diskStore file) !! profileId = None ->
  let used := markAuthProfileUsed file store profileId modelId now in
  let failed :=
    markAuthProfileFailure normalizeProviderId file store profileId reason cfg
      modelId retryAfterMs now in
  diskStore used.1 = used.2
  /\ diskStore failed.1 = failed.2
  /\ profiles (diskStore used.1) = profiles store
  /\ profiles (diskStore failed.1) = profiles store.
Proof.
  intros [c Hc] Hgone used failed. subst used failed.
  unfold markAuthProfileUsed, markAuthProfileFailure,
    updateAuthProfileStoreWithLock, markUsedUpdater, markFailureUpdater.
  destruct (lockAvailable file) eqn:Hlock.
  - destruct Hgone as [Hl|Hdisk]; [discriminate|].
    rewrite Hdisk, Hc. repeat split; reflexivity.
  - rewrite Hc. repeat split; reflexivity.
Qed.

Lemma fallback_overwrites_file_with_caller_store_witness :
  let store :=
    mkStore (Fin 1) {[ "p1" := ApiKeyCredential "anthropic" None None None ]}
      None None None in
  let onDisk :=
    mkStore (Fin 1) {[ "p2" := ApiKeyCredential "openai" None None None ]}
      None None None in
  profiles (diskStore (markAuthProfileUsed (mkFile onDisk true) store "p1" None 1000).1)
  = profiles store.
Proof.
  intros store onDisk.
  apply (fallback_overwrites_file_with_caller_store (fun s => s)
           (mkFile onDisk true) store "p1" reason_auth None None None 1000).
  - eexists. vm_compute. reflexivity.
  - right. vm_compute. reflexivity.
Defined.

(** ** Minimum wait *)

Lemma in_cooldown_inv
    (store : AuthProfileStore) (profileId : string)
    (modelId : option string) (now : Z) :
  isProfileInCooldown store profileId modelId now = true ->
  exists u,
    resolveProfileUnusableUntilForDisplay store profileId modelId = Some u
    /\ JsNum.truthy u = true /\ JsNum.lt (Fin now) u = true.
Proof.
  unfold isProfileInCooldown, resolveProfileUnusableUntilForDisplay.
  destruct (usageStatsOf store profileId) as [stats|]; [|discriminate].
  destruct (resolveProfileUnusableUntil stats modelId) as [u|]; [|discriminate].
  destruct (JsNum.truthy u) eqn:Ht; [|discriminate]. eauto.
Qed.

Lemma JsNum_lt_le (x y : num) : JsNum.lt x y = true -> JsNum.le x y = true.
Proof.
  destruct x as [a| | |], y as [b| | |]; try discriminate; try reflexivity.
  rewrite JsNumFacts.lt_Fin, JsNumFacts.le_Fin. lia.
Qed.

Lemma JsNum_not_lt_le (x y : num) :
  x <> NaN -> y <> NaN -> JsNum.lt x y = false -> JsNum.le y x = true.
Proof.
  destruct x as [a| | |], y as [b| | |]; try congruence; try discriminate;
    try reflexivity.
  intros _ _ H. apply JsNumFacts.le_Fin. apply Z.ltb_ge in H. lia.
Qed.

Lemma lt_not_NaN (t : Z) (u : num) : JsNum.lt (Fin t) u = true -> u <> NaN.
Proof. destruct u; try discriminate; congruence. Qed.

Lemma truthy_string_of_nonempty (p : string) :
  p <> "" -> truthy_string (Some p) = Some p.
Proof. destruct p; [congruence|reflexivity]. Qed.

(** What the scan over the candidates yields.  An early return names a
    usable candidate that is not in cooldown.  Otherwise every usable
    candidate is in cooldown and the running minimum ends up at or below the
    instant each of them comes back, at or below its starting value, and is
    either that starting value or the instant of one of the candidates. *)
Lemma scanCandidates_spec
    (store : AuthProfileStore) (m : string) (now : Z)
    (cs : list (option string)) :
  forall acc,
    (forall a, acc = Some a -> a <> NaN) ->
    match scanCandidates store m now cs acc with
    | inl r =>
        r = Fin 0
        /\ exists p, In (Some p) cs /\ p <> ""
                     /\ isProfileInCooldown store p (Some m) now = false
    | inr acc' =>
        (forall a', acc' = Some a' -> a' <> NaN)
        /\ (forall p, In (Some p) cs -> p <> "" ->
              exists u a',
                resolveProfileUnusableUntilForDisplay store p (Some m) = Some u
                /\ JsNum.lt (Fin now) u = true
                /\ acc' = Some a' /\ JsNum.le a' u = true)
        /\ (forall a, acc = Some a ->
              exists a', acc' = Some a' /\ JsNum.le a' a = true)
        /\ (acc' = acc
            \/ exists p a',
                 In (Some p) cs /\ p <> "" /\ acc' = Some a'
                 /\ resolveProfileUnusableUntilForDisplay store p (Some m) = Some a')
    end.
Proof.
  induction cs as [|c rest IH]; intros acc Hacc.
  - cbn. split; [exact Hacc|]. split; [intros p []|]. split; [|left; reflexivity].
    intros a ->. exists a. split; [reflexivity|]. apply JsNum_le_refl. auto.
  - cbn [scanCandidates].
    destruct (truthy_string c) as [p0|] eqn:Hc.
    + apply truthy_string_Some in Hc as [-> Hp0].
      destruct (isProfileInCooldown store p0 (Some m) now) eqn:Hcool; cbn [negb].
      * apply in_cooldown_inv in Hcool as (u & Hu & Htruthy & Hlt).
        rewrite Hu. unfold JsNum.gt. rewrite Htruthy, Hlt. cbn [andb].
        pose proof (lt_not_NaN now u Hlt) as Hnan.
        set (acc1 := match acc with
                     | Some a => if JsNum.lt u a then Some u else Some a
                     | None => Some u
                     end).
        assert (Hacc1 : forall a, acc1 = Some a -> a <> NaN).
        { subst acc1. intros a. destruct acc as [a0|].
          - destruct (JsNum.lt u a0); intros [= <-]; auto.
          - intros [= <-]. exact Hnan. }
        assert (Hle1 : exists a1, acc1 = Some a1 /\ JsNum.le a1 u = true
                        /\ (forall a, acc = Some a -> JsNum.le a1 a = true)
                        /\ (a1 = u \/ acc1 = acc)).
        { subst acc1. destruct acc as [a0|].
          - destruct (JsNum.lt u a0) eqn:Hua.
            + exists u. split; [reflexivity|]. split; [apply JsNum_le_refl, Hnan|].
              split; [|left; reflexivity]. intros a [= <-]. apply JsNum_lt_le, Hua.
            + exists a0. split; [reflexivity|].
              split; [apply JsNum_not_lt_le; auto|].
              split; [|right; reflexivity].
              intros a [= <-]. apply JsNum_le_refl. auto.
          - exists u. split; [reflexivity|]. split; [apply JsNum_le_refl, Hnan|].
            split; [|left; reflexivity]. intros a [=]. }
        destruct Hle1 as (a1 & Ha1 & Ha1u & Ha1acc & Horigin).
        specialize (IH acc1 Hacc1).
        destruct (scanCandidates store m now rest acc1) as [r|acc'].
        -- destruct IH as (-> & p & Hin & Hp & Hfree).
           split; [reflexivity|]. exists p. split; [right; exact Hin|]. auto.
        -- destruct IH as (Hnan' & Hall & Hbelow & Hattained).
           destruct (Hbelow a1 Ha1) as (a' & Ha' & Ha'a1).
           split; [exact Hnan'|]. split; [|split].
           ++ intros p [[= <-]|Hin] Hp.
              ** exists u, a'. repeat split; auto.
                 eapply JsNum_le_trans; eassumption.
              ** apply Hall; assumption.
           ++ intros a Ha. exists a'. split; [exact Ha'|].
              eapply JsNum_le_trans; [exact Ha'a1|]. apply Ha1acc, Ha.
           ++ destruct Hattained as [Hsame|(p & a'' & Hin & Hp & Hacc' & Hres)].
              ** destruct Horigin as [->|Hkeep].
                 --- right. exists p0, u. rewrite Hsame, Ha1.
                     repeat split; auto. left. reflexivity.
                 --- left. congruence.
              ** right. exists p, a''. repeat split; auto. right. exact Hin.
      * split; [reflexivity|]. exists p0. split; [left; reflexivity|]. auto.
    + specialize (IH acc Hacc).
      assert (Hskip : forall p, In (Some p) (c :: rest) -> p <> "" -> In (Some p) rest).
      { intros p [->|Hin] Hp; [|exact Hin].
        rewrite (truthy_string_of_nonempty p Hp) in Hc. discriminate. }
      destruct (scanCandidates store m now rest acc) as [r|acc'].
      * destruct IH as (-> & p & Hin & Hp & Hfree).
        split; [reflexivity|]. exists p. split; [right; exact Hin|]. auto.
      * destruct IH as (Hnan' & Hall & Hbelow & Hattained).
        split; [exact Hnan'|]. split; [|split; [exact Hbelow|]].
        -- intros p Hin Hp. apply Hall; auto.
        -- destruct Hattained as [Hsame|(p & a'' & Hin & Hp & Hacc' & Hres)];
             [left; exact Hsame|].
           right. exists p, a''. repeat split; auto. right. exact Hin.
Qed.

(** X17. The minimum wait is never negative and never [NaN], whatever the
    store holds (a non-finite per-model timer included). *)
Theorem calculateMinimumWaitMs_nonneg
    (store : AuthProfileStore) (profileCandidates : list (option string))
    (modelId : string) (now : Z) :
  JsNum.le (Fin 0) (calculateMinimumWaitMs store profileCandidates modelId now)
  = true.
Proof.
  unfold calculateMinimumWaitMs.
  pose proof (scanCandidates_spec store modelId now profileCandidates None
                ltac:(discriminate)) as Hscan.
  destruct (scanCandidates store modelId now profileCandidates None)
    as [r|[a|]]; [destruct Hscan as [-> _]; reflexivity| |reflexivity].
  destruct Hscan as (_ & _ & _ & [Hsame|(p & a' & _ & _ & [= <-] & Hres)]);
    [discriminate|].
  destruct (JsNum.sub a (Fin now)) as [d| | |] eqn:Hd.
  - rewrite JsNumFacts.max_Fin. apply JsNumFacts.le_Fin. lia.
  - reflexivity.
  - reflexivity.
  - exfalso.
    pose proof (resolve_result) as Hres'.
    unfold resolveProfileUnusableUntilForDisplay in Hres.
    destruct (usageStatsOf store p) as [stats|]; [|discriminate].
    specialize (Hres' stats (Some modelId)). rewrite Hres in Hres'.
    destruct Hres' as [Htruthy _].
    destruct a; try discriminate Hd. discriminate Htruthy.
Qed.

(** X18. The wait is zero as soon as one usable candidate (an entry that is
    a non-empty string) is not in cooldown for the model, wherever it stands
    in the list and whatever the others are. *)
Theorem calculateMinimumWaitMs_zero_when_a_candidate_is_free
    (store : AuthProfileStore) (profileCandidates : list (option string))
    (modelId : string) (now : Z) (profileId : string) :
  In (Some profileId) profileCandidates ->
  profileId <> "" ->
  isProfileInCooldown store profileId (Some modelId) now = false ->
  calculateMinimumWaitMs store profileCandidates modelId now = Fin 0.
Proof.
  intros Hin Hne Hfree. unfold calculateMinimumWaitMs.
  pose proof (scanCandidates_spec store modelId now profileCandidates None
                ltac:(discriminate)) as Hscan.
  destruct (scanCandidates store modelId now profileCandidates None)
    as [r|acc].
  - destruct Hscan as [-> _]. reflexivity.
  - destruct Hscan as (_ & Hall & _).
    destruct (Hall profileId Hin Hne) as (u & a' & Hu & Hlt & _).
    rewrite isProfileInCooldown_by_unusable_until, Hu, Hlt in Hfree.
    discriminate.
Qed.

Lemma calculateMinimumWaitMs_zero_when_a_candidate_is_free_witness :
  let busy :=
    ProfileUsageStats.mk None (Some (Fin 90000)) None None None None None None ∅ in
  let store := mkStore (Fin 1) ∅ None None (Some {[ "p1" := busy ]}) in
  calculateMinimumWaitMs store [Some "p1"; None; Some "p2"] "opus" 1000 = Fin 0.
Proof.
  intros busy store.
  apply (calculateMinimumWaitMs_zero_when_a_candidate_is_free
           store [Some "p1"; None; Some "p2"] "opus" 1000 "p2");
    [right; right; left; reflexivity | discriminate | vm_compute; reflexivity].
Defined.

(** X19. The wait is exactly the time until the first candidate comes back:
    when it is a finite [w] and the list has a usable candidate, some usable
    candidate is out of cooldown for the model at [now + w], and at every
    instant from [now] up to but excluding [now + w] every usable candidate
    is still in cooldown. *)
Theorem calculateMinimumWaitMs_is_earliest_release
    (store : AuthProfileStore) (profileCandidates : list (option string))
    (modelId : string) (now w : Z) (profileId : string) :
  In (Some profileId) profileCandidates ->
  profileId <> "" ->
  calculateMinimumWaitMs store profileCandidates modelId now = Fin w ->
  (exists p, In (Some p) profileCandidates /\ p <> ""
             /\ isProfileInCooldown store p (Some modelId) (now + w) = false)
  /\ (forall p t, In (Some p) profileCandidates -> p <> "" ->
        now <= t < now + w ->
        isProfileInCooldown store p (Some modelId) t = true).
Proof.
  intros Hin Hne Hwait. unfold calculateMinimumWaitMs in Hwait.
  pose proof (scanCandidates_spec store modelId now profileCandidates None
                ltac:(discriminate)) as Hscan.
  destruct (scanCandidates store modelId now profileCandidates None)
    as [r|acc].
  - destruct Hscan as (-> & p & Hp & Hpne & Hfree). injection Hwait as <-.
    split; [|intros p' t _ _ Ht; lia].
    exists p. rewrite Z.add_0_r. auto.
  - destruct Hscan as (_ & Hall & _ & Hattained).
    destruct (Hall profileId Hin Hne) as (u0 & a & _ & _ & -> & _).
    destruct Hattained as [Hsame|(p & a' & Hp & Hpne & [= <-] & Hres)];
      [discriminate|].
    destruct (Hall p Hp Hpne) as (u & a'' & Hu & Hlt & [= <-] & _).
    rewrite Hres in Hu. injection Hu as <-.
    destruct a as [z| | |]; try discriminate Hlt; [|discriminate Hwait].
    apply JsNumFacts.lt_Fin in Hlt.
    rewrite JsNumFacts.sub_Fin, JsNumFacts.max_Fin in Hwait.
    injection Hwait as <-. rewrite Z.max_r by lia.
    replace (now + (z - now)) with z by lia.
    split.
    + exists p. split; [exact Hp|]. split; [exact Hpne|].
      rewrite isProfileInCooldown_by_unusable_until, Hres.
      cbn [JsNum.lt]. apply Z.ltb_irrefl.
    + intros p' t Hp' Hpne' Ht.
      destruct (Hall p' Hp' Hpne') as (u' & a'' & Hu' & _ & [= <-] & Hle).
      rewrite isProfileInCooldown_by_unusable_until, Hu'.
      apply (JsNum_lt_le_trans t (Fin z) u'); [|exact Hle].
      apply JsNumFacts.lt_Fin. lia.
Qed.

Lemma calculateMinimumWaitMs_is_earliest_release_witness :
  let stats (until : Z) :=
    ProfileUsageStats.mk None (Some (Fin until)) None None None None None None ∅ in
  let store :=
    mkStore (Fin 1) ∅ None None
      (Some {[ "p1" := stats 90000; "p2" := stats 31000 ]}) in
  calculateMinimumWaitMs store [Some "p1"; Some "p2"] "opus" 1000 = Fin 30000
  /\ isProfileInCooldown store "p2" (Some "opus") 30999 = true.
Proof.
  intros stats store.
  assert (Hwait :
    calculateMinimumWaitMs store [Some "p1"; Some "p2"] "opus" 1000 = Fin 30000)
    by (vm_compute; reflexivity).
  split; [exact Hwait|].
  destruct (calculateMinimumWaitMs_is_earliest_release
              store [Some "p1"; Some "p2"] "opus" 1000 30000 "p1"
              ltac:(left; reflexivity) ltac:(discriminate) Hwait) as [_ Hbusy].
  apply Hbusy; [right; left; reflexivity | discriminate | lia].
Defined.

(** ** Infinite-retry driver, continued *)

Section InfiniteRetryRuns.

Context {T : Type} (params : RetryParams T).

(** A pass that ends in a qualifying failure, without cancellation: the loop
    goes on, having called [execute] once and slept once. *)
Lemma retryLoop_after_quota_failure (fuel n : nat) (error : Thrown) :
  execute params (S n) = Rejected error ->
  isQuotaFailure error = true ->
  (forall at_, aborted params (S n) at_ = false) ->
  exists notice,
    (match notice with EvExecute _ | EvSlept _ => False | _ => True end)
    /\ retryLoop params (S fuel) n
       = ((retryLoop params fuel (S n)).1,
          ([EvExecute (S n); notice; EvSlept (waitMsAt params (S n))]
             ++ (retryLoop params fuel (S n)).2)%list).
Proof.
  intros Hexec Hquota Hquiet. cbn [retryLoop].
  rewrite (iteration_on_error params (S n) error Hexec Hquiet), Hquota.
  destruct (retryLoop params fuel (S n)) as [outcome later]. cbn [fst snd].
  eexists. split; [|reflexivity]. destruct (onQuotaExhaustion params); exact I.
Qed.

(** The calls of [execute] and the sleeps of a run that fails [k] times with
    a qualifying error and then succeeds, from the counter [n]. *)
Lemma retryLoop_failures_then_success (value : T) :
  forall k n fuel,
    (k < fuel)%nat ->
    (forall i, (n < i <= n + k)%nat ->
       exists error, execute params i = Rejected error
                     /\ isQuotaFailure error = true) ->
    execute params (S (n + k)) = Resolved value ->
    (forall i at_, aborted params i at_ = false) ->
    (retryLoop params fuel n).1 = Some (Resolved value)
    /\ List.filter (fun ev => match ev with EvExecute _ => true | _ => false end)
         (retryLoop params fuel n).2
       = List.map EvExecute (seq (S n) (S k))
    /\ List.filter (fun ev => match ev with EvSlept _ => true | _ => false end)
         (retryLoop params fuel n).2
       = List.map (fun i => EvSlept (waitMsAt params i)) (seq (S n) k).
Proof.
  induction k as [|k IH]; intros n fuel Hfuel Hfail Hok Hquiet.
  - destruct fuel as [|fuel]; [lia|]. rewrite Nat.add_0_r in Hok.
    cbn [retryLoop]. unfold iteration. rewrite Hquiet, Hok. cbn. auto.
  - destruct fuel as [|fuel]; [lia|].
    destruct (Hfail (S n) ltac:(lia)) as (error & Hexec & Hquota).
    destruct (retryLoop_after_quota_failure fuel n error Hexec Hquota
                (fun at_ => Hquiet (S n) at_)) as (notice & Hnotice & ->).
    destruct (IH (S n) fuel ltac:(lia)) as (Hout & Hexecs & Hsleeps).
    { intros i Hi. apply Hfail. lia. }
    { replace (S (S n + k)) with (S (n + S k)) by lia. exact Hok. }
    { exact Hquiet. }
    cbn [fst snd]. split; [exact Hout|].
    cbn [List.filter app]. destruct notice; try contradiction;
      cbn [List.filter app]; rewrite Hexecs, Hsleeps; split; reflexivity.
Qed.

(** X20. A run in which [execute] fails [k] times with a rate-limit or
    timeout [FailoverError] and then succeeds resolves with that success,
    given fuel for [k + 1] passes or more: [execute] is called [k + 1] times,
    with the attempt counter running [1, 2, ..., k + 1], and the driver
    sleeps [k] times, each time for the wait computed on that attempt. *)
Theorem retries_until_success (k fuel : nat) (value : T) :
  (k < fuel)%nat ->
  (forall i, (1 <= i <= k)%nat ->
     exists error, execute params i = Rejected error
                   /\ isQuotaFailure error = true) ->
  execute params (S k) = Resolved value ->
  (forall i at_, aborted params i at_ = false) ->
  (withInfiniteRetry params fuel).1 = Some (Resolved value)
  /\ List.filter (fun ev => match ev with EvExecute _ => true | _ => false end)
       (withInfiniteRetry params fuel).2
     = List.map EvExecute (seq 1 (S k))
  /\ List.filter (fun ev => match ev with EvSlept _ => true | _ => false end)
       (withInfiniteRetry params fuel).2
     = List.map (fun i => EvSlept (waitMsAt params i)) (seq 1 k).
Proof.
  intros Hfuel Hfail Hok Hquiet. unfold withInfiniteRetry.
  apply retryLoop_failures_then_success; [exact Hfuel | | exact Hok | exact Hquiet].
  intros i Hi. apply Hfail. lia.
Qed.

(** X21. There is no retry budget: while every attempt fails with a
    rate-limit or timeout [FailoverError] and nobody cancels, the loop has
    not ended after any number of passes, and has called [execute] once per
    pass. *)
Theorem no_retry_budget (fuel : nat) :
  (forall i, exists error, execute params i = Rejected error
                           /\ isQuotaFailure error = true) ->
  (forall i at_, aborted params i at_ = false) ->
  (withInfiniteRetry params fuel).1 = None
  /\ List.filter (fun ev => match ev with EvExecute _ => true | _ => false end)
       (withInfiniteRetry params fuel).2
     = List.map EvExecute (seq 1 fuel).
Proof.
  intros Hfail Hquiet. unfold withInfiniteRetry.
  generalize 0%nat as n. induction fuel as [|fuel IH]; intros n.
  - split; reflexivity.
  - destruct (Hfail (S n)) as (error & Hexec & Hquota).
    destruct (retryLoop_after_quota_failure fuel n error Hexec Hquota
                (fun at_ => Hquiet (S n) at_)) as (notice & Hnotice & ->).
    destruct (IH (S n)) as [Hout Hexecs].
    cbn [fst snd]. split; [exact Hout|].
    cbn [List.filter app]. destruct notice; try contradiction;
      cbn [List.filter app]; rewrite Hexecs; reflexivity.
Qed.

(** X22. Cancellation.  Seen at the top of the loop, it rejects with
    "Task aborted by user" before [execute] is called.  Seen after [execute]
    has thrown, it rethrows that error untouched, qualifying or not, without
    notice or sleep.  Arriving during the cooldown wait, it rejects with
    "Task aborted during cooldown wait" and [execute] is not called again.
    But a result that [execute] delivers is returned even if cancellation
    was requested while it ran. *)
Theorem cancellation_behaviour (fuel n : nat) :
  (aborted params (S n) LoopTop = true ->
   retryLoop params (S fuel) n
   = (Some (Rejected (PlainError "Task aborted by user")), []))
  /\ (forall error,
        aborted params (S n) LoopTop = false ->
        execute params (S n) = Rejected error ->
        aborted params (S n) AfterExecute = true ->
        retryLoop params (S fuel) n
        = (Some (Rejected error), [EvExecute (S n)]))
  /\ (forall error,
        aborted params (S n) LoopTop = false ->
        execute params (S n) = Rejected error ->
        aborted params (S n) AfterExecute = false ->
        isQuotaFailure error = true ->
        aborted params (S n) SleepStart = false ->
        aborted params (S n) DuringSleep = true ->
        (retryLoop params (S fuel) n).1
        = Some (Rejected (PlainError "Task aborted during cooldown wait"))
        /\ List.filter
             (fun ev => match ev with
                        | EvExecute _ | EvSlept _ => true
                        | _ => false
                        end)
             (retryLoop params (S fuel) n).2
           = [EvExecute (S n)])
  /\ (forall value,
        aborted params (S n) LoopTop = false ->
        execute params (S n) = Resolved value ->
        retryLoop params (S fuel) n
        = (Some (Resolved value), [EvExecute (S n)])).
Proof.
  cbn [retryLoop]. unfold iteration, sleepWithAbort.
  split; [|split; [|split]].
  - intros ->. reflexivity.
  - intros error -> -> ->. reflexivity.
  - intros error -> -> -> -> -> ->. cbn [fst snd].
    split; [reflexivity|]. destruct (onQuotaExhaustion params); reflexivity.
  - intros value -> ->. reflexivity.
Qed.

End InfiniteRetryRuns.

(** Scenario E7: one rate-limit failure, then success; the single candidate
    is in cooldown for another two seconds when the wait is computed. *)
Lemma retries_until_success_witness :
  let stats :=
    ProfileUsageStats.mk None (Some (Fin 12000)) None None (Some (Fin 1))
      None (Some (Fin 5000)) None ∅ in
  let store := mkStore (Fin 1) ∅ None None (Some {[ "p1" := stats ]}) in
  let params :=
    mkRetryParams nat
      (fun attempt =>
         match attempt with
         | 1%nat => Rejected (FailoverError reason_rate_limit "429")
         | _ => Resolved 7%nat
         end)
      true (Some (fun _ => store)) (Some [Some "p1"]) (Some "opus")
      (Some "anthropic") None (fun _ => 10000) in
  (withInfiniteRetry params 5).1 = Some (Resolved 7%nat)
  /\ List.filter (fun ev => match ev with EvSlept _ => true | _ => false end)
       (withInfiniteRetry params 5).2
     = [EvSlept (Fin 2000)].
Proof.
  intros stats store params.
  destruct (retries_until_success params 1 5 7%nat) as (Hout & _ & Hsleeps).
  - lia.
  - intros i Hi. assert (i = 1%nat) as -> by lia.
    eexists. split; reflexivity.
  - reflexivity.
  - intros i at_. reflexivity.
  - split; [exact Hout|]. rewrite Hsleeps. vm_compute. reflexivity.
Defined.

Lemma no_retry_budget_witness :
  (withInfiniteRetry
     (mkRetryParams nat (fun _ => Rejected (FailoverError reason_timeout "slow"))
        false None None None None None (fun _ => 0))
     50).1 = None.
Proof.
  apply (no_retry_budget
           (mkRetryParams nat
              (fun _ => Rejected (FailoverError reason_timeout "slow"))
              false None None None None None (fun _ => 0)) 50).
  - intros i. eexists. split; reflexivity.
  - intros i at_. reflexivity.
Defined.

(** ** Retry-After extractor, continued *)

Lemma JsNum_mul_1000_nonneg (n : num) :
  JsNum.le (Fin 0) n = true -> JsNum.le (Fin 0) (JsNum.mul n (Fin 1000)) = true.
Proof.
  destruct n as [z| | |]; try discriminate; [|reflexivity].
  intros H%JsNumFacts.le_Fin. apply JsNumFacts.le_Fin. lia.
Qed.

(** X23. The only way to a negative or [NaN] result is a direct numeric
    property that is itself negative or [NaN]: if [retryAfter] and
    [retry_after], where they are numbers, are not negative, then whatever
    [extractRetryAfterMs] returns is not negative. *)
Theorem extractRetryAfterMs_nonneg_for_nonneg_properties
    (Date_parse : string -> num) (ToString : JsVal -> string)
    (error : JsVal) (now : Z) (ms : num) :
  (forall n, Js.get error "retryAfter" = JNum n \/ Js.get error "retry_after" = JNum n ->
     JsNum.le (Fin 0) n = true) ->
  extractRetryAfterMs Date_parse ToString error now = Some ms ->
  JsNum.le (Fin 0) ms = true.
Proof.
  intros Hdirect. unfold extractRetryAfterMs.
  destruct (negb (Js.truthy error) || negb (Js.typeofObject error)); [discriminate|].
  destruct (retryAfterFromHeaders Date_parse ToString error now) as [h|] eqn:Hh.
  - intros [= <-]. eapply retryAfterFromHeaders_nonneg. exact Hh.
  - destruct (Js.get error "retryAfter") as [ | |b|n|s|items|props] eqn:Ha.
    4: { intros [= <-]. apply JsNum_mul_1000_nonneg, Hdirect. left. reflexivity. }
    all: destruct (Js.get error "retry_after") as [ | |b'|n'|s'|items'|props'] eqn:Hb;
      try discriminate;
      intros [= <-]; apply JsNum_mul_1000_nonneg, Hdirect; right; reflexivity.
Qed.

Lemma extractRetryAfterMs_nonneg_for_nonneg_properties_witness :
  extractRetryAfterMs (fun _ => NaN) (fun _ => "")
    (JObj [("retry_after", JNum (Fin 30))]) 0 = Some (Fin 30000)
  /\ JsNum.le (Fin 0) (Fin 30000) = true.
Proof.
  split; [reflexivity|].
  apply (extractRetryAfterMs_nonneg_for_nonneg_properties
           (fun _ => NaN) (fun _ => "") (JObj [("retry_after", JNum (Fin 30))]) 0).
  - intros n [H|H]; vm_compute in H; [discriminate|].
    injection H as <-. reflexivity.
  - reflexivity.
Defined.

Lemma spanDigits_of_digits (s : string) :
  List.Forall (fun c => Js.isDigit c = true) (list_ascii_of_string s) ->
  Js.spanDigits s = (s, "").
Proof.
  induction s as [|c rest IH]; [reflexivity|].
  cbn [list_ascii_of_string Js.spanDigits]. intros Hall.
  inversion Hall as [|? ? Hc Hrest]; subst.
  rewrite Hc, (IH Hrest). reflexivity.
Qed.

(** What the extractor does once it has found a [retry-after] header whose
    first value is a non-empty string. *)
Lemma extract_with_header_string
    (Date_parse : string -> num) (ToString : JsVal -> string)
    (props headers : list (string * JsVal)) (key s : string)
    (more : list JsVal) (now : Z) :
  Js.get (JObj props) "headers" = JObj headers ->
  List.find (fun k => String.eqb (Js.toLowerCase k) "retry-after")
    (Js.keys (JObj headers)) = Some key ->
  Js.get (JObj headers) key = JStr s
  \/ Js.get (JObj headers) key = JArr (JStr s :: more) ->
  s <> "" ->
  extractRetryAfterMs Date_parse ToString (JObj props) now
  = if Js.isDecimalSeconds s then
      Some (Fin (Qceiling (Js.parseFloat s * inject_Z 1000)))
    else
      match Date_parse s with
      | NaN =>
          match Js.get (JObj props) "retryAfter" with
          | JNum retryAfter => Some (JsNum.mul retryAfter (Fin 1000))
          | _ =>
              match Js.get (JObj props) "retry_after" with
              | JNum retry_after => Some (JsNum.mul retry_after (Fin 1000))
              | _ => None
              end
          end
      | date =>
          Some (if JsNum.gt (JsNum.sub date (Fin now)) (Fin 0)
                then JsNum.sub date (Fin now) else Fin 0)
      end.
Proof.
  intros Hheaders Hfind Hval Hs.
  unfold extractRetryAfterMs, retryAfterFromHeaders.
  cbn [Js.truthy Js.typeofObject negb orb].
  rewrite Hheaders. cbn [Js.truthy Js.typeofObject andb]. rewrite Hfind.
  assert (Hfirst :
    match Js.get (JObj headers) key with
    | JArr items => List.hd JUndefined items
    | _ => Js.get (JObj headers) key
    end = JStr s).
  { destruct Hval as [-> | ->]; reflexivity. }
  cbv zeta. rewrite Hfirst. cbn [Js.truthy toStr].
  destruct s as [|ch s']; [congruence|]. cbn [str_truthy].
  destruct (Js.isDecimalSeconds (String ch s')); [reflexivity|].
  destruct (Date_parse (String ch s')); reflexivity.
Qed.

(** X24. A [retry-after] header made of digits is read as whole seconds:
    the result is that number times 1000.  The header is found whatever the
    case of its name, its first value is taken when it is an array, and it
    wins over any [retryAfter] or [retry_after] property of the error. *)
Theorem retry_after_header_in_seconds
    (Date_parse : string -> num) (ToString : JsVal -> string)
    (props headers : list (string * JsVal)) (key s : string)
    (more : list JsVal) (now : Z) :
  Js.get (JObj props) "headers" = JObj headers ->
  List.find (fun k => String.eqb (Js.toLowerCase k) "retry-after")
    (Js.keys (JObj headers)) = Some key ->
  Js.get (JObj headers) key = JStr s
  \/ Js.get (JObj headers) key = JArr (JStr s :: more) ->
  s <> "" ->
  List.Forall (fun c => Js.isDigit c = true) (list_ascii_of_string s) ->
  extractRetryAfterMs Date_parse ToString (JObj props) now
  = Some (Fin (Js.digitsValue s * 1000)).
Proof.
  intros Hheaders Hfind Hval Hs Hdigits.
  rewrite (extract_with_header_string Date_parse ToString props headers key s
             more now Hheaders Hfind Hval Hs).
  unfold Js.isDecimalSeconds, Js.parseFloat.
  rewrite (spanDigits_of_digits s Hdigits).
  destruct s as [|ch s']; [congruence|].
  rewrite <- inject_Z_mult, Qceiling_Z. reflexivity.
Qed.

Lemma retry_after_header_in_seconds_witness :
  extractRetryAfterMs (fun _ => NaN) (fun _ => "")
    (JObj [("status", JNum (Fin 429));
           ("retryAfter", JNum (Fin 7));
           ("headers", JObj [("content-type", JStr "application/json");
                             ("Retry-After", JArr [JStr "120"; JStr "5"])])])
    0
  = Some (Fin 120000).
Proof.
  apply (retry_after_header_in_seconds _ _ _
           [("content-type", JStr "application/json");
            ("Retry-After", JArr [JStr "120"; JStr "5"])]
           "Retry-After" "120" [JStr "5"]);
    [reflexivity | reflexivity | right; reflexivity | discriminate
    | repeat constructor].
Defined.

(** X25. A [retry-after] header that is not a decimal number is read as a
    date: the result is the time left until that date, and [0] when the date
    is now or in the past.  When the text is no date either, the header is
    ignored and the direct properties decide. *)
Theorem retry_after_header_as_date
    (Date_parse : string -> num) (ToString : JsVal -> string)
    (props headers : list (string * JsVal)) (key s : string)
    (more : list JsVal) (now : Z) :
  Js.get (JObj props) "headers" = JObj headers ->
  List.find (fun k => String.eqb (Js.toLowerCase k) "retry-after")
    (Js.keys (JObj headers)) = Some key ->
  Js.get (JObj headers) key = JStr s
  \/ Js.get (JObj headers) key = JArr (JStr s :: more) ->
  s <> "" ->
  Js.isDecimalSeconds s = false ->
  (forall date, Date_parse s = Fin date ->
     extractRetryAfterMs Date_parse ToString (JObj props) now
     = Some (Fin (Z.max 0 (date - now))))
  /\ (Date_parse s = NaN ->
      extractRetryAfterMs Date_parse ToString (JObj props) now
      = match Js.get (JObj props) "retryAfter" with
        | JNum retryAfter => Some (JsNum.mul retryAfter (Fin 1000))
        | _ =>
            match Js.get (JObj props) "retry_after" with
            | JNum retry_after => Some (JsNum.mul retry_after (Fin 1000))
            | _ => None
            end
        end).
Proof.
  intros Hheaders Hfind Hval Hs Hnot.
  rewrite (extract_with_header_string Date_parse ToString props headers key s
             more now Hheaders Hfind Hval Hs), Hnot.
  split.
  - intros date ->. cbv iota beta. unfold JsNum.gt, JsNum.sub.
    cbn [JsNum.neg JsNum.add JsNum.lt].
    destruct (Z.ltb_spec 0 (date + - now)); do 2 f_equal; lia.
  - intros ->. reflexivity.
Qed.

Lemma retry_after_header_as_date_witness :
  extractRetryAfterMs
    (fun s => if String.eqb s "Wed, 21 Oct 2015 07:28:00 GMT" then Fin 1445412480000 else NaN)
    (fun _ => "")
    (JObj [("headers", JObj [("retry-after", JStr "Wed, 21 Oct 2015 07:28:00 GMT")])])
    1445412500000
  = Some (Fin 0).
Proof.
  destruct (retry_after_header_as_date
              (fun s => if String.eqb s "Wed, 21 Oct 2015 07:28:00 GMT"
                        then Fin 1445412480000 else NaN)
              (fun _ => "")
              [("headers", JObj [("retry-after", JStr "Wed, 21 Oct 2015 07:28:00 GMT")])]
              [("retry-after", JStr "Wed, 21 Oct 2015 07:28:00 GMT")]
              "retry-after" "Wed, 21 Oct 2015 07:28:00 GMT" [] 1445412500000
              eq_refl eq_refl (or_introl eq_refl) ltac:(discriminate) eq_refl)
    as [Hdate _].
  apply (Hdate 1445412480000). reflexivity.
Defined.

(** ** Verified write tool *)

Section VerifiedWriteToolFacts.

Variable path_resolve : string -> string -> string.
Variable originalExecute :
  string -> JsVal -> gset string -> (Thrown + JsVal) * gset string.

(** X26. When the verified tool resolves, the original tool resolved with
    the same result, and if the parameters carry a string path ([path], or
    [file_path] when [path] is missing or falsy) the file it resolves to
    exists on disk. *)
Theorem verified_write_success_means_file_exists
    (workspaceRoot toolUseId : string) (params result : JsVal)
    (disk disk' : gset string) :
  verifiedExecute path_resolve originalExecute workspaceRoot toolUseId params disk
  = (inr result, disk') ->
  originalExecute toolUseId params disk = (inr result, disk')
  /\ (forall rawPath, rawPathOf params = JStr rawPath ->
        path_resolve workspaceRoot rawPath ∈ disk').
Proof.
  unfold verifiedExecute.
  destruct (originalExecute toolUseId params disk) as [[error|res] after];
    [discriminate|].
  destruct (rawPathOf params) as [ | |b|n|s|items|props] eqn:Hraw;
    try (intros [= <- <-]; split; [reflexivity|intros rawPath [=]]).
  destruct (bool_decide (path_resolve workspaceRoot s ∈ after)) eqn:Hexists;
    cbn [negb]; [|discriminate].
  intros [= <- <-]. split; [reflexivity|].
  intros rawPath [= <-]. apply bool_decide_eq_true in Hexists. exact Hexists.
Qed.

(** X27. How the verified tool fails.  A failure of the original tool is
    passed on as it is.  A result of the original tool is discarded when the
    file named by the string path is not on disk afterwards: the promise
    rejects with a [WriteVerificationError] that carries the path as it was
    given, not as it was resolved.  In no case does the wrapper change what
    is on disk. *)
Theorem verified_write_failure_modes
    (workspaceRoot toolUseId : string) (params : JsVal) (disk : gset string) :
  let original := originalExecute toolUseId params disk in
  let verified :=
    verifiedExecute path_resolve originalExecute workspaceRoot toolUseId params
      disk in
  verified.2 = original.2
  /\ (forall error, original.1 = inl error ->
        verified.1 = inl (OriginalToolFailure error))
  /\ (forall result rawPath,
        original.1 = inr result ->
        rawPathOf params = JStr rawPath ->
        path_resolve workspaceRoot rawPath ∉ original.2 ->
        verified.1 = inl (WriteVerificationError rawPath))
  /\ (forall filePath, verified.1 = inl (WriteVerificationError filePath) ->
        rawPathOf params = JStr filePath
        /\ (path_resolve workspaceRoot filePath ∉ original.2)
        /\ (exists result, original.1 = inr result)).
Proof.
  cbv zeta. unfold verifiedExecute.
  destruct (originalExecute toolUseId params disk) as [[error|res] after];
    cbn [fst snd].
  - split; [reflexivity|]. split; [intros e [= <-]; reflexivity|].
    split; [intros result rawPath [=]|]. intros filePath [=].
  - destruct (rawPathOf params) as [ | |b|n|s|items|props] eqn:Hraw;
      try (split; [reflexivity|]; split; [intros e [=]|];
           split; [intros result rawPath _ [=]|intros filePath [=]]).
    destruct (bool_decide (path_resolve workspaceRoot s ∈ after)) eqn:Hexists;
      cbn [negb fst snd].
    + apply bool_decide_eq_true in Hexists.
      split; [reflexivity|]. split; [intros e [=]|].
      split; [intros result rawPath _ [= <-] Hmissing; contradiction|].
      intros filePath [=].
    + apply bool_decide_eq_false in Hexists.
      split; [reflexivity|]. split; [intros e [=]|].
      split; [intros result rawPath _ [= <-] _; reflexivity|].
      intros filePath [= <-]. eauto.
Qed.

(** X28. Which path is checked.  A truthy [path] is the one looked at, and
    [file_path] only when [path] is missing or falsy (the empty string
    included).  When the value looked at is not a string, nothing is
    verified: the original outcome is passed through, even if [file_path]
    names a file that does not exist. *)
Theorem verified_write_checks_only_a_string_path
    (workspaceRoot toolUseId : string) (params : JsVal) (disk : gset string) :
  (Js.truthy (Js.get params "path") = true ->
   rawPathOf params = Js.get params "path")
  /\ (Js.truthy (Js.get params "path") = false ->
      rawPathOf params = Js.get params "file_path")
  /\ ((forall rawPath, rawPathOf params <> JStr rawPath) ->
      forall result after,
        originalExecute toolUseId params disk = (inr result, after) ->
        verifiedExecute path_resolve originalExecute workspaceRoot toolUseId
          params disk
        = (inr result, after)).
Proof.
  unfold rawPathOf, verifiedExecute. split; [|split].
  - intros ->. reflexivity.
  - intros ->. reflexivity.
  - intros Hnostring result after ->. fold (rawPathOf params) in *.
    destruct (rawPathOf params) as [ | |b|n|s|items|props]; try reflexivity.
    destruct (Hnostring s eq_refl).
Qed.

End VerifiedWriteToolFacts.

(** A write that reports success although the file is not there. *)
Lemma verified_write_success_means_file_exists_witness :
  let resolve (root raw : string) := (root ++ "/" ++ raw)%string in
  let writes (id : string) (params : JsVal) (disk : gset string)
      : (Thrown + JsVal) * gset string :=
    match Js.get params "path" with
    | JStr raw => (inr (JStr "ok"), {[ resolve "/ws" raw ]} ∪ disk)
    | _ => (inr (JStr "ok"), disk)
    end in
  "/ws/notes.md" ∈
    (verifiedExecute resolve writes "/ws" "call-1"
       (JObj [("path", JStr "notes.md")]) ∅).2.
Proof.
  intros resolve writes.
  destruct (verified_write_success_means_file_exists resolve writes "/ws"
              "call-1" (JObj [("path", JStr "notes.md")]) (JStr "ok") ∅
              ({[ "/ws/notes.md" ]} ∪ ∅)) as [_ Hexists].
  - vm_compute. reflexivity.
  - change ((verifiedExecute resolve writes "/ws" "call-1"
               (JObj [("path", JStr "notes.md")]) ∅).2)
      with ({[ "/ws/notes.md" ]} ∪ (∅ : gset string)).
    apply (Hexists "notes.md"). reflexivity.
Defined.

Lemma verified_write_checks_only_a_string_path_witness :
  verifiedExecute (fun root raw => (root ++ "/" ++ raw)%string)
    (fun _ _ disk => (inr (JStr "ok"), disk)) "/ws" "call-1"
    (JObj [("path", JNum (Fin 5)); ("file_path", JStr "missing.md")]) ∅
  = (inr (JStr "ok"), ∅).
Proof.
  destruct (verified_write_checks_only_a_string_path
              (fun root raw => (root ++ "/" ++ raw)%string)
              (fun _ _ disk => (inr (JStr "ok"), disk)) "/ws" "call-1"
              (JObj [("path", JNum (Fin 5)); ("file_path", JStr "missing.md")]) ∅)
    as (_ & _ & Hskip).
  apply Hskip; [|reflexivity].
  intros rawPath H. vm_compute in H. discriminate.
Defined.

(** ** Billing backoff under any configuration *)

(** X29. For every finite base and cap, also a cap below the base, and every
    count that is a number, the billing backoff is at least one minute and
    at least the base, and at most the larger of the base and the cap: a cap
    configured below the base is raised to it rather than obeyed.  A first
    failure (count one or less) gives exactly the base, or one minute if the
    base is shorter. *)
Theorem billing_backoff_between_base_and_cap (n : num) (baseMs maxMs : Z) :
  n <> NaN ->
  exists backoff,
    calculateAuthProfileBillingDisableMsWithConfig n (Fin baseMs) (Fin maxMs)
    = Fin backoff
    /\ Z.max 60000 baseMs <= backoff <= Z.max (Z.max 60000 baseMs) maxMs
    /\ (JsNum.le n (Fin 1) = true -> backoff = Z.max 60000 baseMs).
Proof.
  intros Hn. unfold calculateAuthProfileBillingDisableMsWithConfig.
  rewrite !JsNumFacts.max_Fin.
  set (B := Z.max 60000 baseMs).
  assert (Hexp : exists k,
    JsNum.min (JsNum.sub (JsNum.max (Fin 1) n) (Fin 1)) (Fin 10) = Fin k
    /\ 0 <= k <= 10 /\ (JsNum.le n (Fin 1) = true -> k = 0)).
  { destruct n as [z| | |]; [| | |congruence].
    - rewrite JsNumFacts.max_Fin, JsNumFacts.sub_Fin, JsNumFacts.min_Fin.
      eexists. split; [reflexivity|]. split; [lia|].
      intros H%JsNumFacts.le_Fin. lia.
    - exists 10. split; [reflexivity|]. split; [lia|discriminate].
    - exists 0. split; [reflexivity|]. split; [lia|reflexivity]. }
  destruct Hexp as (k & -> & Hk & Hfirst).
  rewrite JsNumFacts.pow_Fin_nonneg by lia.
  cbn [JsNum.mul]. rewrite JsNumFacts.min_Fin.
  eexists. split; [reflexivity|].
  assert (1 <= 2 ^ k) by (apply Z.pow_le_mono_r with (b := 0) (c := k) (a := 2); lia).
  assert (60000 <= B) by (subst B; lia).
  split; [nia|].
  intros Hle. rewrite (Hfirst Hle). lia.
Qed.

Lemma billing_backoff_between_base_and_cap_witness :
  calculateAuthProfileBillingDisableMsWithConfig (Fin 3) (Fin 18000000) (Fin 3600000)
  = Fin 18000000.
Proof.
  destruct (billing_backoff_between_base_and_cap (Fin 3) 18000000 3600000
              ltac:(discriminate)) as (backoff & Heq & [Hlo Hhi] & _).
  rewrite Heq. f_equal. lia.
Defined.

(** ** What a manual clear lifts and what it leaves *)

(** When the caller's copy of the profile's statistics is the file's,
    [clearAuthProfileCooldown] leaves the caller with [clearCooldownIn] of
    those statistics, on either path. *)
Lemma clear_of_current_statistics
    (file : StoreFile) (store : AuthProfileStore) (profileId : string)
    (modelId : option string) (stats : ProfileUsageStats.t) :
  usageStatsOf store profileId = Some stats ->
  usageStatsOf (diskStore file) profileId = Some stats ->
  exists src us,
    usageStats src = Some us /\ us !! profileId = Some stats
    /\ forall q,
         usageStatsOf (clearAuthProfileCooldown file store profileId modelId).2 q
         = usageStatsOf (clearCooldownIn src us profileId stats modelId) q.
Proof.
  intros Hmem Hdisk.
  unfold clearAuthProfileCooldown, updateAuthProfileStoreWithLock,
    clearCooldownUpdater.
  unfold usageStatsOf in Hmem, Hdisk.
  destruct (usageStats store) as [us|] eqn:Hus; [|discriminate].
  destruct (usageStats (diskStore file)) as [ud|] eqn:Hud; [|discriminate].
  destruct (lockAvailable file).
  - rewrite Hdisk. cbn [snd]. exists (diskStore file), ud. auto.
  - rewrite Hmem. cbn [snd]. exists store, us. auto.
Qed.

(** X30. A manual clear lifts only what it names.  With the caller's copy
    of the statistics current: a billing disable that lies ahead keeps the
    profile in cooldown after any clear; a clear without a model identifier
    leaves a model's own cooldown in force; a clear for one model leaves the
    profile-wide cooldown in force; and a clear without a model identifier on
    a profile that is not disabled makes it eligible for requests that name no
    model, at once. *)
Theorem manual_clear_lifts_only_what_it_names
    (file : StoreFile) (store : AuthProfileStore) (profileId : string)
    (stats : ProfileUsageStats.t) :
  usageStatsOf store profileId = Some stats ->
  usageStatsOf (diskStore file) profileId = Some stats ->
  let cleared (modelId : option string) :=
    (clearAuthProfileCooldown file store profileId modelId).2 in
  (forall modelId asked until t,
     ProfileUsageStats.disabledUntil stats = Some (Fin until) ->
     0 <= t < until ->
     isProfileInCooldown (cleared modelId) profileId asked t = true)
  /\ (forall m ms until t,
        m <> "" ->
        modelStatsOf stats m = Some ms ->
        ModelUsageStats.cooldownUntil ms = Some (Fin until) ->
        0 <= t < until ->
        isProfileInCooldown (cleared None) profileId (Some m) t = true)
  /\ (forall m asked until t,
        m <> "" ->
        ProfileUsageStats.cooldownUntil stats = Some (Fin until) ->
        0 <= t < until ->
        isProfileInCooldown (cleared (Some m)) profileId asked t = true)
  /\ (ProfileUsageStats.disabledUntil stats = None ->
      forall t, isProfileInCooldown (cleared None) profileId None t = false).
Proof.
  intros Hmem Hdisk cleared.
  assert (Hafter : forall modelId,
    exists stats',
      usageStatsOf (cleared modelId) profileId = Some stats'
      /\ ProfileUsageStats.disabledUntil stats' = ProfileUsageStats.disabledUntil stats
      /\ match truthy_string modelId with
         | None =>
             ProfileUsageStats.cooldownUntil stats' = None
             /\ ProfileUsageStats.modelStats stats' = ProfileUsageStats.modelStats stats
         | Some _ =>
             ProfileUsageStats.cooldownUntil stats'
             = ProfileUsageStats.cooldownUntil stats
         end).
  { intros modelId. subst cleared. cbv beta.
    destruct (clear_of_current_statistics file store profileId modelId stats
                Hmem Hdisk) as (src & us & Hus & Hst & Hout).
    destruct (clearCooldownIn_lookup src us profileId stats modelId Hus Hst)
      as [(stats' & Hlook & _ & Hd & _ & _ & _ & _ & Hcase) _].
    exists stats'. rewrite Hout. split; [exact Hlook|]. split; [exact Hd|].
    destruct (truthy_string modelId); tauto. }
  split; [|split; [|split]].
  - intros modelId asked until t Hdis Ht.
    destruct (Hafter modelId) as (stats' & Hlook & Hd & _).
    apply (timer_ahead_means_cooldown _ profileId stats' asked t until);
      [exact Hlook | right; left; congruence | exact Ht].
  - intros m ms until t Hm Hms Hcool Ht.
    destruct (Hafter None) as (stats' & Hlook & _ & _ & Hmodels).
    apply (timer_ahead_means_cooldown _ profileId stats' (Some m) t until);
      [exact Hlook | | exact Ht].
    right; right. exists m, ms. split; [apply truthy_string_of_nonempty, Hm|].
    split; [|exact Hcool]. unfold modelStatsOf in *. rewrite Hmodels. exact Hms.
  - intros m asked until t Hm Hcool Ht.
    destruct (Hafter (Some m)) as (stats' & Hlook & _ & Hkeep).
    rewrite (truthy_string_of_nonempty m Hm) in Hkeep.
    apply (timer_ahead_means_cooldown _ profileId stats' asked t until);
      [exact Hlook | left; congruence | exact Ht].
  - intros Hnot t.
    destruct (Hafter None) as (stats' & Hlook & Hd & Hcool & _).
    unfold isProfileInCooldown. rewrite Hlook.
    unfold resolveProfileUnusableUntil. rewrite Hcool, Hd, Hnot. reflexivity.
Qed.

Lemma manual_clear_lifts_only_what_it_names_witness :
  let stats :=
    ProfileUsageStats.mk None (Some (Fin 500000)) (Some (Fin 18000000))
      (Some reason_billing) (Some (Fin 3)) (Some {[ reason_billing := Fin 1 ]})
      (Some (Fin 100)) None ∅ in
  let store := mkStore (Fin 1) ∅ None None (Some {[ "p1" := stats ]}) in
  isProfileInCooldown
    (clearAuthProfileCooldown (mkFile store true) store "p1" None).2
    "p1" None 600000 = true.
Proof.
  intros stats store.
  destruct (manual_clear_lifts_only_what_it_names (mkFile store true) store "p1"
              stats ltac:(vm_compute; reflexivity) ltac:(vm_compute; reflexivity))
    as [Hdisabled _].
  apply (Hdisabled None None 18000000 600000); [reflexivity|lia].
Defined.

(** ** Further instances *)

(** A rate limit on one model with a Retry-After hint of two and a half
    seconds. *)
Lemma retry_after_overrides_computed_backoff_witness :
  (modelStatsOf
     (computeNextProfileUsageStats ProfileUsageStats.empty (Fin 1000)
        reason_rate_limit
        (mkCooldownConfig (Fin 18000000) (Fin 86400000) (Fin 86400000))
        (Some "opus") (Some (Fin 2500)))
     "opus" ≫= ModelUsageStats.cooldownUntil)
  = Some (Fin 3500).
Proof.
  destruct (retry_after_overrides_computed_backoff ProfileUsageStats.empty
              (Fin 1000) (Fin 2500) reason_rate_limit
              (mkCooldownConfig (Fin 18000000) (Fin 86400000) (Fin 86400000))
              (Some "opus")) as (_ & Hmodel & _).
  destruct (Hmodel "opus" eq_refl ltac:(discriminate) (or_introl eq_refl))
    as [Hcool _].
  exact Hcool.
Defined.

(** A signal that is already aborted when the driver starts. *)
Lemma cancellation_behaviour_witness :
  withInfiniteRetry
    (mkRetryParams nat (fun _ => Resolved 1%nat) false None None None None
       (Some (fun _ _ => true)) (fun _ => 0))
    1
  = (Some (Rejected (PlainError "Task aborted by user")), []).
Proof.
  destruct (cancellation_behaviour
              (mkRetryParams nat (fun _ => Resolved 1%nat) false None None None
                 None (Some (fun _ _ => true)) (fun _ => 0))
              0 0) as [Htop _].
  apply Htop. reflexivity.
Defined.

(** A tool that reports success without writing anything. *)
Lemma verified_write_failure_modes_witness :
  (verifiedExecute (fun root raw => (root ++ "/" ++ raw)%string)
     (fun _ _ disk => (inr (JStr "ok"), disk)) "/ws" "call-1"
     (JObj [("file_path", JStr "notes.md")]) ∅).1
  = inl (WriteVerificationError "notes.md").
Proof.
  destruct (verified_write_failure_modes
              (fun root raw => (root ++ "/" ++ raw)%string)
              (fun _ _ disk => (inr (JStr "ok"), disk)) "/ws" "call-1"
              (JObj [("file_path", JStr "notes.md")]) ∅)
    as (_ & _ & Hmissing & _).
  apply (Hmissing (JStr "ok") "notes.md"); [reflexivity | reflexivity|].
  cbn [snd]. apply not_elem_of_empty.
Defined.
